(** * Serverless handlers for WaveApps invoicing and contract upload

    A shallow embedding of the five handler files of the repository:
    the invoice endpoint, the two listing endpoints, the business
    discovery script, the contract upload endpoint and the product
    provisioning endpoint.

    JavaScript values are embedded as a first-order datatype, numbers as
    IEEE binary64 floats (the kernel's primitive floats), strings as
    sequences of UTF-16 code units.  The handlers are [async] functions
    that talk to an external service through [fetch]; they are embedded in
    an exception monad that also records, in order, every outbound request
    issued.  The external services are an arbitrary deterministic function
    of the requests seen so far. *)

From Stdlib Require Import ZArith NArith QArith Qround List String Ascii Bool Lia.
From Stdlib Require Import DecimalString.
From Stdlib Require Import Floats.PrimFloat Floats.SpecFloat Floats.FloatOps.
From Stdlib Require Import Uint63.
Import ListNotations.

(* ================================================================== *)
(** * Part I: the embedding                                            *)
(* ================================================================== *)

(** ** JavaScript values *)

Module JS.

(** A string is its sequence of UTF-16 code units. *)
Definition jstring := list N.

(** An ASCII literal of the source, one code unit per character. *)
Definition lit (s : string) : jstring :=
  List.map N_of_ascii (list_ascii_of_string s).

Fixpoint str_eqb (a b : jstring) : bool :=
  match a, b with
  | [], [] => true
  | x :: a', y :: b' => N.eqb x y && str_eqb a' b'
  | _, _ => false
  end.

Fixpoint starts_with (p s : jstring) : bool :=
  match p, s with
  | [], _ => true
  | x :: p', y :: s' => N.eqb x y && starts_with p' s'
  | _ :: _, [] => false
  end.

(** [String.prototype.includes]: [q] occurs in [s] as a contiguous run. *)
Fixpoint includes (s q : jstring) : bool :=
  starts_with q s ||
  match s with
  | [] => false
  | _ :: s' => includes s' q
  end.

(** The values a parsed JSON document, a request field or an environment
    variable can be.  An object is the list of its own properties, in
    their order; a key occurs once. *)
#[warnings="-register-all"]
Inductive value : Type :=
| VUndefined
| VNull
| VBool (b : bool)
| VNum (x : float)
| VStr (s : jstring)
| VArr (elems : list value)
| VObj (props : list (jstring * value)).

(** ToBoolean. *)
Definition truthy (v : value) : bool :=
  match v with
  | VUndefined | VNull => false
  | VBool b => b
  | VNum x => negb (PrimFloat.is_zero x || PrimFloat.is_nan x)
  | VStr [] => false
  | VStr (_ :: _) => true
  | VArr _ | VObj _ => true
  end.

(** [a || b] and [a && b] return one of their operands. *)
Definition js_or (a b : value) : value := if truthy a then a else b.
Definition js_and (a b : value) : value := if truthy a then b else a.

Fixpoint own (props : list (jstring * value)) (k : jstring) : value :=
  match props with
  | [] => VUndefined
  | (k', v) :: rest => if str_eqb k' k then v else own rest k
  end.

(** [v.k] for a base that is neither [undefined] nor [null].  Every
    property name the handlers read with a static name ([errors], [data],
    [didSucceed], [customer], [id], [inputErrors], [message], [invoice],
    [viewUrl], [status], [business], [accounts], [products], [edges],
    [node], [name], [content], [download_url], [sha], [contractData],
    [packageKey], [q], ...) is absent from the prototypes of Object,
    Array, String, Number and Boolean, so only own properties of objects
    can answer. *)
Definition prop (v : value) (k : jstring) : value :=
  match v with
  | VObj props => own props k
  | _ => VUndefined
  end.

(** [v[0]]: first element of an array, first code unit of a string,
    own property [0] of an object. *)
Definition elem0 (v : value) : value :=
  match v with
  | VArr (x :: _) => x
  | VStr (c :: _) => VStr [c]
  | VObj props => own props (lit "0")
  | _ => VUndefined
  end.

(** An [Error] object: its message and the [waveErrors] property that
    some throw sites attach ([VUndefined] when never assigned). *)
Record js_error : Type := mkError {
  message : jstring;
  waveErrors : value
}.

Definition Error (msg : jstring) : js_error := mkError msg VUndefined.

(** The completion of an evaluation: a value, or a throw (for a promise:
    fulfilled or rejected). *)
Inductive outcome (A : Type) : Type :=
| Return (a : A)
| Throw (e : js_error).
Arguments Return {A} a.
Arguments Throw {A} e.

(** Reading a property of [undefined] or [null] throws a TypeError; the
    wording of the message is V8's. *)
Definition cannot_read (base : jstring) (k : jstring) : js_error :=
  Error (lit "Cannot read properties of " ++ base ++
         lit " (reading '" ++ k ++ lit "')").

Definition nullish (v : value) : bool :=
  match v with
  | VUndefined | VNull => true
  | _ => false
  end.

Definition get (v : value) (k : jstring) : outcome value :=
  match v with
  | VUndefined => Throw (cannot_read (lit "undefined") k)
  | VNull => Throw (cannot_read (lit "null") k)
  | _ => Return (prop v k)
  end.

Definition not_a_function (what : jstring) : js_error :=
  Error (what ++ lit " is not a function").

(** Built-in functions of the runtime whose definition is not part of the
    repository.  The handlers are parametric in them. *)
Class Builtins : Type := {
  (** [JSON.stringify] *)
  JSON_stringify : value -> jstring;
  (** Number::toString, as used by [String(x)] and template literals *)
  Number_toString : float -> jstring;
  (** [String.prototype.toLowerCase] *)
  String_toLowerCase : jstring -> jstring
}.

Fixpoint has_own (props : list (jstring * value)) (k : jstring) : bool :=
  match props with
  | [] => false
  | (k', _) :: rest => str_eqb k' k || has_own rest k
  end.

Section Join.

Variable piece_of : value -> outcome jstring.

(** [Array.prototype.join]: the pieces of the elements, converted from
    left to right, separated by commas. *)
Fixpoint join_outcome (l : list value) : outcome jstring :=
  match l with
  | [] => Return []
  | e :: rest =>
      match piece_of e with
      | Throw x => Throw x
      | Return piece =>
          match rest with
          | [] => Return piece
          | _ :: _ =>
              match join_outcome rest with
              | Throw x => Throw x
              | Return more => Return (piece ++ lit "," ++ more)
              end
          end
      end
  end.

End Join.

(** ToString, the coercion of template literals, [String(x)], property
    keys and [new Error(x)].  An object is converted by the [toString]
    method it inherits, unless an own property of that name, which in a
    parsed JSON document is never a function, hides it: the conversion
    then throws a TypeError. *)
Definition cannot_convert : js_error :=
  Error (lit "Cannot convert object to primitive value").

Fixpoint ToString {B : Builtins} (v : value) : outcome jstring :=
  match v with
  | VUndefined => Return (lit "undefined")
  | VNull => Return (lit "null")
  | VBool true => Return (lit "true")
  | VBool false => Return (lit "false")
  | VNum x => Return (Number_toString x)
  | VStr s => Return s
  | VArr elems =>
      join_outcome
        (fun e => match e with
                  | VUndefined | VNull => Return []
                  | _ => ToString e
                  end) elems
  | VObj props =>
      if has_own props (lit "toString") then Throw cannot_convert
      else Return (lit "[object Object]")
  end.

(** The error a statement [throw new Error(`<prefix>${x}`)] raises: the
    TypeError of the conversion when [x] cannot be converted. *)
Definition Error_with {B : Builtins} (prefix : jstring) (x : value) : js_error :=
  match ToString x with
  | Return s => Error (prefix ++ s)
  | Throw e => e
  end.

(** [throw new Error(x)]: the message is [ToString x], empty when [x] is
    [undefined]. *)
Definition new_Error {B : Builtins} (x : value) : js_error :=
  match x with
  | VUndefined => Error []
  | _ => Error_with [] x
  end.

(** The text of an environment variable. *)
Definition env_text (x : option jstring) : jstring :=
  match x with
  | Some s => s
  | None => []
  end.

(** *** Numbers *)

Definition float_of_Z (n : Z) : float :=
  if (n <? 0)%Z then PrimFloat.opp (PrimFloat.of_uint63 (Uint63.of_Z (- n)))
  else PrimFloat.of_uint63 (Uint63.of_Z n).

(** [list.length] as a Number. *)
Definition float_of_nat (n : nat) : float := float_of_Z (Z.of_nat n).

(** [Math.round]: the integer closest to [x], ties towards +infinity.
    A finite float with a non-negative exponent is already an integer;
    otherwise its magnitude is below 2^53 and so is the result. *)
Definition Math_round (x : float) : float :=
  match Prim2SF x with
  | S754_finite s m e =>
      if (0 <=? e)%Z then x
      else
        let d := (2 ^ (- e))%Z in
        let twice := if s then (- (2 * Z.pos m))%Z else (2 * Z.pos m)%Z in
        let n := ((twice + d) / (2 * d))%Z in
        if (n =? 0)%Z then (if s then PrimFloat.neg_zero else PrimFloat.zero)
        else float_of_Z n
  | _ => x
  end.

(** The exact rational a finite float denotes, in lowest terms. *)
Definition Q_of_float (x : float) : option Q :=
  match Prim2SF x with
  | S754_zero _ => Some 0%Q
  | S754_finite s m e =>
      let mag := if (0 <=? e)%Z then inject_Z (Z.pos m * 2 ^ e)
                 else Qmake (Z.pos m) (Z.to_pos (2 ^ (- e))) in
      Some (Qred (if s then Qopp mag else mag))
  | _ => None
  end.

(** *** Whitespace and [String.prototype.trim] *)

Definition is_white (c : N) : bool :=
  ((9 <=? c) && (c <=? 13) || (c =? 32) || (c =? 160) || (c =? 5760) ||
   (8192 <=? c) && (c <=? 8202) || (c =? 8232) || (c =? 8233) ||
   (c =? 8239) || (c =? 8287) || (c =? 12288) || (c =? 65279))%N.

Fixpoint trim_start (s : jstring) : jstring :=
  match s with
  | c :: s' => if is_white c then trim_start s' else s
  | [] => []
  end.

Definition trim (s : jstring) : jstring :=
  rev (trim_start (rev (trim_start s))).

End JS.
Export JS.

(** ** Dynamic property lookup on object literals *)

Module Proto.

(** [obj[key]] with a computed key searches the own properties of the
    literal and then [Object.prototype].  A member of the prototype is
    a built-in function, or, for [__proto__], the prototype object. *)
Inductive proto_member : Type :=
| ProtoFunction (fname : jstring)
| ProtoObject.

Inductive member (A : Type) : Type :=
| Own (a : A)
| Inherited (m : proto_member).
Arguments Own {A} a.
Arguments Inherited {A} m.

Definition Object_prototype_methods : list jstring :=
  List.map lit
    ["__defineGetter__"; "__defineSetter__"; "hasOwnProperty";
     "__lookupGetter__"; "__lookupSetter__"; "isPrototypeOf";
     "propertyIsEnumerable"; "toString"; "valueOf"; "toLocaleString"]%string.

Definition from_prototype (k : jstring) : option proto_member :=
  if str_eqb k (lit "__proto__") then Some ProtoObject
  else if str_eqb k (lit "constructor") then Some (ProtoFunction (lit "Object"))
  else if existsb (str_eqb k) Object_prototype_methods
       then Some (ProtoFunction k)
       else None.

Fixpoint assoc {A : Type} (obj : list (jstring * A)) (k : jstring) : option A :=
  match obj with
  | [] => None
  | (k', a) :: rest => if str_eqb k' k then Some a else assoc rest k
  end.

(** [None] is [undefined]. *)
Definition lookup {A : Type} (obj : list (jstring * A)) (k : jstring)
  : option (member A) :=
  match assoc obj k with
  | Some a => Some (Own a)
  | None => option_map Inherited (from_prototype k)
  end.

(** Members of the prototype are objects, hence truthy. *)
Definition member_truthy (m : member value) : bool :=
  match m with
  | Own v => truthy v
  | Inherited _ => true
  end.

(** [obj[key] || b] *)
Definition member_or (m : option (member value)) (b : value) : member value :=
  match m with
  | Some m' => if member_truthy m' then m' else Own b
  | None => Own b
  end.

(** What [JSON.stringify] leaves of a property value in a request body:
    a function-valued property is omitted, the prototype object has no
    enumerable property. *)
Definition as_sent (m : member value) : value :=
  match m with
  | Own v => v
  | Inherited (ProtoFunction _) => VUndefined
  | Inherited ProtoObject => VObj []
  end.

End Proto.
Export Proto.

(** ** Outbound requests and the handler monad *)

Module Net.

(** The GraphQL documents of the repository, by operation name. *)
Inductive operation : Type :=
| CreateCustomer | InvoiceCreate | InvoiceSend | InvoiceApprove
| Accounts | Products | Businesses | ProductCreate.

(** A call of [fetch].  For the Wave endpoint: the [Authorization] header,
    the query and the variables of the body.  For the GitHub contents
    API: the repository and the path that make the URL, the
    [Authorization] header and the body. *)
Inductive outbound : Type :=
| WavePost (authorization : jstring) (query : operation) (variables : value)
| GitHubPut (repo path : jstring) (authorization : jstring) (body : value).

(** What [fetch] resolves to: [resp.ok], [resp.statusText] and the
    completion of [resp.json()]. *)
Record http_response : Type := {
  ok : bool;
  statusText : jstring;
  resp_json : outcome value
}.

(** The external services: given the requests issued so far and the
    next one, [fetch] resolves to a response or rejects. *)
Definition Network : Type := list outbound -> outbound -> outcome http_response.

(** A computation that may throw and that issues outbound requests;
    the state is the list of requests issued so far, oldest first. *)
Definition M (A : Type) : Type := list outbound -> outcome A * list outbound.

Definition ret {A : Type} (a : A) : M A := fun t => (Return a, t).

Definition throw {A : Type} (e : js_error) : M A := fun t => (Throw e, t).

Definition bind {A B : Type} (m : M A) (k : A -> M B) : M B :=
  fun t =>
    match m t with
    | (Return a, t') => k a t'
    | (Throw e, t') => (Throw e, t')
    end.

Definition lift {A : Type} (o : outcome A) : M A := fun t => (o, t).

(** [try { m } catch (e) { h e }] *)
Definition try_catch {A : Type} (m : M A) (h : js_error -> M A) : M A :=
  fun t =>
    match m t with
    | (Return a, t') => (Return a, t')
    | (Throw e, t') => h e t'
    end.

Definition fetch (net : Network) (r : outbound) : M http_response :=
  fun t => (net t r, t ++ [r]).

(** Environment variables read by the handlers; [None] is an unset one. *)
Record Env : Type := {
  WAVE_API_KEY : option jstring;
  WAVE_BUSINESS_ID : option jstring;
  WAVE_CURRENCY : option jstring;
  WAVE_PRODUCT_ID_CORE : option jstring;
  WAVE_PRODUCT_ID_GROWTH : option jstring;
  WAVE_PRODUCT_ID_FULL : option jstring;
  WAVE_PRODUCT_ID : option jstring;
  WAVE_INCOME_ACCOUNT_ID : option jstring;
  GITHUB_TOKEN : option jstring;
  GITHUB_REPO : option jstring;
  GITHUB_BRANCH : option jstring
}.

(** [process.env.X] *)
Definition getenv (x : option jstring) : value :=
  match x with
  | Some s => VStr s
  | None => VUndefined
  end.

(** The two calendar dates [createInvoice] reads off the clock:
    today and today plus fourteen days, as YYYY-MM-DD. *)
Record Clock : Type := {
  invoiceDate : jstring;
  dueDate : jstring
}.

(** The incoming request and the response written by [json]. *)
Record Request : Type := {
  method : jstring;
  body : value;
  query : value
}.

Record Response : Type := {
  statusCode : Z;
  data : value
}.

(** [json(res, status, data)] *)
Definition json (status : Z) (d : value) : M Response :=
  ret {| statusCode := status; data := d |}.

(** The check every mutation wrapper of the repository makes on the
    payload of its operation: [!res || !res.didSucceed || !res.<payload>]. *)
Definition did_fail (res : value) (payload : jstring) : bool :=
  negb (truthy res) || negb (truthy (prop res (lit "didSucceed")))
  || negb (truthy (prop res payload)).

(** [res && res.inputErrors && res.inputErrors[0]] *)
Definition firstErr (res : value) : value :=
  js_and res
    (js_and (prop res (lit "inputErrors"))
            (elem0 (prop res (lit "inputErrors")))).

End Net.
Export Net.

Declare Scope js_scope.
Delimit Scope js_scope with js.
Notation "x <- c ;; k" := (bind c (fun x => k))
  (at level 61, c at next level, right associativity) : js_scope.
Notation "c ;;; k" := (bind c (fun _ => k))
  (at level 61, right associativity) : js_scope.
Open Scope js_scope.

(** ** The invoice endpoint *)

Module CreateInvoice.

Record package : Type := {
  name : jstring;
  price : float
}.

(** Package catalog with canonical pricing. *)
Definition PACKAGE_CATALOG : list (jstring * package) :=
  [ (lit "core", {| name := lit "Core System Package"; price := 5000 |});
    (lit "growth", {| name := lit "Growth Accelerator Package"; price := 7500 |});
    (lit "full", {| name := lit "Full Ecosystem Package"; price := 10000 |}) ].

(** [pkg.price] as the operand of a product: [undefined] becomes NaN. *)
Definition price_of (pkg : member package) : float :=
  match pkg with
  | Own p => price p
  | Inherited _ => PrimFloat.nan
  end.

(** [pkg.name]; a built-in function answers with its own name. *)
Definition name_of (pkg : member package) : value :=
  match pkg with
  | Own p => VStr (name p)
  | Inherited (ProtoFunction f) => VStr f
  | Inherited ProtoObject => VUndefined
  end.

(** [Math.round(pkg.price * 0.5 * 100) / 100] *)
Definition deposit_of (pkg : member package) : float :=
  (Math_round (price_of pkg * 0.5 * 100) / 100)%float.

Section Handler.

Context {B : Builtins} (net : Network) (env : Env) (clock : Clock).

(** The message of the error a failed mutation throws:
    [`<what> failed: ${firstErr ? firstErr.message : 'Unknown error'}`] *)
Definition failure (what : jstring) (res : value) : js_error :=
  Error_with (what ++ lit " failed: ")
    (if truthy (firstErr res)
     then prop (firstErr res) (lit "message")
     else VStr (lit "Unknown error")).

Definition waveQuery (query : operation) (variables : value) : M value :=
  let apiKey := getenv (WAVE_API_KEY env) in
  if negb (truthy apiKey) then throw (Error (lit "Missing WAVE_API_KEY"))
  else
    key <- lift (ToString apiKey) ;;
    resp <- fetch net (WavePost (lit "Bearer " ++ key) query variables) ;;
    body <- lift (resp_json resp) ;;
    errors <- lift (get body (lit "errors")) ;;
    if negb (ok resp) || truthy errors then
      let msg := if truthy errors then JSON_stringify errors else statusText resp in
      throw {| message := lit "Wave GraphQL error: " ++ msg;
               waveErrors := js_or errors VNull |}
    else lift (get body (lit "data")).

Definition customer_variables (businessId clientName clientEmail : value) : value :=
  VObj [ (lit "input",
          VObj [ (lit "businessId", businessId);
                 (lit "name", clientName);
                 (lit "firstName", clientName);
                 (lit "lastName", VStr (lit "Client"));
                 (lit "email", clientEmail) ]) ].

Definition createCustomer (businessId clientName clientEmail : value) : M value :=
  data <- waveQuery CreateCustomer
            (customer_variables businessId clientName clientEmail) ;;
  res <- lift (get data (lit "customerCreate")) ;;
  if did_fail res (lit "customer")
  then throw (failure (lit "Create customer") res)
  else ret (prop (prop res (lit "customer")) (lit "id")).

Definition productIdMap : list (jstring * value) :=
  [ (lit "core", getenv (WAVE_PRODUCT_ID_CORE env));
    (lit "growth", getenv (WAVE_PRODUCT_ID_GROWTH env));
    (lit "full", getenv (WAVE_PRODUCT_ID_FULL env)) ].

(** The result of [createInvoice]. *)
Record created : Type := {
  invoiceId : value;
  viewUrl : value
}.

Definition bullet : N := 8226.
Definition en_dash : N := 8211.
Definition em_dash : N := 8212.

Definition invoice_variables (businessId customerId currency : value)
    (contractId pkg_name : jstring) (pkg : member package)
    (productId : member value) : value :=
  VObj [ (lit "input",
    VObj [ (lit "businessId", businessId);
           (lit "customerId", customerId);
           (lit "currency", currency);
           (lit "status", VStr (lit "DRAFT"));
           (lit "invoiceDate", VStr (invoiceDate clock));
           (lit "dueDate", VStr (dueDate clock));
           (lit "memo",
            VStr (lit "Contract " ++ contractId ++ [32; bullet; 32]%N ++
                  pkg_name ++ [32; en_dash; 32]%N ++
                  lit "Initial 50% deposit"));
           (lit "items",
            VArr [ VObj [ (lit "productId", as_sent productId);
                          (lit "description",
                           VStr (pkg_name ++ [32; em_dash; 32]%N ++
                                 lit "Initial Deposit (50%)"));
                          (lit "unitPrice", VStr (Number_toString (deposit_of pkg)));
                          (lit "quantity", VNum 1) ] ]) ]) ].

Definition Missing_WAVE_PRODUCT_ID : js_error :=
  {| message := lit "Missing WAVE_PRODUCT_ID";
     waveErrors :=
       VArr [ VObj [ (lit "message",
         VStr (lit "Set WAVE_PRODUCT_ID_<PACKAGE> (CORE/GROWTH/FULL) or WAVE_PRODUCT_ID to a valid Product ID in your Wave business.")) ] ] |}.

Definition createInvoice
    (businessId customerId currency packageKey contractId : value) : M created :=
  key <- lift (ToString packageKey) ;;
  match lookup PACKAGE_CATALOG key with
  | None => throw (Error (lit "Unknown package key"))
  | Some pkg =>
      let productId :=
        member_or (lookup productIdMap key)
                  (js_or (getenv (WAVE_PRODUCT_ID env)) (VStr [])) in
      if negb (member_truthy productId) then throw Missing_WAVE_PRODUCT_ID
      else
        contract <- lift (ToString contractId) ;;
        pkg_name <- lift (ToString (name_of pkg)) ;;
        data <- waveQuery InvoiceCreate
                  (invoice_variables businessId customerId currency contract
                                     pkg_name pkg productId) ;;
        res <- lift (get data (lit "invoiceCreate")) ;;
        if did_fail res (lit "invoice")
        then throw (failure (lit "Create invoice") res)
        else ret {| invoiceId := prop (prop res (lit "invoice")) (lit "id");
                    viewUrl := js_or (prop (prop res (lit "invoice")) (lit "viewUrl"))
                                     VNull |}
  end.

Definition id_variables (invoiceId : value) : value :=
  VObj [ (lit "input", VObj [ (lit "invoiceId", invoiceId) ]) ].

Definition sendInvoice (invoiceId : value) : M value :=
  data <- waveQuery InvoiceSend (id_variables invoiceId) ;;
  res <- lift (get data (lit "invoiceSend")) ;;
  if did_fail res (lit "invoice")
  then throw (failure (lit "Send invoice") res)
  else ret (js_or (prop (prop res (lit "invoice")) (lit "viewUrl")) VNull).

Definition approveInvoice (invoiceId : value) : M value :=
  data <- waveQuery InvoiceApprove (id_variables invoiceId) ;;
  res <- lift (get data (lit "invoiceApprove")) ;;
  if did_fail res (lit "invoice")
  then throw (failure (lit "Approve invoice") res)
  else ret (prop (prop res (lit "invoice")) (lit "status")).

Definition demo_url : jstring := lit "https://link.waveapps.com/payment-demo".

Definition demo_response : value :=
  VObj [ (lit "mode", VStr (lit "demo"));
         (lit "paymentUrl", VStr demo_url);
         (lit "note",
          VStr (lit "WaveApps environment variables not set. Returning demo link.")) ].

Definition live_response (invoiceId paymentUrl : value) : value :=
  VObj [ (lit "mode", VStr (lit "live"));
         (lit "invoiceId", invoiceId);
         (lit "paymentUrl", js_or paymentUrl VNull) ].

Definition fallback_response (error : js_error) : value :=
  VObj [ (lit "mode", VStr (lit "fallback"));
         (lit "paymentUrl", VStr demo_url);
         (lit "error", js_or (VStr (message error)) (VStr (lit "Unknown error")));
         (lit "errorDetails", js_or (waveErrors error) VNull) ].

(** Approve, then send; a throw of either step is swallowed.  Returns
    the payment URL after both. *)
Definition approve_and_send (invoiceId viewUrl : value) : M value :=
  let paymentUrl := js_or viewUrl VNull in
  try_catch (approveInvoice invoiceId ;;; ret tt) (fun _ => ret tt) ;;;
  try_catch
    (sentUrl <- sendInvoice invoiceId ;;
     ret (if truthy sentUrl then sentUrl else paymentUrl))
    (fun _ => ret paymentUrl).

(** [module.exports] *)
Definition handler (req : Request) : M Response :=
  try_catch
    (if negb (str_eqb (method req) (lit "POST"))
     then json 405 (VObj [ (lit "error", VStr (lit "Method not allowed")) ])
     else
       let b := js_or (body req) (VObj []) in
       let contractData := prop b (lit "contractData") in
       let invoice := prop b (lit "invoice") in
       if negb (truthy contractData) || negb (truthy invoice)
          || negb (truthy (prop invoice (lit "packageKey")))
       then json 400
              (VObj [ (lit "error",
                       VStr (lit "Missing contractData or invoice.packageKey")) ])
       else
         let apiKey := js_or (getenv (WAVE_API_KEY env)) (VStr []) in
         let businessId := js_or (getenv (WAVE_BUSINESS_ID env)) (VStr []) in
         let currency := js_or (getenv (WAVE_CURRENCY env)) (VStr (lit "USD")) in
         if negb (truthy apiKey) || negb (truthy businessId)
         then json 200 demo_response
         else
           customerId <- createCustomer businessId
                           (prop contractData (lit "clientName"))
                           (prop contractData (lit "clientEmail")) ;;
           inv <- createInvoice businessId customerId currency
                    (prop invoice (lit "packageKey"))
                    (prop contractData (lit "contractId")) ;;
           paymentUrl <- approve_and_send (invoiceId inv) (viewUrl inv) ;;
           json 200 (live_response (invoiceId inv) paymentUrl))
    (fun error => json 200 (fallback_response error)).

(** *** Vocabulary for the statements about the endpoint *)

Definition contractData_of (req : Request) : value :=
  prop (js_or (body req) (VObj [])) (lit "contractData").

Definition invoice_of (req : Request) : value :=
  prop (js_or (body req) (VObj [])) (lit "invoice").

Definition packageKey_of (req : Request) : value :=
  prop (invoice_of req) (lit "packageKey").

(** The body carries [contractData] and [invoice.packageKey]. *)
Definition has_required_fields (req : Request) : bool :=
  truthy (contractData_of req) && truthy (invoice_of req)
  && truthy (packageKey_of req).

Definition is_POST (req : Request) : bool := str_eqb (method req) (lit "POST").

(** The API key and the business identifier are both set and non-empty. *)
Definition configured : bool :=
  truthy (getenv (WAVE_API_KEY env)) && truthy (getenv (WAVE_BUSINESS_ID env)).

Definition businessId_of_env : value :=
  js_or (getenv (WAVE_BUSINESS_ID env)) (VStr []).

Definition currency_of_env : value :=
  js_or (getenv (WAVE_CURRENCY env)) (VStr (lit "USD")).

Definition customer_step (req : Request) : M value :=
  createCustomer businessId_of_env
    (prop (contractData_of req) (lit "clientName"))
    (prop (contractData_of req) (lit "clientEmail")).

Definition invoice_step (req : Request) (customerId : value) : M created :=
  createInvoice businessId_of_env customerId currency_of_env
    (packageKey_of req) (prop (contractData_of req) (lit "contractId")).

(** The two fatal steps of the workflow, in the order the handler runs
    them: customer creation, then invoice creation. *)
Definition fatal_steps (req : Request) : M created :=
  customerId <- customer_step req ;;
  invoice_step req customerId.

(** The payment URL after the two best-effort steps, given the
    completion of [sendInvoice] and the view URL of the created invoice:
    the URL sending returned if it returned one, else the view URL,
    else null. *)
Definition best_url (sent : outcome value) (viewUrl : value) : value :=
  match sent with
  | Return u => if truthy u then u else js_or viewUrl VNull
  | Throw _ => js_or viewUrl VNull
  end.

(** The [Authorization] header of every Wave request. *)
Definition bearer : jstring :=
  lit "Bearer " ++ env_text (WAVE_API_KEY env).

(** The per-package product identifier of a key, [undefined] when the
    variable is unset or the key has none. *)
Definition override (key : jstring) : value := own productIdMap key.

(** [process.env.WAVE_PRODUCT_ID] *)
Definition generic_product : value := getenv (WAVE_PRODUCT_ID env).

End Handler.

End CreateInvoice.

(** ** The listing endpoints and the business discovery script *)

Module Listing.

(** [v.length] *)
Definition length_of (v : value) : value :=
  match v with
  | VArr elems => VNum (float_of_nat (List.length elems))
  | VStr s => VNum (float_of_nat (List.length s))
  | _ => VUndefined
  end.

(** Left-to-right evaluation of a callback over the elements. *)
Fixpoint map_outcome (f : value -> outcome value) (l : list value)
  : outcome (list value) :=
  match l with
  | [] => Return []
  | x :: rest =>
      match f x with
      | Throw e => Throw e
      | Return y =>
          match map_outcome f rest with
          | Throw e => Throw e
          | Return ys => Return (y :: ys)
          end
      end
  end.

(** [v.map(f)], where [what] is the source text of [v]. *)
Definition call_map (what : jstring) (v : value) (f : value -> outcome value)
  : outcome (list value) :=
  match v with
  | VArr elems => map_outcome f elems
  | VUndefined => Throw (cannot_read (lit "undefined") (lit "map"))
  | VNull => Throw (cannot_read (lit "null") (lit "map"))
  | _ => Throw (not_a_function (what ++ lit ".map"))
  end.

Definition node_of (e : value) : outcome value := get e (lit "node").

Section Handlers.

Context {B : Builtins} (net : Network) (env : Env).

(** [waveQuery] as list-accounts.js and list-products.js define it (the
    same text in both, and in the discovery script): no [waveErrors]
    is attached. *)
Definition waveQuery (query : operation) (variables : value) : M value :=
  let apiKey := getenv (WAVE_API_KEY env) in
  if negb (truthy apiKey) then throw (Error (lit "Missing WAVE_API_KEY"))
  else
    key <- lift (ToString apiKey) ;;
    resp <- fetch net (WavePost (lit "Bearer " ++ key) query variables) ;;
    body <- lift (resp_json resp) ;;
    errors <- lift (get body (lit "errors")) ;;
    if negb (ok resp) || truthy errors then
      let msg := if truthy errors then JSON_stringify errors else statusText resp in
      throw (Error (lit "Wave GraphQL error: " ++ msg))
    else lift (get body (lit "data")).

Definition error_response (error : js_error) : value :=
  VObj [ (lit "error", js_or (VStr (message error)) (VStr (lit "Unknown error"))) ].

Definition Missing_WAVE_BUSINESS_ID : value :=
  VObj [ (lit "error", VStr (lit "Missing WAVE_BUSINESS_ID")) ].

(** [(data.business && data.business.<coll> && data.business.<coll>.edges) || []] *)
Definition edges_of (business : value) (coll : jstring) : value :=
  js_or (js_and business
           (js_and (prop business coll) (prop (prop business coll) (lit "edges"))))
        (VArr []).

End Handlers.

End Listing.

Module ListAccounts.

Section Handler.

Context {B : Builtins} (net : Network) (env : Env).

(** [module.exports] of list-accounts.js *)
Definition handler (req : Request) : M Response :=
  try_catch
    (let businessId := js_or (getenv (WAVE_BUSINESS_ID env)) (VStr []) in
     if negb (truthy businessId) then json 200 Listing.Missing_WAVE_BUSINESS_ID
     else
       data <- Listing.waveQuery net env Accounts (VObj [ (lit "id", businessId) ]) ;;
       business <- lift (get data (lit "business")) ;;
       let accounts := Listing.edges_of business (lit "accounts") in
       id <- lift (get business (lit "id")) ;;
       nm <- lift (get business (lit "name")) ;;
       nodes <- lift (Listing.call_map (lit "accounts") accounts Listing.node_of) ;;
       json 200
         (VObj [ (lit "business", VObj [ (lit "id", id); (lit "name", nm) ]);
                 (lit "count", Listing.length_of accounts);
                 (lit "accounts", VArr nodes) ]))
    (fun error => json 200 (Listing.error_response error)).

(** The request of the listing. *)
Definition accounts_query : M value :=
  Listing.waveQuery net env Accounts
    (VObj [ (lit "id", js_or (getenv (WAVE_BUSINESS_ID env)) (VStr [])) ]).

End Handler.

End ListAccounts.

Module ListProducts.

(** Left-to-right evaluation of a filter callback. *)
Fixpoint filter_outcome (f : value -> outcome bool) (l : list value)
  : outcome (list value) :=
  match l with
  | [] => Return []
  | x :: rest =>
      match f x with
      | Throw e => Throw e
      | Return keep =>
          match filter_outcome f rest with
          | Throw e => Throw e
          | Return ys => Return (if keep then x :: ys else ys)
          end
      end
  end.

Section Handler.

Context {B : Builtins} (net : Network) (env : Env).

(** [p => (p.name || '').toLowerCase().includes(q)]; only a string has
    a [toLowerCase] method. *)
Definition name_matches (q : jstring) (p : value) : outcome bool :=
  match get p (lit "name") with
  | Throw e => Throw e
  | Return nm =>
      match js_or nm (VStr []) with
      | VStr s => Return (includes (String_toLowerCase s) q)
      | _ => Throw (not_a_function
                      (lit "(p.name || " ++ [34%N; 34%N] ++ lit ").toLowerCase"))
      end
  end.

(** [(req.query && req.query.q) ? String(req.query.q).toLowerCase() : ''] *)
Definition query_q (req : Request) : outcome jstring :=
  if truthy (js_and (query req) (prop (query req) (lit "q")))
  then match ToString (prop (query req) (lit "q")) with
       | Return s => Return (String_toLowerCase s)
       | Throw e => Throw e
       end
  else Return [].

(** [module.exports] of list-products.js *)
Definition handler (req : Request) : M Response :=
  try_catch
    (let businessId := js_or (getenv (WAVE_BUSINESS_ID env)) (VStr []) in
     if negb (truthy businessId) then json 200 Listing.Missing_WAVE_BUSINESS_ID
     else
       data <- Listing.waveQuery net env Products (VObj [ (lit "id", businessId) ]) ;;
       business <- lift (get data (lit "business")) ;;
       let edges := Listing.edges_of business (lit "products") in
       all <- lift (Listing.call_map (lit "edges") edges Listing.node_of) ;;
       q <- lift (query_q req) ;;
       filtered <- lift (if truthy (VStr q)
                         then filter_outcome (name_matches q) all
                         else Return all) ;;
       id <- lift (get business (lit "id")) ;;
       nm <- lift (get business (lit "name")) ;;
       json 200
         (VObj [ (lit "business", VObj [ (lit "id", id); (lit "name", nm) ]);
                 (lit "count", Listing.length_of (VArr filtered));
                 (lit "products", VArr filtered) ]))
    (fun error => json 200 (Listing.error_response error)).

(** *** Vocabulary for the statements about the listing *)

(** The products the service returned: the nodes of the edges. *)
Definition fetched : M (value * list value) :=
  data <- Listing.waveQuery net env Products
            (VObj [ (lit "id", js_or (getenv (WAVE_BUSINESS_ID env)) (VStr [])) ]) ;;
  business <- lift (get data (lit "business")) ;;
  all <- lift (Listing.call_map (lit "edges")
                 (Listing.edges_of business (lit "products")) Listing.node_of) ;;
  ret (business, all).

(** The name of a product, empty when missing. *)
Definition name_string (p : value) : jstring :=
  match js_or (prop p (lit "name")) (VStr []) with
  | VStr s => s
  | _ => []
  end.

(** The name contains [q], letter case ignored. *)
Definition contains_ci (q : jstring) (p : value) : bool :=
  includes (String_toLowerCase (name_string p)) (String_toLowerCase q).

End Handler.

End ListProducts.

(** The script that follows list-products.js in the same source file. *)
Module GetBusinesses.

Section Handler.

Context {B : Builtins} (net : Network) (env : Env).

(** [waveQuery(query)]: the variables default to [{}]. *)
Definition getBusinesses : M (list value) :=
  data <- Listing.waveQuery net env Businesses (VObj []) ;;
  businesses <- lift (get data (lit "businesses")) ;;
  edges <- lift (get businesses (lit "edges")) ;;
  lift (Listing.call_map (lit "data.businesses.edges") edges Listing.node_of).

(** [module.exports] of the script *)
Definition handler (req : Request) : M Response :=
  try_catch
    (businesses <- getBusinesses ;;
     json 200 (VObj [ (lit "businesses", VArr businesses) ]))
    (fun error => json 500 (VObj [ (lit "error", VStr (message error)) ])).

End Handler.

End GetBusinesses.

(** ** The contract upload endpoint *)

Module UploadContract.

(** The character class of [/[^a-zA-Z0-9._-]/g], complemented. *)
Definition allowed (c : N) : bool :=
  ((97 <=? c) && (c <=? 122) || (65 <=? c) && (c <=? 90) ||
   (48 <=? c) && (c <=? 57) || (c =? 46) || (c =? 95) || (c =? 45))%N.

(** [filename.replace(/[^a-zA-Z0-9._-]/g, '_')] on a string. *)
Definition sanitize (filename : jstring) : jstring :=
  List.map (fun c => if allowed c then c else 95%N) filename.

(** The same call on any value: only a string has a [replace] method. *)
Definition replace_unsafe (filename : value) : outcome jstring :=
  match filename with
  | VStr f => Return (sanitize f)
  | _ => Throw (not_a_function (lit "filename.replace"))
  end.

Section Handler.

Context {B : Builtins} (net : Network) (env : Env).

(** The result of [putFileToGitHub]. *)
Record uploaded : Type := {
  sha : value;
  downloadUrl : value
}.

Definition putFileToGitHub (path : jstring) (base64Content : value)
    (message : jstring) : M uploaded :=
  let token := getenv (GITHUB_TOKEN env) in
  let repo := getenv (GITHUB_REPO env) in
  let branch := js_or (getenv (GITHUB_BRANCH env)) (VStr (lit "main")) in
  if negb (truthy token) || negb (truthy repo)
  then throw (Error (lit "Missing GITHUB_TOKEN or GITHUB_REPO"))
  else
    let body :=
      VObj [ (lit "message", js_or (VStr message) (VStr (lit "Add " ++ path)));
             (lit "content", base64Content);
             (lit "branch", branch) ] in
    repo_text <- lift (ToString repo) ;;
    token_text <- lift (ToString token) ;;
    branch_text <- lift (ToString branch) ;;
    resp <- fetch net (GitHubPut repo_text path (lit "token " ++ token_text) body) ;;
    data <- lift (resp_json resp) ;;
    if negb (ok resp)
    then throw (new_Error
                  (if truthy (js_and data (prop data (lit "message")))
                   then prop data (lit "message")
                   else VStr (lit "GitHub upload failed")))
    else
      let content := prop data (lit "content") in
      let downloadUrl :=
        if truthy (js_and data (js_and content (prop content (lit "download_url"))))
        then prop content (lit "download_url")
        else VStr (lit "https://raw.githubusercontent.com/" ++ repo_text ++
                   lit "/" ++ branch_text ++ lit "/" ++ path) in
      content' <- lift (get data (lit "content")) ;;
      ret {| sha := js_and content' (prop content' (lit "sha"));
             downloadUrl := downloadUrl |}.

(** [contractData && contractData.contractId ? contractData.contractId : ''] *)
Definition contract_id (contractData : value) : value :=
  if truthy (js_and contractData (prop contractData (lit "contractId")))
  then prop contractData (lit "contractId")
  else VStr [].

(** [module.exports] of upload-contract.js *)
Definition handler (req : Request) : M Response :=
  try_catch
    (if negb (str_eqb (method req) (lit "POST"))
     then json 405 (VObj [ (lit "error", VStr (lit "Method not allowed")) ])
     else
       let b := js_or (body req) (VObj []) in
       let filename := prop b (lit "filename") in
       let content := prop b (lit "content") in
       let contractData := prop b (lit "contractData") in
       if negb (truthy filename) || negb (truthy content)
       then json 400 (VObj [ (lit "error", VStr (lit "Missing filename or content")) ])
       else
         safeFile <- lift (replace_unsafe filename) ;;
         let path := lit "contracts/" ++ safeFile in
         contract <- lift (ToString (contract_id contractData)) ;;
         let message :=
           trim (lit "chore(contracts): add signed contract " ++ contract) in
         result <- putFileToGitHub path content message ;;
         json 200 (VObj [ (lit "downloadUrl", downloadUrl result);
                          (lit "sha", sha result) ]))
    (fun err => json 500
       (VObj [ (lit "error",
                js_or (VStr (message err)) (VStr (lit "Upload failed"))) ])).

(** *** Vocabulary for the statements about the upload *)

Definition filename_of (req : Request) : value :=
  prop (js_or (body req) (VObj [])) (lit "filename").

Definition content_of (req : Request) : value :=
  prop (js_or (body req) (VObj [])) (lit "content").

(** The contract identifier quoted in the commit message. *)
Definition contract_of (req : Request) : value :=
  contract_id (prop (js_or (body req) (VObj [])) (lit "contractData")).

(** The token and the repository are both set and non-empty. *)
Definition configured : bool :=
  truthy (getenv (GITHUB_TOKEN env)) && truthy (getenv (GITHUB_REPO env)).

(** The commit message the handler builds from the contract identifier. *)
Definition commit_message (contract : jstring) : jstring :=
  trim (lit "chore(contracts): add signed contract " ++ contract).

(** [process.env.GITHUB_BRANCH || 'main'] as text. *)
Definition branch_text : jstring :=
  match GITHUB_BRANCH env with
  | Some (c :: s) => c :: s
  | _ => lit "main"
  end.

(** The one request of an upload of [content] under the filename [f]. *)
Definition upload_request (f contract : jstring) (content : value) : outbound :=
  GitHubPut (env_text (GITHUB_REPO env))
    (lit "contracts/" ++ sanitize f)
    (lit "token " ++ env_text (GITHUB_TOKEN env))
    (VObj [ (lit "message",
             js_or (VStr (commit_message contract))
                   (VStr (lit "Add " ++ lit "contracts/" ++ sanitize f)));
            (lit "content", content);
            (lit "branch", VStr branch_text) ]).

(** The URL built when the service does not echo one. *)
Definition raw_url (f : jstring) : jstring :=
  lit "https://raw.githubusercontent.com/" ++ env_text (GITHUB_REPO env) ++
  lit "/" ++ branch_text ++ lit "/" ++ (lit "contracts/" ++ sanitize f).

(** POST with a filename and a content. *)
Definition well_formed (req : Request) : bool :=
  str_eqb (method req) (lit "POST") && truthy (filename_of req)
  && truthy (content_of req).

End Handler.

End UploadContract.

(** ** The product provisioning endpoint: its mutation *)

Module CreateProducts.

Section Mutation.

Context {B : Builtins} (net : Network) (env : Env).

Definition waveQuery (query : operation) (variables : value) : M value :=
  let apiKey := getenv (WAVE_API_KEY env) in
  if negb (truthy apiKey)
  then throw {| message := lit "Missing WAVE_API_KEY";
                waveErrors :=
                  VArr [ VObj [ (lit "message",
                    VStr (lit "Set WAVE_API_KEY in your deployment environment.")) ] ] |}
  else
    key <- lift (ToString apiKey) ;;
    resp <- fetch net (WavePost (lit "Bearer " ++ key) query variables) ;;
    body <- lift (resp_json resp) ;;
    errors <- lift (get body (lit "errors")) ;;
    if negb (ok resp) || truthy errors then
      let msg := if truthy errors then JSON_stringify errors else statusText resp in
      throw {| message := lit "Wave GraphQL error: " ++ msg;
               waveErrors := js_or errors VNull |}
    else lift (get body (lit "data")).

(** [createProduct] of the variant that sends a unit price and an income
    account.  A failed mutation attaches the field-level errors. *)
Definition createProduct (businessId name description : value)
    (unitPrice : float) (incomeAccountId : value) : M value :=
  let variables :=
    VObj [ (lit "input",
            VObj [ (lit "businessId", businessId);
                   (lit "name", name);
                   (lit "description", description);
                   (lit "unitPrice", VStr (Number_toString unitPrice));
                   (lit "incomeAccountId", incomeAccountId) ]) ] in
  data <- waveQuery ProductCreate variables ;;
  res <- lift (get data (lit "productCreate")) ;;
  if did_fail res (lit "product") then
    let msg := if truthy (firstErr res)
               then prop (firstErr res) (lit "message")
               else VStr (lit "Unknown error creating product") in
    let details := if truthy (js_and res (prop res (lit "inputErrors")))
                   then prop res (lit "inputErrors")
                   else VNull in
    match msg with
    | VUndefined => throw {| message := []; waveErrors := details |}
    | _ =>
        text <- lift (ToString msg) ;;
        throw {| message := text; waveErrors := details |}
    end
  else ret (prop res (lit "product")).

End Mutation.

End CreateProducts.

(** ** The product provisioning endpoint: its two handlers *)

Module Provisioning.

Record package : Type := {
  name : jstring;
  description : jstring;
  price : float
}.

Definition PACKAGES : list (jstring * package) :=
  [ (lit "core",
     {| name := lit "Core System Package";
        description := lit "Core web + booking + analytics foundation";
        price := 5000 |});
    (lit "growth",
     {| name := lit "Growth Accelerator Package";
        description := lit "Adds learning hub, resources, community, automation";
        price := 7500 |});
    (lit "full",
     {| name := lit "Full Ecosystem Package";
        description :=
          lit "Complete system with dashboard, portal, workflows, advanced analytics";
        price := 10000 |}) ].

(** [obj[key] = v]: an existing property keeps its place, a new one is
    added last. *)
Fixpoint assign (obj : list (jstring * value)) (k : jstring) (v : value)
  : list (jstring * value) :=
  match obj with
  | [] => [(k, v)]
  | (k', v') :: rest =>
      if str_eqb k' k then (k', v) :: rest else (k', v') :: assign rest k v
  end.

(** The two objects the loop fills: [results] and [errors]. *)
Record tally : Type := {
  results : list (jstring * value);
  errors : list (jstring * value)
}.

Definition empty_tally : tally := {| results := []; errors := [] |}.

(** [{ message: e.message, details: e.waveErrors || null }] *)
Definition error_entry (e : js_error) : value :=
  VObj [ (lit "message", VStr (message e));
         (lit "details", js_or (waveErrors e) VNull) ].

(** [results.<key> && results.<key>.id] *)
Definition hint (results : list (jstring * value)) (key : jstring) : value :=
  js_and (own results key) (prop (own results key) (lit "id")).

(** The body of the answer after the loop. *)
Definition summary (t : tally) : value :=
  VObj [ (lit "didSucceed",
          VBool (match errors t with
                 | [] => true
                 | _ :: _ => false
                 end));
         (lit "products", VObj (results t));
         (lit "errors", VObj (errors t));
         (lit "envHints",
          VObj [ (lit "WAVE_PRODUCT_ID_CORE", hint (results t) (lit "core"));
                 (lit "WAVE_PRODUCT_ID_GROWTH", hint (results t) (lit "growth"));
                 (lit "WAVE_PRODUCT_ID_FULL", hint (results t) (lit "full")) ]) ].

(** [x === '<s>'] *)
Definition is_string (x : value) (s : jstring) : bool :=
  match x with
  | VStr y => str_eqb y s
  | _ => false
  end.

Definition Missing_WAVE_BUSINESS_ID : value :=
  VObj [ (lit "error", VStr (lit "Missing WAVE_BUSINESS_ID"));
         (lit "note",
          VStr (lit "Set WAVE_BUSINESS_ID, then re-run to create products.")) ].

Definition Missing_WAVE_INCOME_ACCOUNT_ID : value :=
  VObj [ (lit "error", VStr (lit "Missing WAVE_INCOME_ACCOUNT_ID"));
         (lit "note",
          VStr (lit "Set WAVE_INCOME_ACCOUNT_ID to a valid Income account ID (e.g., Sales/Service Income) from your Chart of Accounts.")) ].

Definition error_response (error : js_error) : value :=
  VObj [ (lit "error", js_or (VStr (message error)) (VStr (lit "Unknown error")));
         (lit "errorDetails", js_or (waveErrors error) VNull) ].

Section Handlers.

Context {B : Builtins} (net : Network) (env : Env).

Definition minimal_variables (businessId name description : value) : value :=
  VObj [ (lit "input",
          VObj [ (lit "businessId", businessId);
                 (lit "name", name);
                 (lit "description", description);
                 (lit "isSold", VBool true) ]) ].

(** [createProduct] of the variant that sends neither price nor income
    account; its [waveQuery] and its failure handling have the text of the
    other variant. *)
Definition createProduct_minimal (businessId name description : value) : M value :=
  data <- CreateProducts.waveQuery net env ProductCreate
            (minimal_variables businessId name description) ;;
  res <- lift (get data (lit "productCreate")) ;;
  if did_fail res (lit "product") then
    let msg := if truthy (firstErr res)
               then prop (firstErr res) (lit "message")
               else VStr (lit "Unknown error creating product") in
    let details := if truthy (js_and res (prop res (lit "inputErrors")))
                   then prop res (lit "inputErrors")
                   else VNull in
    match msg with
    | VUndefined => throw {| message := []; waveErrors := details |}
    | _ =>
        text <- lift (ToString msg) ;;
        throw {| message := text; waveErrors := details |}
    end
  else ret (prop res (lit "product")).

(** The variables the other variant sends. *)
Definition priced_variables (businessId name description : value)
    (unitPrice : float) (incomeAccountId : value) : value :=
  VObj [ (lit "input",
          VObj [ (lit "businessId", businessId);
                 (lit "name", name);
                 (lit "description", description);
                 (lit "unitPrice", VStr (Number_toString unitPrice));
                 (lit "incomeAccountId", incomeAccountId) ]) ].

(** One turn of the loop: [try { results[key] = await createProduct(...) }
    catch (e) { errors[key] = {...} }]. *)
Definition attempt (create : package -> M value) (acc : tally)
    (entry : jstring * package) : M tally :=
  try_catch
    (prod <- create (snd entry) ;;
     ret {| results := assign (results acc) (fst entry) prod;
            errors := errors acc |})
    (fun e =>
       ret {| results := results acc;
              errors := assign (errors acc) (fst entry) (error_entry e) |}).

(** [for (const key of Object.keys(PACKAGES)) { ... }] *)
Fixpoint for_each (create : package -> M value) (entries : list (jstring * package))
    (acc : tally) : M tally :=
  match entries with
  | [] => ret acc
  | entry :: rest =>
      acc' <- attempt create acc entry ;;
      for_each create rest acc'
  end.

(** [module.exports] of the variant without price: POST only. *)
Definition handler_minimal (req : Request) : M Response :=
  try_catch
    (if negb (str_eqb (method req) (lit "POST"))
     then json 405 (VObj [ (lit "error", VStr (lit "Method not allowed")) ])
     else
       let businessId := js_or (getenv (WAVE_BUSINESS_ID env)) (VStr []) in
       if negb (truthy businessId) then json 200 Missing_WAVE_BUSINESS_ID
       else
         t <- for_each
                (fun p => createProduct_minimal businessId (VStr (name p))
                            (VStr (description p)))
                PACKAGES empty_tally ;;
         json 200 (summary t))
    (fun error => json 200 (error_response error)).

(** [req.method === 'GET' && (req.query && (req.query.create === '1' ||
    req.query.create === 'true'))] *)
Definition isGetConfirmed (req : Request) : value :=
  if str_eqb (method req) (lit "GET")
  then js_and (query req)
         (VBool (is_string (prop (query req) (lit "create")) (lit "1")
                 || is_string (prop (query req) (lit "create")) (lit "true")))
  else VBool false.

(** [module.exports] of the variant with price and income account. *)
Definition handler (req : Request) : M Response :=
  try_catch
    (let isPost := str_eqb (method req) (lit "POST") in
     if negb isPost && negb (truthy (isGetConfirmed req))
     then json 405
            (VObj [ (lit "error",
                     VStr (lit "Method not allowed. Use POST or GET with ?create=1")) ])
     else
       let businessId := js_or (getenv (WAVE_BUSINESS_ID env)) (VStr []) in
       if negb (truthy businessId) then json 200 Missing_WAVE_BUSINESS_ID
       else
         let incomeAccountId :=
           js_or (getenv (WAVE_INCOME_ACCOUNT_ID env)) (VStr []) in
         if negb (truthy incomeAccountId)
         then json 200 Missing_WAVE_INCOME_ACCOUNT_ID
         else
           t <- for_each
                  (fun p => CreateProducts.createProduct net env businessId
                              (VStr (name p)) (VStr (description p)) (price p)
                              incomeAccountId)
                  PACKAGES empty_tally ;;
           json 200 (summary t))
    (fun error => json 200 (error_response error)).

(** *** Vocabulary for the statements about provisioning *)

(** The request of the priced variant for one package. *)
Definition priced_request (p : package) : outbound :=
  WavePost (lit "Bearer " ++ env_text (WAVE_API_KEY env)) ProductCreate
    (priced_variables (js_or (getenv (WAVE_BUSINESS_ID env)) (VStr []))
       (VStr (name p)) (VStr (description p)) (price p)
       (js_or (getenv (WAVE_INCOME_ACCOUNT_ID env)) (VStr []))).

(** The request of the variant without price for one package. *)
Definition minimal_request (p : package) : outbound :=
  WavePost (lit "Bearer " ++ env_text (WAVE_API_KEY env)) ProductCreate
    (minimal_variables (js_or (getenv (WAVE_BUSINESS_ID env)) (VStr []))
       (VStr (name p)) (VStr (description p))).

(** The method gate of the priced variant is open. *)
Definition may_create (req : Request) : bool :=
  str_eqb (method req) (lit "POST") || truthy (isGetConfirmed req).

(** The error every attempt records when no API key is set. *)
Definition Missing_WAVE_API_KEY : js_error :=
  {| message := lit "Missing WAVE_API_KEY";
     waveErrors :=
       VArr [ VObj [ (lit "message",
         VStr (lit "Set WAVE_API_KEY in your deployment environment.")) ] ] |}.

(** The tally when every attempt threw [e]. *)
Definition all_failed (e : js_error) : tally :=
  {| results := [];
     errors := [ (lit "core", error_entry e);
                 (lit "growth", error_entry e);
                 (lit "full", error_entry e) ] |}.

End Handlers.

End Provisioning.

(** ** Observations on traces *)

Module Observe.

(** The Wave operation of a request, if it is one. *)
Definition operation_of (r : outbound) : option operation :=
  match r with
  | WavePost _ q _ => Some q
  | GitHubPut _ _ _ _ => None
  end.

Definition operations (t : list outbound) : list (option operation) :=
  List.map operation_of t.

(** The variables of a Wave request. *)
Definition variables_of (r : outbound) : value :=
  match r with
  | WavePost _ _ v => v
  | GitHubPut _ _ _ _ => VUndefined
  end.

(** The body of a request to the storage service. *)
Definition body_of (r : outbound) : value :=
  match r with
  | GitHubPut _ _ _ b => b
  | WavePost _ _ _ => VUndefined
  end.

End Observe.

(** ** The amount the specification asks for *)

Module Spec.

(** Cents-safe rounding in the words of the specification: multiply by
    100, round to the nearest integer, divide by 100. *)
Definition round_to_cents (q : Q) : Q :=
  (inject_Z (Qfloor (q * 100 + (1 # 2))) / 100)%Q.

(** Half the catalog price, rounded to two decimal places. *)
Definition deposit (price : Q) : Q := round_to_cents (price / 2).

End Spec.

(** ** An instance of the built-ins, to run the embedding *)

Module Run.

Fixpoint fraction_digits (fuel : nat) (r d : Z) : jstring :=
  match fuel with
  | O => []
  | S fuel' =>
      if (r =? 0)%Z then []
      else (48 + Z.to_N (10 * r / d))%N :: fraction_digits fuel' (10 * r mod d)%Z d
  end.

Definition decimal (n : Z) : jstring :=
  lit (DecimalString.NilZero.string_of_int (Z.to_int n)).

(** Number::toString on NaN, the infinities, the zeros and the integers
    below 2^53 in magnitude.  A fraction is printed by its exact decimal
    expansion, which is the built-in's answer when the number is at least
    1e-6 in magnitude and that expansion is also the shortest one that
    reads back (2499.5, 0.25).  The runs below print integers only. *)
Definition number_to_string (x : float) : jstring :=
  match Prim2SF x with
  | S754_nan => lit "NaN"
  | S754_infinity s => if s then lit "-Infinity" else lit "Infinity"
  | S754_zero _ => lit "0"
  | S754_finite s m e =>
      (if s then lit "-" else []) ++
      (if (0 <=? e)%Z then decimal (Z.pos m * 2 ^ e)
       else
         let d := (2 ^ (- e))%Z in
         decimal (Z.pos m / d) ++
         (if (Z.pos m mod d =? 0)%Z then []
          else lit "." ++ fraction_digits (Z.to_nat (- e)) (Z.pos m mod d) d))
  end.

Definition hex_digit (n : N) : N :=
  if (n <? 10)%N then (48 + n)%N else (87 + n)%N.

(** QuoteJSONString, for strings without unpaired surrogates. *)
Definition escape (c : N) : jstring :=
  if (c =? 34)%N then [92; 34]%N
  else if (c =? 92)%N then [92; 92]%N
  else if (c =? 8)%N then [92; 98]%N
  else if (c =? 9)%N then [92; 116]%N
  else if (c =? 10)%N then [92; 110]%N
  else if (c =? 12)%N then [92; 102]%N
  else if (c =? 13)%N then [92; 114]%N
  else if (c <? 32)%N then [92; 117; 48; 48; hex_digit (c / 16); hex_digit (c mod 16)]%N
  else [c].

Fixpoint join (sep : jstring) (parts : list jstring) : jstring :=
  match parts with
  | [] => []
  | [p] => p
  | p :: rest => p ++ sep ++ join sep rest
  end.

Definition quote (s : jstring) : jstring :=
  [34%N] ++ List.flat_map escape s ++ [34%N].

(** [JSON.stringify] of a value that is not [undefined], for objects
    whose keys are not array indices (those the built-in lists first). *)
Fixpoint stringify (v : value) : jstring :=
  match v with
  | VUndefined | VNull => lit "null"
  | VBool true => lit "true"
  | VBool false => lit "false"
  | VNum x => if PrimFloat.is_finite x then number_to_string x else lit "null"
  | VStr s => quote s
  | VArr elems => lit "[" ++ join (lit ",") (List.map stringify elems) ++ lit "]"
  | VObj props =>
      lit "{" ++
      join (lit ",")
        ((fix members (ps : list (jstring * value)) : list jstring :=
            match ps with
            | [] => []
            | (_, VUndefined) :: rest => members rest
            | (k, x) :: rest => (quote k ++ lit ":" ++ stringify x) :: members rest
            end) props) ++
      lit "}"
  end.

(** [toLowerCase] on the letters A to Z; the other code units are kept,
    as the built-in keeps every other code unit below 128. *)
Definition lower (s : jstring) : jstring :=
  List.map (fun c => if ((65 <=? c) && (c <=? 90))%N then (c + 32)%N else c) s.

Definition builtins : Builtins :=
  {| JSON_stringify := stringify;
     Number_toString := number_to_string;
     String_toLowerCase := lower |}.

(** *** Sample environments and services *)

Definition env_unset : Env :=
  {| WAVE_API_KEY := None; WAVE_BUSINESS_ID := None; WAVE_CURRENCY := None;
     WAVE_PRODUCT_ID_CORE := None; WAVE_PRODUCT_ID_GROWTH := None;
     WAVE_PRODUCT_ID_FULL := None; WAVE_PRODUCT_ID := None;
     WAVE_INCOME_ACCOUNT_ID := None;
     GITHUB_TOKEN := None; GITHUB_REPO := None; GITHUB_BRANCH := None |}.

Definition env_set : Env :=
  {| WAVE_API_KEY := Some (lit "key"); WAVE_BUSINESS_ID := Some (lit "biz");
     WAVE_CURRENCY := None;
     WAVE_PRODUCT_ID_CORE := None; WAVE_PRODUCT_ID_GROWTH := None;
     WAVE_PRODUCT_ID_FULL := None; WAVE_PRODUCT_ID := Some (lit "prod");
     WAVE_INCOME_ACCOUNT_ID := Some (lit "income");
     GITHUB_TOKEN := Some (lit "tok"); GITHUB_REPO := Some (lit "owner/repo");
     GITHUB_BRANCH := None |}.

Definition clock : Clock :=
  {| invoiceDate := lit "2025-01-01"; dueDate := lit "2025-01-15" |}.

(** A 200 response with the given JSON body. *)
Definition ok_json (b : value) : outcome http_response :=
  Return {| ok := true; statusText := lit "OK"; resp_json := Return b |}.

(** A service that answers each Wave operation by a fixed response. *)
Definition wave (answer : operation -> outcome http_response) : Network :=
  fun _ r =>
    match r with
    | WavePost _ q _ => answer q
    | GitHubPut _ _ _ _ => Throw (Error (lit "fetch failed"))
    end.

Definition data_of (field : jstring) (payload : value) : value :=
  VObj [ (lit "data", VObj [ (field, payload) ]) ].

(** A successful mutation payload carrying an invoice or a customer. *)
Definition succeeded (payload : jstring) (v : value) : value :=
  VObj [ (lit "didSucceed", VBool true); (lit "inputErrors", VArr []); (payload, v) ].

Definition req_invoice (packageKey : jstring) : Request :=
  {| method := lit "POST";
     body := VObj [ (lit "contractData",
                     VObj [ (lit "clientName", VStr (lit "Ada"));
                            (lit "clientEmail", VStr (lit "ada@example.com"));
                            (lit "contractId", VStr (lit "C-1")) ]);
                    (lit "invoice", VObj [ (lit "packageKey", VStr packageKey) ]) ];
     query := VObj [] |}.

Definition customer_ok : value :=
  data_of (lit "customerCreate")
    (succeeded (lit "customer") (VObj [ (lit "id", VStr (lit "cust-1")) ])).

Definition invoice_ok : value :=
  data_of (lit "invoiceCreate")
    (succeeded (lit "invoice")
       (VObj [ (lit "id", VStr (lit "inv-1")); (lit "status", VStr (lit "DRAFT"));
               (lit "viewUrl", VStr (lit "https://view.example/inv-1")) ])).

Definition send_ok : value :=
  data_of (lit "invoiceSend")
    (succeeded (lit "invoice")
       (VObj [ (lit "id", VStr (lit "inv-1"));
               (lit "viewUrl", VStr (lit "https://pay.example/inv-1")) ])).

(** An application-level failure: HTTP 200, no GraphQL error, the
    operation reports [didSucceed: false] with field-level errors. *)
Definition input_errors : value :=
  VArr [ VObj [ (lit "code", VStr (lit "INVALID"));
                (lit "message", VStr (lit "Email is invalid")) ];
         VObj [ (lit "code", VStr (lit "REQUIRED"));
                (lit "message", VStr (lit "Name is required")) ] ].

Definition rejected (field payload : jstring) : value :=
  data_of field
    (VObj [ (lit "didSucceed", VBool false); (lit "inputErrors", input_errors);
            (payload, VNull) ]).

(** Customer and invoice creation succeed, approval is rejected,
    sending succeeds. *)
Definition net_approval_fails : Network :=
  wave (fun q =>
    match q with
    | CreateCustomer => ok_json customer_ok
    | InvoiceCreate => ok_json invoice_ok
    | InvoiceApprove => ok_json (rejected (lit "invoiceApprove") (lit "invoice"))
    | InvoiceSend => ok_json send_ok
    | _ => Throw (Error (lit "fetch failed"))
    end).

(** Every mutation is rejected with field-level errors. *)
Definition net_rejecting : Network :=
  wave (fun q =>
    match q with
    | CreateCustomer => ok_json (rejected (lit "customerCreate") (lit "customer"))
    | ProductCreate => ok_json (rejected (lit "productCreate") (lit "product"))
    | _ => Throw (Error (lit "fetch failed"))
    end).

Definition req_get (q : value) : Request :=
  {| method := lit "GET"; body := VUndefined; query := q |}.

Definition edge (id name : string) : value :=
  VObj [ (lit "node", VObj [ (lit "id", VStr (lit id)); (lit "name", VStr (lit name)) ]) ].

(** A business with three products. *)
Definition products_body : value :=
  data_of (lit "business")
    (VObj [ (lit "id", VStr (lit "biz")); (lit "name", VStr (lit "Studio"));
            (lit "products",
             VObj [ (lit "edges",
                     VArr [ edge "p1" "Core System Package";
                            edge "p2" "Growth Accelerator Package";
                            edge "p3" "Full Ecosystem PACKAGE" ]) ]) ]).

Definition net_products : Network :=
  wave (fun q =>
    match q with
    | Products => ok_json products_body
    | _ => Throw (Error (lit "fetch failed"))
    end).

Definition accounts_body : value :=
  data_of (lit "business")
    (VObj [ (lit "id", VStr (lit "biz")); (lit "name", VStr (lit "Studio"));
            (lit "accounts",
             VObj [ (lit "edges", VArr [ edge "a1" "Sales"; edge "a2" "Cash" ]) ]) ]).

Definition net_listing : Network :=
  wave (fun q =>
    match q with
    | Products => ok_json products_body
    | Accounts => ok_json accounts_body
    | _ => Throw (Error (lit "fetch failed"))
    end).

Definition req_upload (filename : string) : Request :=
  {| method := lit "POST";
     body := VObj [ (lit "filename", VStr (lit filename));
                    (lit "content", VStr (lit "JVBERi0xLjQK")) ];
     query := VObj [] |}.

(** An upload that names its contract. *)
Definition req_upload_signed (filename contract : string) : Request :=
  {| method := lit "POST";
     body := VObj [ (lit "filename", VStr (lit filename));
                    (lit "content", VStr (lit "JVBERi0xLjQK"));
                    (lit "contractData",
                     VObj [ (lit "contractId", VStr (lit contract)) ]) ];
     query := VObj [] |}.

Definition net_github : Network :=
  fun _ r =>
    match r with
    | GitHubPut _ _ _ _ =>
        ok_json (VObj [ (lit "content",
                         VObj [ (lit "sha", VStr (lit "abc123"));
                                (lit "download_url",
                                 VStr (lit "https://raw.example/contract.pdf")) ]) ])
    | WavePost _ _ _ => Throw (Error (lit "fetch failed"))
    end.

(** Customer creation succeeds, invoice creation is rejected with
    field-level errors. *)
Definition net_invoice_rejected : Network :=
  wave (fun q =>
    match q with
    | CreateCustomer => ok_json customer_ok
    | InvoiceCreate => ok_json (rejected (lit "invoiceCreate") (lit "invoice"))
    | _ => Throw (Error (lit "fetch failed"))
    end).

(** Key and business set, no product identifier of any kind. *)
Definition env_no_product : Env :=
  {| WAVE_API_KEY := Some (lit "key"); WAVE_BUSINESS_ID := Some (lit "biz");
     WAVE_CURRENCY := None;
     WAVE_PRODUCT_ID_CORE := None; WAVE_PRODUCT_ID_GROWTH := None;
     WAVE_PRODUCT_ID_FULL := None; WAVE_PRODUCT_ID := None;
     WAVE_INCOME_ACCOUNT_ID := None;
     GITHUB_TOKEN := None; GITHUB_REPO := None; GITHUB_BRANCH := None |}.

(** Everything set but the API key. *)
Definition env_no_key : Env :=
  {| WAVE_API_KEY := None; WAVE_BUSINESS_ID := Some (lit "biz");
     WAVE_CURRENCY := None;
     WAVE_PRODUCT_ID_CORE := None; WAVE_PRODUCT_ID_GROWTH := None;
     WAVE_PRODUCT_ID_FULL := None; WAVE_PRODUCT_ID := Some (lit "prod");
     WAVE_INCOME_ACCOUNT_ID := Some (lit "income");
     GITHUB_TOKEN := None; GITHUB_REPO := None; GITHUB_BRANCH := None |}.

Definition req_post : Request :=
  {| method := lit "POST"; body := VUndefined; query := VUndefined |}.

(** A per-package identifier for [growth] beside the generic one. *)
Definition env_override : Env :=
  {| WAVE_API_KEY := Some (lit "key"); WAVE_BUSINESS_ID := Some (lit "biz");
     WAVE_CURRENCY := None;
     WAVE_PRODUCT_ID_CORE := None; WAVE_PRODUCT_ID_GROWTH := Some (lit "prod-growth");
     WAVE_PRODUCT_ID_FULL := None; WAVE_PRODUCT_ID := Some (lit "prod");
     WAVE_INCOME_ACCOUNT_ID := Some (lit "income");
     GITHUB_TOKEN := Some (lit "tok"); GITHUB_REPO := Some (lit "owner/repo");
     GITHUB_BRANCH := Some (lit "release") |}.

Definition product_ok (id : string) : value :=
  data_of (lit "productCreate")
    (succeeded (lit "product") (VObj [ (lit "id", VStr (lit id)) ])).

(** The second request is rejected, every other product is created. *)
Definition net_second_rejected : Network :=
  fun t _ =>
    match t with
    | [_] => ok_json (rejected (lit "productCreate") (lit "product"))
    | [] => ok_json (product_ok "prod-1")
    | _ => ok_json (product_ok "prod-3")
    end.

(** The storage service refuses the upload. *)
Definition net_github_refuses : Network :=
  fun _ _ =>
    Return {| ok := false; statusText := lit "Unprocessable Entity";
              resp_json := Return (VObj [ (lit "message", VStr (lit "Invalid request")) ]) |}.

(** The storage service accepts without echoing a download URL. *)
Definition net_github_silent : Network :=
  fun _ _ =>
    ok_json (VObj [ (lit "content", VObj [ (lit "sha", VStr (lit "abc123")) ]) ]).

(** A business without accounts. *)
Definition net_bare_business : Network :=
  wave (fun _ =>
    ok_json (data_of (lit "business")
               (VObj [ (lit "id", VStr (lit "biz")); (lit "name", VStr (lit "Studio")) ]))).

(** The business is unknown to the service. *)
Definition net_null_business : Network :=
  wave (fun _ => ok_json (data_of (lit "business") VNull)).

Definition net_businesses : Network :=
  wave (fun _ =>
    ok_json (data_of (lit "businesses")
               (VObj [ (lit "edges", VArr [ edge "b1" "Studio"; edge "b2" "Lab" ]) ]))).

(** A response with HTTP status 200 whose [errors] list is empty. *)
Definition empty_errors_body : value :=
  VObj [ (lit "errors", VArr []);
         (lit "data", VObj [ (lit "customerCreate", VNull) ]) ].

End Run.

(* ================================================================== *)
(** * Part II: facts                                                   *)
(* ================================================================== *)

(** ** Strings *)

Lemma str_eqb_refl (s : jstring) : str_eqb s s = true.
Proof.
  induction s as [|c s IH]; simpl; [reflexivity|].
  now rewrite N.eqb_refl, IH.
Qed.

Lemma str_eqb_eq (a b : jstring) : str_eqb a b = true <-> a = b.
Proof.
  split.
  - revert b. induction a as [|x a IH]; intros [|y b]; simpl; try discriminate.
    + reflexivity.
    + intros H. apply andb_true_iff in H as [Hx Hab].
      apply N.eqb_eq in Hx. apply IH in Hab. now subst.
  - intros ->. apply str_eqb_refl.
Qed.

(** ** The deposit *)

Import CreateInvoice.

Lemma catalog_own (key : jstring) (pkg : package) :
  lookup PACKAGE_CATALOG key = Some (Own pkg) ->
  (key = lit "core" /\ pkg = {| name := lit "Core System Package"; price := 5000 |}) \/
  (key = lit "growth" /\ pkg = {| name := lit "Growth Accelerator Package"; price := 7500 |}) \/
  (key = lit "full" /\ pkg = {| name := lit "Full Ecosystem Package"; price := 10000 |}).
Proof.
  unfold lookup, PACKAGE_CATALOG. cbn [assoc].
  destruct (str_eqb (lit "core") key) eqn:E1.
  { intros H. injection H as H. apply str_eqb_eq in E1. auto. }
  destruct (str_eqb (lit "growth") key) eqn:E2.
  { intros H. injection H as H. apply str_eqb_eq in E2. auto. }
  destruct (str_eqb (lit "full") key) eqn:E3.
  { intros H. injection H as H. apply str_eqb_eq in E3. auto. }
  destruct (from_prototype key); discriminate.
Qed.

(** C2.  For every key of the package catalog, the deposit the invoice
    workflow computes in floating point is exactly the rational the
    specification asks for: half the catalog price, multiplied by 100,
    rounded to the nearest integer and divided by 100.  The three catalog
    prices 5000, 7500 and 10000 give 2500, 3750 and 5000. *)
Theorem deposit_is_half_price_to_the_cent (key : jstring) (pkg : package) :
  lookup PACKAGE_CATALOG key = Some (Own pkg) ->
  (exists p d : Q,
      Q_of_float (price pkg) = Some p /\
      Q_of_float (deposit_of (Own pkg)) = Some d /\
      (d == Spec.deposit p)%Q /\ (d == p / 2)%Q) /\
  (key = lit "core" -> deposit_of (Own pkg) = 2500%float) /\
  (key = lit "growth" -> deposit_of (Own pkg) = 3750%float) /\
  (key = lit "full" -> deposit_of (Own pkg) = 5000%float).
Proof.
  intros H. apply catalog_own in H.
  destruct H as [[-> ->] | [[-> ->] | [-> ->]]].
  - split; [exists 5000%Q, 2500%Q | ];
      repeat split; try discriminate; try reflexivity.
  - split; [exists 7500%Q, 3750%Q | ];
      repeat split; try discriminate; try reflexivity.
  - split; [exists 10000%Q, 5000%Q | ];
      repeat split; try discriminate; try reflexivity.
Qed.

Lemma deposit_is_half_price_to_the_cent_growth :
  lookup PACKAGE_CATALOG (lit "growth")
    = Some (Own {| name := lit "Growth Accelerator Package"; price := 7500 |}) /\
  deposit_of (Own {| name := lit "Growth Accelerator Package"; price := 7500 |})
    = 3750%float.
Proof.
  split; [reflexivity|].
  apply (deposit_is_half_price_to_the_cent (lit "growth")
           {| name := lit "Growth Accelerator Package"; price := 7500 |});
    reflexivity.
Defined.

(** ** The GraphQL call of the invoice endpoint *)

Section WaveQueryFacts.

Context {B : Builtins} (net : Network) (env : Env).

Lemma waveQuery_unconfigured (q : operation) (v : value) (t : list outbound) :
  truthy (getenv (WAVE_API_KEY env)) = false ->
  waveQuery net env q v t = (Throw (Error (lit "Missing WAVE_API_KEY")), t).
Proof.
  intros H. unfold waveQuery. now rewrite H.
Qed.

Lemma ToString_getenv (x : option jstring) :
  truthy (getenv x) = true -> ToString (getenv x) = Return (env_text x).
Proof.
  destruct x; simpl; [reflexivity | discriminate].
Qed.

Lemma waveQuery_trace (q : operation) (v : value) (t : list outbound) :
  truthy (getenv (WAVE_API_KEY env)) = true ->
  snd (waveQuery net env q v t) = t ++ [WavePost (bearer env) q v].
Proof.
  intros H. unfold waveQuery, bearer. rewrite H, (ToString_getenv _ H). cbn [negb].
  unfold bind, fetch, lift, throw.
  destruct (net t _) as [resp|e]; [|reflexivity].
  destruct (resp_json resp) as [b|e]; [|reflexivity].
  destruct (get b (lit "errors")) as [errs|e]; [|reflexivity].
  destruct (negb (ok resp) || truthy errs); [reflexivity|].
  destruct (get b (lit "data")); reflexivity.
Qed.

Lemma get_not_nullish (v : value) (k : jstring) :
  nullish v = false -> get v k = Return (prop v k).
Proof.
  destruct v; simpl; intros H; try discriminate; reflexivity.
Qed.

(** On a response whose body parsed to [b], not [null]. *)
Lemma waveQuery_on_response (q : operation) (v : value) (t : list outbound)
    (resp : http_response) (b : value) :
  truthy (getenv (WAVE_API_KEY env)) = true ->
  net t (WavePost (bearer env) q v) = Return resp ->
  resp_json resp = Return b ->
  nullish b = false ->
  fst (waveQuery net env q v t) =
    if negb (ok resp) || truthy (prop b (lit "errors"))
    then Throw {| message := lit "Wave GraphQL error: " ++
                    (if truthy (prop b (lit "errors"))
                     then JSON_stringify (prop b (lit "errors"))
                     else statusText resp);
                  waveErrors := js_or (prop b (lit "errors")) VNull |}
    else Return (prop b (lit "data")).
Proof.
  intros Hkey Hnet Hjson Hb. unfold waveQuery.
  rewrite Hkey, (ToString_getenv _ Hkey). cbn [negb].
  unfold bind, fetch, lift, throw. fold (bearer env). rewrite Hnet, Hjson.
  rewrite (get_not_nullish _ _ Hb).
  destruct (negb (ok resp) || truthy (prop b (lit "errors"))); [reflexivity|].
  now rewrite (get_not_nullish _ _ Hb).
Qed.

End WaveQueryFacts.

(** C4, as stated, fails: a 200 response whose top-level [errors] is the
    empty list makes the call raise, because an empty array is truthy. *)
Lemma waveQuery_raises_on_empty_errors_list :
  Run.ok_json Run.empty_errors_body
    = Return {| ok := true; statusText := lit "OK";
                resp_json := Return Run.empty_errors_body |} /\
  prop Run.empty_errors_body (lit "errors") = VArr [] /\
  waveQuery (B := Run.builtins) (Run.wave (fun _ => Run.ok_json Run.empty_errors_body))
    Run.env_set CreateCustomer VNull []
  = (Throw {| message := lit "Wave GraphQL error: []"; waveErrors := VArr [] |},
     [WavePost (lit "Bearer key") CreateCustomer VNull]).
Proof. repeat split. Qed.

(** C4, amended.  With an API key configured, on a response whose body
    parsed to a JSON value other than null, the GraphQL call raises if and
    only if the transport status is not successful or the top-level
    [errors] field of the body is truthy (an empty list included).  When it
    raises, the message is the prefix followed by the serialized [errors]
    if truthy and by the status text otherwise, and the error carries
    [errors] (or null) as [waveErrors].  When it does not raise, the [data]
    field of the body is returned. *)
Theorem waveQuery_raises_iff {B : Builtins} (net : Network) (env : Env)
    (q : operation) (v : value) (t : list outbound)
    (resp : http_response) (b : value) :
  truthy (getenv (WAVE_API_KEY env)) = true ->
  net t (WavePost (bearer env) q v) = Return resp ->
  resp_json resp = Return b ->
  nullish b = false ->
  ((exists e, fst (waveQuery net env q v t) = Throw e)
     <-> ok resp = false \/ truthy (prop b (lit "errors")) = true) /\
  (ok resp = false \/ truthy (prop b (lit "errors")) = true ->
   fst (waveQuery net env q v t) =
     Throw {| message := lit "Wave GraphQL error: " ++
                (if truthy (prop b (lit "errors"))
                 then JSON_stringify (prop b (lit "errors"))
                 else statusText resp);
              waveErrors := js_or (prop b (lit "errors")) VNull |}) /\
  (ok resp = true /\ truthy (prop b (lit "errors")) = false ->
   fst (waveQuery net env q v t) = Return (prop b (lit "data"))).
Proof.
  intros Hkey Hnet Hjson Hb.
  rewrite (waveQuery_on_response net env q v t resp b Hkey Hnet Hjson Hb).
  destruct (ok resp), (truthy (prop b (lit "errors"))); cbn [negb orb];
    repeat split; intros; eauto;
    repeat match goal with
           | H : exists _, _ |- _ => destruct H
           | H : _ \/ _ |- _ => destruct H
           | H : _ /\ _ |- _ => destruct H
           end; try discriminate.
Qed.

Lemma waveQuery_raises_iff_on_graphql_error :
  fst (waveQuery (B := Run.builtins)
         (Run.wave (fun _ => Run.ok_json
            (VObj [ (lit "errors",
                     VArr [ VObj [ (lit "message", VStr (lit "Bad")) ] ]) ])))
         Run.env_set Accounts VNull [])
  = Throw {| message := lit "Wave GraphQL error: " ++
               Run.stringify (VArr [ VObj [ (lit "message", VStr (lit "Bad")) ] ]);
             waveErrors := VArr [ VObj [ (lit "message", VStr (lit "Bad")) ] ] |}.
Proof.
  apply (waveQuery_raises_iff (B := Run.builtins)
           (Run.wave (fun _ => Run.ok_json
              (VObj [ (lit "errors",
                       VArr [ VObj [ (lit "message", VStr (lit "Bad")) ] ]) ])))
           Run.env_set Accounts VNull []
           {| ok := true; statusText := lit "OK";
              resp_json := Return
                (VObj [ (lit "errors",
                         VArr [ VObj [ (lit "message", VStr (lit "Bad")) ] ]) ]) |}
           (VObj [ (lit "errors",
                    VArr [ VObj [ (lit "message", VStr (lit "Bad")) ] ]) ]));
    try reflexivity.
  right. reflexivity.
Defined.

(** ** The invoice endpoint *)

Section InvoiceFacts.

Context {B : Builtins} (net : Network) (env : Env) (clock : Clock).

Lemma truthy_or_empty (v : value) : truthy (js_or v (VStr [])) = truthy v.
Proof.
  unfold js_or. destruct (truthy v) eqn:E; [exact E | reflexivity].
Qed.

Lemma configured_key : configured env = true ->
  truthy (getenv (WAVE_API_KEY env)) = true.
Proof.
  unfold configured. intros H. now apply andb_true_iff in H.
Qed.

(** Each mutation wrapper issues exactly the request of its query. *)
Lemma createCustomer_trace (b n m : value) (t : list outbound) :
  truthy (getenv (WAVE_API_KEY env)) = true ->
  snd (createCustomer net env b n m t)
    = t ++ [WavePost (bearer env) CreateCustomer (customer_variables b n m)].
Proof.
  intros H. unfold createCustomer, bind, lift, throw, ret.
  pose proof (waveQuery_trace net env CreateCustomer (customer_variables b n m) t H) as Ht.
  destruct (waveQuery net env _ _ t) as [[d|e] t']; [|exact Ht].
  destruct (get d _); [|exact Ht].
  destruct (did_fail _ _); exact Ht.
Qed.

Lemma approveInvoice_trace (id : value) (t : list outbound) :
  truthy (getenv (WAVE_API_KEY env)) = true ->
  snd (approveInvoice net env id t)
    = t ++ [WavePost (bearer env) InvoiceApprove (id_variables id)].
Proof.
  intros H. unfold approveInvoice, bind, lift, throw, ret.
  pose proof (waveQuery_trace net env InvoiceApprove (id_variables id) t H) as Ht.
  destruct (waveQuery net env _ _ t) as [[d|e] t']; [|exact Ht].
  destruct (get d _); [|exact Ht].
  destruct (did_fail _ _); exact Ht.
Qed.

Lemma sendInvoice_trace (id : value) (t : list outbound) :
  truthy (getenv (WAVE_API_KEY env)) = true ->
  snd (sendInvoice net env id t)
    = t ++ [WavePost (bearer env) InvoiceSend (id_variables id)].
Proof.
  intros H. unfold sendInvoice, bind, lift, throw, ret.
  pose proof (waveQuery_trace net env InvoiceSend (id_variables id) t H) as Ht.
  destruct (waveQuery net env _ _ t) as [[d|e] t']; [|exact Ht].
  destruct (get d _); [|exact Ht].
  destruct (did_fail _ _); exact Ht.
Qed.

(** Approval and sending never throw; sending runs after approval
    whatever approval did. *)
Lemma approve_and_send_eq (id url : value) (t : list outbound) :
  approve_and_send net env id url t =
    (Return (best_url
               (fst (sendInvoice net env id (snd (approveInvoice net env id t))))
               url),
     snd (sendInvoice net env id (snd (approveInvoice net env id t)))).
Proof.
  unfold approve_and_send, bind, try_catch, ret, best_url.
  destruct (approveInvoice net env id t) as [[a|e] t1]; cbn [fst snd];
    destruct (sendInvoice net env id t1) as [[u|e'] t2]; reflexivity.
Qed.

Lemma handler_wrong_method (req : Request) (t : list outbound) :
  is_POST req = false ->
  handler net env clock req t =
    (Return {| statusCode := 405;
               data := VObj [ (lit "error", VStr (lit "Method not allowed")) ] |}, t).
Proof.
  unfold is_POST, handler, try_catch. intros ->. reflexivity.
Qed.

Lemma handler_missing_fields (req : Request) (t : list outbound) :
  is_POST req = true -> has_required_fields req = false ->
  handler net env clock req t =
    (Return {| statusCode := 400;
               data := VObj [ (lit "error",
                 VStr (lit "Missing contractData or invoice.packageKey")) ] |}, t).
Proof.
  unfold is_POST, has_required_fields, packageKey_of, invoice_of, contractData_of,
    handler, try_catch.
  intros -> H. cbn [negb].
  destruct (truthy (prop (js_or (body req) (VObj [])) (lit "contractData")));
    [|reflexivity].
  destruct (truthy (prop (js_or (body req) (VObj [])) (lit "invoice")));
    [|reflexivity].
  cbn [andb] in H. rewrite H. reflexivity.
Qed.

Lemma handler_demo (req : Request) (t : list outbound) :
  is_POST req = true -> has_required_fields req = true -> configured env = false ->
  handler net env clock req t =
    (Return {| statusCode := 200; data := demo_response |}, t).
Proof.
  unfold is_POST, has_required_fields, packageKey_of, invoice_of, contractData_of,
    configured, handler, try_catch.
  intros -> H C. cbn [negb].
  apply andb_true_iff in H as [H H3]. apply andb_true_iff in H as [H1 H2].
  rewrite H1, H2, H3. cbn [negb orb].
  rewrite !truthy_or_empty.
  destruct (truthy (getenv (WAVE_API_KEY env))); [|reflexivity].
  cbn [andb] in C. rewrite C. reflexivity.
Qed.

(** With a well-formed request and a configured environment the
    response is decided by the two fatal steps. *)
Lemma handler_workflow (req : Request) (t : list outbound) :
  is_POST req = true -> has_required_fields req = true -> configured env = true ->
  handler net env clock req t =
    match fatal_steps net env clock req t with
    | (Throw e, t') =>
        (Return {| statusCode := 200; data := fallback_response e |}, t')
    | (Return inv, t') =>
        (Return {| statusCode := 200;
                   data := live_response (invoiceId inv)
                     (best_url
                        (fst (sendInvoice net env (invoiceId inv)
                                (snd (approveInvoice net env (invoiceId inv) t'))))
                        (viewUrl inv)) |},
         snd (sendInvoice net env (invoiceId inv)
                (snd (approveInvoice net env (invoiceId inv) t'))))
    end.
Proof.
  unfold is_POST, has_required_fields, configured.
  intros P H C.
  apply andb_true_iff in H as [H H3]. apply andb_true_iff in H as [H1 H2].
  apply andb_true_iff in C as [C1 C2].
  unfold handler, try_catch. rewrite P. cbn [negb].
  fold (contractData_of req) (invoice_of req).
  fold (packageKey_of req).
  rewrite H1, H2, H3. cbn [negb orb].
  rewrite !truthy_or_empty, C1, C2. cbn [negb orb].
  unfold fatal_steps, customer_step, invoice_step, businessId_of_env, currency_of_env.
  unfold bind.
  destruct (createCustomer net env _ _ _ t) as [[cid|e] t1]; [|reflexivity].
  destruct (createInvoice net env clock _ _ _ _ _ t1) as [[inv|e] t2]; [|reflexivity].
  rewrite approve_and_send_eq. reflexivity.
Qed.

Lemma createInvoice_unknown_key (b c cur key cid : value) (k : jstring)
    (t : list outbound) :
  ToString key = Return k ->
  lookup PACKAGE_CATALOG k = None ->
  createInvoice net env clock b c cur key cid t =
    (Throw (Error (lit "Unknown package key")), t).
Proof.
  intros Hk H. unfold createInvoice, bind, lift. rewrite Hk, H. reflexivity.
Qed.

End InvoiceFacts.

(** C1.  The handler always answers.  For a POST whose body carries
    [contractData] and [invoice.packageKey] the status is 200: in demo
    mode, with the placeholder link and no outbound request, when the API
    key or the business identifier is not configured; in fallback mode,
    with the placeholder link, the message and the details of the error,
    when one of the two fatal steps throws; in live mode otherwise.  A
    status other than 200 is 405 for a method other than POST, or 400 for
    a POST whose body lacks a required field. *)
Theorem invoice_failure_policy {B : Builtins} (net : Network) (env : Env)
    (clock : Clock) (req : Request) :
  exists (resp : Response) (trace : list outbound),
    handler net env clock req [] = (Return resp, trace) /\
    (is_POST req = true -> has_required_fields req = true ->
       statusCode resp = 200%Z /\
       (configured env = false ->
          data resp = demo_response /\ trace = [] /\
          prop (data resp) (lit "mode") = VStr (lit "demo") /\
          prop (data resp) (lit "paymentUrl") = VStr demo_url) /\
       (configured env = true ->
          forall e, fst (fatal_steps net env clock req []) = Throw e ->
            data resp = fallback_response e /\
            prop (data resp) (lit "mode") = VStr (lit "fallback") /\
            prop (data resp) (lit "paymentUrl") = VStr demo_url /\
            prop (data resp) (lit "error")
              = js_or (VStr (message e)) (VStr (lit "Unknown error")) /\
            prop (data resp) (lit "errorDetails") = js_or (waveErrors e) VNull) /\
       (configured env = true ->
          forall inv, fst (fatal_steps net env clock req []) = Return inv ->
            prop (data resp) (lit "mode") = VStr (lit "live") /\
            exists url, data resp = live_response (invoiceId inv) url)) /\
    (statusCode resp = 200%Z \/
     (statusCode resp = 405%Z /\ is_POST req = false) \/
     (statusCode resp = 400%Z /\ is_POST req = true
        /\ has_required_fields req = false)).
Proof.
  destruct (is_POST req) eqn:P.
  2:{ eexists; eexists. rewrite (handler_wrong_method net env clock req [] P).
      split; [reflexivity|]. split; [discriminate|]. right; left. now split. }
  destruct (has_required_fields req) eqn:F.
  2:{ eexists; eexists. rewrite (handler_missing_fields net env clock req [] P F).
      split; [reflexivity|]. split; [discriminate|]. right; right. now repeat split. }
  destruct (configured env) eqn:C.
  2:{ eexists; eexists. rewrite (handler_demo net env clock req [] P F C).
      split; [reflexivity|]. split; [|now left].
      intros _ _. split; [reflexivity|].
      split; [intros _; now repeat split|]. split; discriminate. }
  rewrite (handler_workflow net env clock req [] P F C).
  destruct (fatal_steps net env clock req []) as [[inv|e] t'].
  - eexists; eexists. split; [reflexivity|]. split; [|now left].
    intros _ _. split; [reflexivity|]. split; [discriminate|].
    split; intros _ x Hx; cbn [fst] in Hx; [discriminate|].
    injection Hx as <-. split; [reflexivity|]. eexists; reflexivity.
  - eexists; eexists. split; [reflexivity|]. split; [|now left].
    intros _ _. split; [reflexivity|]. split; [discriminate|].
    split; intros _ x Hx; cbn [fst] in Hx; [|discriminate].
    injection Hx as <-. now repeat split.
Qed.

(** C10.  Validation comes before the configuration check: whatever
    the environment, a request that is not a POST is answered 405 and a
    POST that lacks [contractData] or [invoice.packageKey] is answered 400,
    without any outbound request; the answer carries no [mode]. *)
Theorem validation_precedes_demo_mode {B : Builtins} (net : Network) (env : Env)
    (clock : Clock) (req : Request) :
  is_POST req && has_required_fields req = false ->
  exists resp : Response,
    handler net env clock req [] = (Return resp, []) /\
    ((is_POST req = false /\ statusCode resp = 405%Z) \/
     (is_POST req = true /\ has_required_fields req = false
        /\ statusCode resp = 400%Z)) /\
    prop (data resp) (lit "mode") = VUndefined.
Proof.
  intros H. destruct (is_POST req) eqn:P.
  - cbn [andb] in H. eexists.
    rewrite (handler_missing_fields net env clock req [] P H).
    split; [reflexivity|]. split; [right; now repeat split | reflexivity].
  - eexists. rewrite (handler_wrong_method net env clock req [] P).
    split; [reflexivity|]. split; [left; now split | reflexivity].
Qed.

Lemma validation_precedes_demo_mode_unconfigured :
  configured Run.env_unset = false /\
  exists resp : Response,
    handler (B := Run.builtins) (Run.wave (fun _ => Run.ok_json VNull))
      Run.env_unset Run.clock
      {| method := lit "GET"; body := VUndefined; query := VUndefined |} []
      = (Return resp, []) /\
    statusCode resp = 405%Z.
Proof.
  split; [reflexivity|].
  destruct (validation_precedes_demo_mode (B := Run.builtins)
              (Run.wave (fun _ => Run.ok_json VNull)) Run.env_unset Run.clock
              {| method := lit "GET"; body := VUndefined; query := VUndefined |}
              eq_refl) as [resp [Hrun [[[_ Hs] | [Hp _]] _]]].
  - exists resp. split; [exact Hrun | exact Hs].
  - discriminate Hp.
Defined.

Lemma js_or_idem (v : value) : js_or (js_or v VNull) VNull = js_or v VNull.
Proof.
  unfold js_or. destruct (truthy v) eqn:E; [now rewrite E | reflexivity].
Qed.

Lemma best_url_or_null (sent : outcome value) (viewUrl : value) :
  js_or (best_url sent viewUrl) VNull = best_url sent viewUrl.
Proof.
  unfold best_url. destruct sent as [u|e]; [|apply js_or_idem].
  destruct (truthy u) eqn:E; [|apply js_or_idem].
  unfold js_or. now rewrite E.
Qed.

(** C3.  When customer and invoice creation succeed and approval throws,
    the handler still issues the send request right after the approval
    request, and answers 200 in live mode with the best available URL:
    the one sending returned if it succeeded with one, else the view URL
    of the created invoice, else null. *)
Theorem approval_failure_is_not_fatal {B : Builtins} (net : Network) (env : Env)
    (clock : Clock) (req : Request) (inv : created) (t1 : list outbound)
    (e : js_error) :
  is_POST req = true -> has_required_fields req = true -> configured env = true ->
  fatal_steps net env clock req [] = (Return inv, t1) ->
  fst (approveInvoice net env (invoiceId inv) t1) = Throw e ->
  let approve := WavePost (bearer env) InvoiceApprove (id_variables (invoiceId inv)) in
  let send := WavePost (bearer env) InvoiceSend (id_variables (invoiceId inv)) in
  let sent := fst (sendInvoice net env (invoiceId inv) (t1 ++ [approve])) in
  exists resp : Response,
    handler net env clock req [] = (Return resp, (t1 ++ [approve]) ++ [send]) /\
    statusCode resp = 200%Z /\
    prop (data resp) (lit "mode") = VStr (lit "live") /\
    prop (data resp) (lit "invoiceId") = invoiceId inv /\
    prop (data resp) (lit "paymentUrl") = best_url sent (viewUrl inv).
Proof.
  intros P F C Hfatal _ approve send sent.
  pose proof (configured_key env C) as K.
  rewrite (handler_workflow net env clock req [] P F C), Hfatal.
  rewrite (approveInvoice_trace net env (invoiceId inv) t1 K).
  rewrite (sendInvoice_trace net env (invoiceId inv) _ K).
  eexists. split; [reflexivity|]. split; [reflexivity|]. split; [reflexivity|].
  split; [reflexivity|]. apply best_url_or_null.
Qed.

Lemma approval_failure_is_not_fatal_sample :
  fst (approveInvoice (B := Run.builtins) Run.net_approval_fails Run.env_set
         (VStr (lit "inv-1")) [])
    = Throw (Error (lit "Approve invoice failed: Email is invalid")) /\
  exists resp : Response,
    fst (handler (B := Run.builtins) Run.net_approval_fails Run.env_set Run.clock
           (Run.req_invoice (lit "growth")) []) = Return resp /\
    statusCode resp = 200%Z /\
    prop (data resp) (lit "mode") = VStr (lit "live") /\
    prop (data resp) (lit "paymentUrl") = VStr (lit "https://pay.example/inv-1").
Proof.
  split; [reflexivity|].
  edestruct (approval_failure_is_not_fatal (B := Run.builtins)
               Run.net_approval_fails Run.env_set Run.clock
               (Run.req_invoice (lit "growth")))
    as [resp [Hrun [Hs [Hm [_ Hu]]]]];
    [reflexivity | reflexivity | reflexivity | cbv; reflexivity | cbv; reflexivity | ].
  exists resp. rewrite Hrun. split; [reflexivity|]. split; [exact Hs|].
  split; [exact Hm|]. rewrite Hu. reflexivity.
Defined.

(** C5, as stated, fails: with an unknown package key the customer
    creation request is issued before the key is looked up. *)
Lemma unknown_key_still_creates_customer :
  lookup PACKAGE_CATALOG (lit "platinum") = None /\
  handler (B := Run.builtins) Run.net_approval_fails Run.env_set Run.clock
    (Run.req_invoice (lit "platinum")) []
  = (Return {| statusCode := 200;
               data := fallback_response (Error (lit "Unknown package key")) |},
     [WavePost (lit "Bearer key") CreateCustomer
        (customer_variables (VStr (lit "biz")) (VStr (lit "Ada"))
           (VStr (lit "ada@example.com")))]).
Proof. split; reflexivity. Qed.

(** C5, amended.  The package key is validated inside invoice creation,
    which runs after customer creation.  For a well-formed request under
    a configured environment whose key is neither a catalog entry nor a
    member of [Object.prototype], the handler issues the customer creation
    request and no other, and answers 200 in fallback mode: with the
    input error [Unknown package key] when customer creation succeeded,
    with the error of customer creation otherwise. *)
Theorem unknown_key_fails_after_customer_creation {B : Builtins} (net : Network)
    (env : Env) (clock : Clock) (req : Request) (key : jstring) :
  is_POST req = true -> has_required_fields req = true -> configured env = true ->
  ToString (packageKey_of req) = Return key ->
  lookup PACKAGE_CATALOG key = None ->
  exists resp : Response,
    handler net env clock req [] =
      (Return resp,
       [WavePost (bearer env) CreateCustomer
          (customer_variables (businessId_of_env env)
             (prop (contractData_of req) (lit "clientName"))
             (prop (contractData_of req) (lit "clientEmail")))]) /\
    statusCode resp = 200%Z /\
    prop (data resp) (lit "mode") = VStr (lit "fallback") /\
    (forall cid, fst (customer_step net env req []) = Return cid ->
       data resp = fallback_response (Error (lit "Unknown package key"))) /\
    (forall e, fst (customer_step net env req []) = Throw e ->
       data resp = fallback_response e).
Proof.
  intros P F C Hstr Hkey.
  pose proof (configured_key env C) as K.
  rewrite (handler_workflow net env clock req [] P F C).
  unfold fatal_steps, bind.
  pose proof (createCustomer_trace net env (businessId_of_env env)
                (prop (contractData_of req) (lit "clientName"))
                (prop (contractData_of req) (lit "clientEmail")) [] K) as Ht.
  fold (customer_step net env req) in Ht.
  destruct (customer_step net env req []) as [[cid|e] t1]; cbn [snd app] in Ht; subst t1.
  - unfold invoice_step.
    rewrite (createInvoice_unknown_key net env clock _ _ _ _ _ key _ Hstr Hkey).
    eexists. split; [reflexivity|]. split; [reflexivity|]. split; [reflexivity|].
    split; intros x Hx; cbn [fst] in Hx; [reflexivity | discriminate].
  - eexists. split; [reflexivity|]. split; [reflexivity|]. split; [reflexivity|].
    split; intros x Hx; cbn [fst] in Hx; [discriminate|].
    now injection Hx as <-.
Qed.

Lemma unknown_key_fails_after_customer_creation_platinum :
  exists resp : Response,
    handler (B := Run.builtins) Run.net_approval_fails Run.env_set Run.clock
      (Run.req_invoice (lit "platinum")) []
    = (Return resp,
       [WavePost (lit "Bearer key") CreateCustomer
          (customer_variables (VStr (lit "biz")) (VStr (lit "Ada"))
             (VStr (lit "ada@example.com")))]) /\
    prop (data resp) (lit "mode") = VStr (lit "fallback").
Proof.
  destruct (unknown_key_fails_after_customer_creation (B := Run.builtins)
              Run.net_approval_fails Run.env_set Run.clock
              (Run.req_invoice (lit "platinum")) (lit "platinum")
              eq_refl eq_refl eq_refl eq_refl eq_refl)
    as [resp [Hrun [_ [Hm _]]]].
  exists resp. split; [exact Hrun | exact Hm].
Defined.

(** Induction on values through the elements of arrays. *)
Lemma value_nested_ind (P : value -> Prop) :
  P VUndefined -> P VNull -> (forall b, P (VBool b)) -> (forall x, P (VNum x)) ->
  (forall s, P (VStr s)) ->
  (forall elems, Forall P elems -> P (VArr elems)) ->
  (forall props, P (VObj props)) ->
  forall v, P v.
Proof.
  intros HU HN HB HF HS HA HO.
  fix IH 1. intros [ | | b | x | s | elems | props].
  - exact HU.
  - exact HN.
  - apply HB.
  - apply HF.
  - apply HS.
  - apply HA. induction elems as [|e rest IHl]; constructor; [apply IH | exact IHl].
  - apply HO.
Qed.

Lemma join_outcome_throws (f : value -> outcome jstring) (Q : js_error -> Prop)
    (l : list value) :
  Forall (fun v => forall e, f v = Throw e -> Q e) l ->
  forall e, join_outcome f l = Throw e -> Q e.
Proof.
  induction 1 as [|v rest Hv _ IH]; intros e; simpl; [discriminate|].
  destruct (f v) as [piece|e'] eqn:Hf.
  - destruct rest as [|y rest']; [discriminate|].
    destruct (join_outcome f (y :: rest')) as [more|e''] eqn:Hr; [discriminate|].
    intros H. injection H as <-. apply IH. reflexivity.
  - intros H. injection H as <-. apply Hv. reflexivity.
Qed.

(** The only error a conversion to string throws. *)
Lemma ToString_throws {B : Builtins} (v : value) (e : js_error) :
  ToString v = Throw e -> e = cannot_convert.
Proof.
  revert e. induction v as [ | | b | x | s | elems IH | props] using value_nested_ind;
    intros e; simpl; try discriminate.
  - destruct b; discriminate.
  - revert e. apply (join_outcome_throws _ (fun e => e = cannot_convert)).
    eapply Forall_impl; [|exact IH].
    intros v Hv e'. destruct v; try discriminate; apply Hv.
  - destruct (has_own props (lit "toString")); [|discriminate].
    intros H. now injection H as <-.
Qed.

(** An application-level failure of a mutation of the invoice endpoint
    never carries the field-level errors. *)
Lemma failure_has_no_details {B : Builtins} (what : jstring) (res : value) :
  waveErrors (failure what res) = VUndefined.
Proof.
  unfold failure, Error_with.
  destruct (ToString _) as [s|e] eqn:H; [reflexivity|].
  now rewrite (ToString_throws _ _ H).
Qed.

(** Whatever field-level errors a rejected customer creation reports,
    the fallback response has [errorDetails: null]. *)
Lemma rejected_customer_has_null_details {B : Builtins} (net : Network) (env : Env)
    (clock : Clock) (req : Request) (t : list outbound) (d res : value) :
  is_POST req = true -> has_required_fields req = true -> configured env = true ->
  waveQuery net env CreateCustomer
    (customer_variables (businessId_of_env env)
       (prop (contractData_of req) (lit "clientName"))
       (prop (contractData_of req) (lit "clientEmail"))) [] = (Return d, t) ->
  get d (lit "customerCreate") = Return res ->
  did_fail res (lit "customer") = true ->
  exists resp : Response,
    handler net env clock req [] = (Return resp, t) /\
    data resp = fallback_response (failure (lit "Create customer") res) /\
    prop (data resp) (lit "errorDetails") = VNull.
Proof.
  intros P F C Hq Hres Hfail.
  rewrite (handler_workflow net env clock req [] P F C).
  unfold fatal_steps, customer_step, createCustomer, bind, lift, throw.
  rewrite Hq, Hres, Hfail.
  eexists. split; [reflexivity|]. split; [reflexivity|].
  cbn. now rewrite failure_has_no_details.
Qed.

(** C6: the code at the failing input.  Customer creation is rejected
    with two field-level errors; the fallback response carries the message
    of the first one and [errorDetails: null].  The same holds when it is
    invoice creation that is rejected.  On the same rejection the product
    mutation of the provisioning endpoint attaches the list. *)
Theorem input_errors_are_dropped_by_createCustomer :
  handler (B := Run.builtins) Run.net_rejecting Run.env_set Run.clock
    (Run.req_invoice (lit "core")) []
  = (Return {| statusCode := 200;
               data := VObj [ (lit "mode", VStr (lit "fallback"));
                              (lit "paymentUrl", VStr demo_url);
                              (lit "error",
                               VStr (lit "Create customer failed: Email is invalid"));
                              (lit "errorDetails", VNull) ] |},
     [WavePost (lit "Bearer key") CreateCustomer
        (customer_variables (VStr (lit "biz")) (VStr (lit "Ada"))
           (VStr (lit "ada@example.com")))]) /\
  fst (handler (B := Run.builtins) Run.net_invoice_rejected Run.env_set Run.clock
         (Run.req_invoice (lit "core")) [])
  = Return {| statusCode := 200;
              data := VObj [ (lit "mode", VStr (lit "fallback"));
                             (lit "paymentUrl", VStr demo_url);
                             (lit "error",
                              VStr (lit "Create invoice failed: Email is invalid"));
                             (lit "errorDetails", VNull) ] |} /\
  fst (CreateProducts.createProduct (B := Run.builtins) Run.net_rejecting Run.env_set
         (VStr (lit "biz")) (VStr (lit "Core System Package")) (VStr (lit "Core"))
         5000 (VStr (lit "income")) [])
  = Throw {| message := lit "Email is invalid"; waveErrors := Run.input_errors |}.
Proof. repeat split. Qed.

(** ** The listing endpoints and the discovery script *)

Section ListingFacts.

Context {B : Builtins} (net : Network) (env : Env).

Lemma map_outcome_length (f : value -> outcome value) (l ys : list value) :
  Listing.map_outcome f l = Return ys -> List.length ys = List.length l.
Proof.
  revert ys. induction l as [|x l IH]; intros ys; simpl.
  - intros H. injection H as <-. reflexivity.
  - destruct (f x) as [y|e]; [|discriminate].
    destruct (Listing.map_outcome f l) as [zs|e]; [|discriminate].
    intros H. injection H as <-. simpl. now rewrite (IH zs eq_refl).
Qed.

Lemma call_map_array (what : jstring) (v : value) (f : value -> outcome value)
    (ys : list value) :
  Listing.call_map what v f = Return ys ->
  exists l, v = VArr l /\ Listing.map_outcome f l = Return ys.
Proof.
  destruct v; simpl; try discriminate. intros H. eauto.
Qed.

Lemma error_response_error (e : js_error) :
  prop (Listing.error_response e) (lit "error")
    = js_or (VStr (message e)) (VStr (lit "Unknown error")).
Proof. reflexivity. Qed.

Lemma error_response_truthy (e : js_error) :
  truthy (prop (Listing.error_response e) (lit "error")) = true.
Proof.
  rewrite error_response_error. unfold js_or.
  destruct (truthy (VStr (message e))) eqn:E; [exact E | reflexivity].
Qed.

Lemma error_response_defined (e : js_error) :
  prop (Listing.error_response e) (lit "error") = VUndefined -> False.
Proof.
  intros H. pose proof (error_response_truthy e) as T. rewrite H in T. discriminate.
Qed.

(** The shapes of the answer of list-accounts. *)
Lemma list_accounts_cases (req : Request) :
  exists (resp : Response) (t : list outbound),
    ListAccounts.handler net env req [] = (Return resp, t) /\
    statusCode resp = 200%Z /\
    ((truthy (getenv (WAVE_BUSINESS_ID env)) = false /\ t = [] /\
      data resp = Listing.Missing_WAVE_BUSINESS_ID) \/
     (truthy (getenv (WAVE_BUSINESS_ID env)) = true /\
      exists e, data resp = Listing.error_response e /\
        (forall e', fst (ListAccounts.accounts_query net env []) = Throw e' -> e' = e)) \/
     (truthy (getenv (WAVE_BUSINESS_ID env)) = true /\
      (exists d, fst (ListAccounts.accounts_query net env []) = Return d) /\
      exists id nm edges nodes,
        Listing.map_outcome Listing.node_of edges = Return nodes /\
        data resp =
          VObj [ (lit "business", VObj [ (lit "id", id); (lit "name", nm) ]);
                 (lit "count", VNum (float_of_nat (List.length edges)));
                 (lit "accounts", VArr nodes) ])).
Proof.
  unfold ListAccounts.handler, ListAccounts.accounts_query, try_catch.
  rewrite truthy_or_empty.
  destruct (truthy (getenv (WAVE_BUSINESS_ID env))) eqn:Hb; cbn [negb].
  2:{ eexists; eexists. split; [reflexivity|]. split; [reflexivity|]. left. auto. }
  unfold bind, lift, json, ret.
  destruct (Listing.waveQuery net env Accounts _ []) as [[d|e] t].
  2:{ eexists; eexists. split; [reflexivity|]. split; [reflexivity|].
      right; left. split; [reflexivity|]. exists e. split; [reflexivity|].
      cbn [fst]. intros e' H. now injection H. }
  assert (Hq : forall P : js_error -> Prop,
             (forall e', fst (@Return value d, t) = Throw e' -> P e'))
    by (intros P e' H; discriminate H).
  destruct (get d (lit "business")) as [business|e].
  2:{ eexists; eexists. split; [reflexivity|]. split; [reflexivity|].
      right; left. split; [reflexivity|]. exists e. split; [reflexivity|]. apply Hq. }
  destruct (get business (lit "id")) as [id|e].
  2:{ eexists; eexists. split; [reflexivity|]. split; [reflexivity|].
      right; left. split; [reflexivity|]. exists e. split; [reflexivity|]. apply Hq. }
  destruct (get business (lit "name")) as [nm|e].
  2:{ eexists; eexists. split; [reflexivity|]. split; [reflexivity|].
      right; left. split; [reflexivity|]. exists e. split; [reflexivity|]. apply Hq. }
  destruct (Listing.call_map _ _ _) as [nodes|e] eqn:Hmap.
  2:{ eexists; eexists. split; [reflexivity|]. split; [reflexivity|].
      right; left. split; [reflexivity|]. exists e. split; [reflexivity|]. apply Hq. }
  apply call_map_array in Hmap as [edges [He Hmap]].
  eexists; eexists. split; [reflexivity|]. split; [reflexivity|].
  right; right. split; [reflexivity|]. split; [eexists; reflexivity|].
  exists id, nm, edges, nodes. split; [exact Hmap|].
  rewrite He. reflexivity.
Qed.

End ListingFacts.

Section ProductsFacts.

Context {B : Builtins} (net : Network) (env : Env).

Lemma name_matches_spec (q : jstring) (p : value) (keep : bool) :
  ListProducts.name_matches q p = Return keep ->
  keep = includes (String_toLowerCase (ListProducts.name_string p)) q.
Proof.
  unfold ListProducts.name_matches, ListProducts.name_string.
  destruct (get p (lit "name")) as [nm|e] eqn:G; [|discriminate].
  assert (nm = prop p (lit "name")) as ->
    by (destruct p; simpl in G; try discriminate; now injection G as <-).
  destruct (js_or (prop p (lit "name")) (VStr [])); try discriminate.
  intros H. now injection H as <-.
Qed.

Lemma filter_outcome_filter (q : jstring) (all ys : list value) :
  ListProducts.filter_outcome (ListProducts.name_matches q) all = Return ys ->
  ys = List.filter
         (fun p => includes (String_toLowerCase (ListProducts.name_string p)) q) all.
Proof.
  revert ys. induction all as [|p all IH]; intros ys; simpl.
  - intros H. now injection H as <-.
  - destruct (ListProducts.name_matches q p) as [keep|e] eqn:M; [|discriminate].
    apply name_matches_spec in M. rewrite <- M.
    destruct (ListProducts.filter_outcome _ all) as [zs|e]; [|discriminate].
    intros H. injection H as <-. now rewrite (IH zs eq_refl).
Qed.

Lemma query_q_string (req : Request) (q : jstring) :
  prop (query req) (lit "q") = VStr q -> q <> [] ->
  ListProducts.query_q req = Return (String_toLowerCase q).
Proof.
  intros Hq Hne. unfold ListProducts.query_q, js_and. rewrite Hq.
  destruct (query req); simpl in Hq; try discriminate.
  cbn [truthy]. destruct q; [contradiction | reflexivity].
Qed.

(** The shapes of the answer of list-products. *)
Lemma list_products_cases (req : Request) :
  exists (resp : Response) (t : list outbound),
    ListProducts.handler net env req [] = (Return resp, t) /\
    statusCode resp = 200%Z /\
    ((truthy (getenv (WAVE_BUSINESS_ID env)) = false /\ t = [] /\
      data resp = Listing.Missing_WAVE_BUSINESS_ID) \/
     (truthy (getenv (WAVE_BUSINESS_ID env)) = true /\
      exists e, data resp = Listing.error_response e /\
        (forall e', fst (ListProducts.fetched net env []) = Throw e' -> e' = e)) \/
     (truthy (getenv (WAVE_BUSINESS_ID env)) = true /\
      exists business all id nm q,
        fst (ListProducts.fetched net env []) = Return (business, all) /\
        ListProducts.query_q req = Return q /\
        let filtered :=
          if truthy (VStr q)
          then List.filter
                 (fun p => includes
                             (String_toLowerCase (ListProducts.name_string p)) q) all
          else all in
        data resp =
          VObj [ (lit "business", VObj [ (lit "id", id); (lit "name", nm) ]);
                 (lit "count", VNum (float_of_nat (List.length filtered)));
                 (lit "products", VArr filtered) ])).
Proof.
  unfold ListProducts.handler, ListProducts.fetched, try_catch.
  rewrite truthy_or_empty.
  destruct (truthy (getenv (WAVE_BUSINESS_ID env))) eqn:Hb; cbn [negb].
  2:{ eexists; eexists. split; [reflexivity|]. split; [reflexivity|]. left. auto. }
  unfold bind, lift, json, ret.
  destruct (Listing.waveQuery net env Products _ []) as [[d|e] t].
  2:{ eexists; eexists. split; [reflexivity|]. split; [reflexivity|].
      right; left. split; [reflexivity|]. exists e. split; [reflexivity|].
      cbn [fst]. intros e' H. now injection H. }
  destruct (get d (lit "business")) as [business|e].
  2:{ eexists; eexists. split; [reflexivity|]. split; [reflexivity|].
      right; left. split; [reflexivity|]. exists e. split; [reflexivity|].
      cbn [fst]. intros e' H. now injection H. }
  destruct (Listing.call_map _ _ _) as [all|e].
  2:{ eexists; eexists. split; [reflexivity|]. split; [reflexivity|].
      right; left. split; [reflexivity|]. exists e. split; [reflexivity|].
      cbn [fst]. intros e' H. now injection H. }
  assert (Hq : forall P : js_error -> Prop,
             (forall e', fst (@Return (value * list value) (business, all), t)
                           = Throw e' -> P e'))
    by (intros P e' H; discriminate H).
  destruct (ListProducts.query_q req) as [q|e].
  2:{ eexists; eexists. split; [reflexivity|]. split; [reflexivity|].
      right; left. split; [reflexivity|]. exists e. split; [reflexivity|]. apply Hq. }
  destruct (truthy (VStr q)) eqn:Tq.
  - destruct (ListProducts.filter_outcome _ all) as [filtered|e] eqn:Hf.
    2:{ eexists; eexists. split; [reflexivity|]. split; [reflexivity|].
        right; left. split; [reflexivity|]. exists e. split; [reflexivity|]. apply Hq. }
    apply filter_outcome_filter in Hf. subst filtered.
    destruct (get business (lit "id")) as [id|e].
    2:{ eexists; eexists. split; [reflexivity|]. split; [reflexivity|].
        right; left. split; [reflexivity|]. exists e. split; [reflexivity|]. apply Hq. }
    destruct (get business (lit "name")) as [nm|e].
    2:{ eexists; eexists. split; [reflexivity|]. split; [reflexivity|].
        right; left. split; [reflexivity|]. exists e. split; [reflexivity|]. apply Hq. }
    eexists; eexists. split; [reflexivity|]. split; [reflexivity|].
    right; right. split; [reflexivity|].
    exists business, all, id, nm, q. split; [reflexivity|]. split; [reflexivity|].
    cbv zeta. rewrite Tq. reflexivity.
  - destruct (get business (lit "id")) as [id|e].
    2:{ eexists; eexists. split; [reflexivity|]. split; [reflexivity|].
        right; left. split; [reflexivity|]. exists e. split; [reflexivity|]. apply Hq. }
    destruct (get business (lit "name")) as [nm|e].
    2:{ eexists; eexists. split; [reflexivity|]. split; [reflexivity|].
        right; left. split; [reflexivity|]. exists e. split; [reflexivity|]. apply Hq. }
    eexists; eexists. split; [reflexivity|]. split; [reflexivity|].
    right; right. split; [reflexivity|].
    exists business, all, id, nm, q. split; [reflexivity|]. split; [reflexivity|].
    cbv zeta. rewrite Tq. reflexivity.
Qed.

(** The answer of the discovery script. *)
Lemma get_businesses_cases (req : Request) :
  GetBusinesses.handler net env req [] =
    match GetBusinesses.getBusinesses net env [] with
    | (Return l, t) =>
        (Return {| statusCode := 200;
                   data := VObj [ (lit "businesses", VArr l) ] |}, t)
    | (Throw e, t) =>
        (Return {| statusCode := 500;
                   data := VObj [ (lit "error", VStr (message e)) ] |}, t)
    end.
Proof.
  unfold GetBusinesses.handler, try_catch, bind, json, ret.
  destruct (GetBusinesses.getBusinesses net env []) as [[l|e] t]; reflexivity.
Qed.

End ProductsFacts.

Section ListingAnswers.

Context {B : Builtins} (net : Network) (env : Env).

Lemma listing_waveQuery_unconfigured (q : operation) (v : value)
    (t : list outbound) :
  truthy (getenv (WAVE_API_KEY env)) = false ->
  Listing.waveQuery net env q v t = (Throw (Error (lit "Missing WAVE_API_KEY")), t).
Proof.
  intros H. unfold Listing.waveQuery. now rewrite H.
Qed.

(** The answer of list-accounts, step by step after the query. *)
Lemma list_accounts_eq (req : Request) :
  truthy (getenv (WAVE_BUSINESS_ID env)) = true ->
  ListAccounts.handler net env req [] =
    match ListAccounts.accounts_query net env [] with
    | (Throw e, t) =>
        (Return {| statusCode := 200; data := Listing.error_response e |}, t)
    | (Return d, t) =>
        (Return
           {| statusCode := 200;
              data :=
                match get d (lit "business") with
                | Throw e => Listing.error_response e
                | Return b =>
                    match get b (lit "id") with
                    | Throw e => Listing.error_response e
                    | Return id =>
                        match get b (lit "name") with
                        | Throw e => Listing.error_response e
                        | Return nm =>
                            match Listing.call_map (lit "accounts")
                                    (Listing.edges_of b (lit "accounts"))
                                    Listing.node_of with
                            | Throw e => Listing.error_response e
                            | Return nodes =>
                                VObj [ (lit "business",
                                        VObj [ (lit "id", id); (lit "name", nm) ]);
                                       (lit "count",
                                        Listing.length_of
                                          (Listing.edges_of b (lit "accounts")));
                                       (lit "accounts", VArr nodes) ]
                            end
                        end
                    end
                end |}, t)
    end.
Proof.
  intros Hb.
  unfold ListAccounts.handler, ListAccounts.accounts_query, try_catch.
  rewrite truthy_or_empty, Hb. cbn [negb].
  unfold bind, lift, json, ret.
  destruct (Listing.waveQuery net env Accounts _ []) as [[d|e] t]; [|reflexivity].
  destruct (get d (lit "business")) as [b|e]; [|reflexivity].
  destruct (get b (lit "id")) as [id|e]; [|reflexivity].
  destruct (get b (lit "name")) as [nm|e]; [|reflexivity].
  destruct (Listing.call_map _ _ _) as [nodes|e]; reflexivity.
Qed.

(** The answer of list-products, step by step after the products are
    fetched. *)
Lemma list_products_eq (req : Request) :
  truthy (getenv (WAVE_BUSINESS_ID env)) = true ->
  ListProducts.handler net env req [] =
    match ListProducts.fetched net env [] with
    | (Throw e, t) =>
        (Return {| statusCode := 200; data := Listing.error_response e |}, t)
    | (Return (b, all), t) =>
        (Return
           {| statusCode := 200;
              data :=
                match ListProducts.query_q req with
                | Throw e => Listing.error_response e
                | Return q =>
                    match (if truthy (VStr q)
                           then ListProducts.filter_outcome
                                  (ListProducts.name_matches q) all
                           else Return all) with
                    | Throw e => Listing.error_response e
                    | Return filtered =>
                        match get b (lit "id") with
                        | Throw e => Listing.error_response e
                        | Return id =>
                            match get b (lit "name") with
                            | Throw e => Listing.error_response e
                            | Return nm =>
                                VObj [ (lit "business",
                                        VObj [ (lit "id", id); (lit "name", nm) ]);
                                       (lit "count",
                                        Listing.length_of (VArr filtered));
                                       (lit "products", VArr filtered) ]
                            end
                        end
                    end
                end |}, t)
    end.
Proof.
  intros Hb.
  unfold ListProducts.handler, ListProducts.fetched, try_catch.
  rewrite truthy_or_empty, Hb. cbn [negb].
  unfold bind, lift, json, ret.
  destruct (Listing.waveQuery net env Products _ []) as [[d|e] t]; [|reflexivity].
  destruct (get d (lit "business")) as [b|e]; [|reflexivity].
  destruct (Listing.call_map _ _ _) as [all|e]; [|reflexivity].
  destruct (ListProducts.query_q req) as [q|e]; [|reflexivity].
  destruct (if truthy (VStr q) then _ else _) as [filtered|e]; [|reflexivity].
  destruct (get b (lit "id")) as [id|e]; [|reflexivity].
  destruct (get b (lit "name")) as [nm|e]; reflexivity.
Qed.

Lemma missing_business_id_truthy :
  truthy (prop Listing.Missing_WAVE_BUSINESS_ID (lit "error")) = true.
Proof. reflexivity. Qed.

End ListingAnswers.

(** C7, as stated, fails: the discovery script answers a failure, here
    a missing API key, with status 500. *)
Lemma discovery_failure_is_a_500 :
  GetBusinesses.handler (B := Run.builtins) (Run.wave (fun _ => Run.ok_json VNull))
    Run.env_unset (Run.req_get VUndefined) []
  = (Return {| statusCode := 500;
               data := VObj [ (lit "error", VStr (lit "Missing WAVE_API_KEY")) ] |},
     []).
Proof. reflexivity. Qed.

(** C7, amended.  The two listing handlers always answer with status
    200, and every failure is answered with a non-empty [error] field:
    a missing business identifier, a missing API key, any error thrown
    by the query, and any error thrown while the payload is read: a
    payload that is [null], a business that is [null], edges that are
    not a list or hold [null], a search text that cannot be converted, a
    product whose name cannot be matched.  Only a payload read to the
    end is answered with the listing.  The discovery script answers 200
    with the list when it could be fetched, and 500 with an [error]
    field carrying the message when fetching threw. *)
Theorem listing_failures_are_reported {B : Builtins} (net : Network) (env : Env)
    (req : Request) :
  (exists (resp : Response) (t : list outbound),
     ListAccounts.handler net env req [] = (Return resp, t) /\
     statusCode resp = 200%Z /\
     (truthy (getenv (WAVE_BUSINESS_ID env)) = false ->
        data resp = Listing.Missing_WAVE_BUSINESS_ID) /\
     (truthy (getenv (WAVE_BUSINESS_ID env)) = true ->
        forall e, fst (ListAccounts.accounts_query net env []) = Throw e ->
          data resp = Listing.error_response e) /\
     (truthy (getenv (WAVE_BUSINESS_ID env)) = true ->
      truthy (getenv (WAVE_API_KEY env)) = false ->
        data resp = Listing.error_response (Error (lit "Missing WAVE_API_KEY"))) /\
     (truthy (getenv (WAVE_BUSINESS_ID env)) = true ->
        forall d, fst (ListAccounts.accounts_query net env []) = Return d ->
          (forall e, get d (lit "business") = Throw e ->
             data resp = Listing.error_response e) /\
          (forall b e, get d (lit "business") = Return b ->
             get b (lit "id") = Throw e ->
             data resp = Listing.error_response e) /\
          (forall b e, get d (lit "business") = Return b -> nullish b = false ->
             Listing.call_map (lit "accounts") (Listing.edges_of b (lit "accounts"))
               Listing.node_of = Throw e ->
             data resp = Listing.error_response e) /\
          (forall b nodes, get d (lit "business") = Return b -> nullish b = false ->
             Listing.call_map (lit "accounts") (Listing.edges_of b (lit "accounts"))
               Listing.node_of = Return nodes ->
             data resp =
               VObj [ (lit "business",
                       VObj [ (lit "id", prop b (lit "id"));
                              (lit "name", prop b (lit "name")) ]);
                      (lit "count",
                       Listing.length_of (Listing.edges_of b (lit "accounts")));
                      (lit "accounts", VArr nodes) ])) /\
     (truthy (prop (data resp) (lit "error")) = true \/
      exists items, prop (data resp) (lit "accounts") = VArr items)) /\
  (exists (resp : Response) (t : list outbound),
     ListProducts.handler net env req [] = (Return resp, t) /\
     statusCode resp = 200%Z /\
     (truthy (getenv (WAVE_BUSINESS_ID env)) = false ->
        data resp = Listing.Missing_WAVE_BUSINESS_ID) /\
     (truthy (getenv (WAVE_BUSINESS_ID env)) = true ->
        forall e, fst (ListProducts.fetched net env []) = Throw e ->
          data resp = Listing.error_response e) /\
     (truthy (getenv (WAVE_BUSINESS_ID env)) = true ->
      truthy (getenv (WAVE_API_KEY env)) = false ->
        data resp = Listing.error_response (Error (lit "Missing WAVE_API_KEY"))) /\
     (truthy (getenv (WAVE_BUSINESS_ID env)) = true ->
        forall b all, fst (ListProducts.fetched net env []) = Return (b, all) ->
          (forall e, ListProducts.query_q req = Throw e ->
             data resp = Listing.error_response e) /\
          (forall q e, ListProducts.query_q req = Return q ->
             truthy (VStr q) = true ->
             ListProducts.filter_outcome (ListProducts.name_matches q) all = Throw e ->
             data resp = Listing.error_response e) /\
          (forall q filtered e, ListProducts.query_q req = Return q ->
             (if truthy (VStr q)
              then ListProducts.filter_outcome (ListProducts.name_matches q) all
              else Return all) = Return filtered ->
             get b (lit "id") = Throw e ->
             data resp = Listing.error_response e) /\
          (forall q filtered, ListProducts.query_q req = Return q ->
             (if truthy (VStr q)
              then ListProducts.filter_outcome (ListProducts.name_matches q) all
              else Return all) = Return filtered ->
             nullish b = false ->
             data resp =
               VObj [ (lit "business",
                       VObj [ (lit "id", prop b (lit "id"));
                              (lit "name", prop b (lit "name")) ]);
                      (lit "count", Listing.length_of (VArr filtered));
                      (lit "products", VArr filtered) ])) /\
     (truthy (prop (data resp) (lit "error")) = true \/
      exists items, prop (data resp) (lit "products") = VArr items)) /\
  (exists (resp : Response) (t : list outbound),
     GetBusinesses.handler net env req [] = (Return resp, t) /\
     (forall l, fst (GetBusinesses.getBusinesses net env []) = Return l ->
        statusCode resp = 200%Z /\
        data resp = VObj [ (lit "businesses", VArr l) ]) /\
     (forall e, fst (GetBusinesses.getBusinesses net env []) = Throw e ->
        statusCode resp = 500%Z /\
        data resp = VObj [ (lit "error", VStr (message e)) ])) /\
  truthy (prop Listing.Missing_WAVE_BUSINESS_ID (lit "error")) = true /\
  (forall e, truthy (prop (Listing.error_response e) (lit "error")) = true /\
             prop (Listing.error_response e) (lit "accounts") = VUndefined /\
             prop (Listing.error_response e) (lit "products") = VUndefined).
Proof.
  split; [|split; [|split; [|split]]].
  - destruct (truthy (getenv (WAVE_BUSINESS_ID env))) eqn:Hb.
    2:{ destruct (list_accounts_cases net env req)
          as [resp [t [Hrun [Hs [[_ [_ Hd]] | [[Hb' _] | [Hb' _]]]]]]];
          try (rewrite Hb in Hb'; discriminate Hb').
        exists resp, t. split; [exact Hrun|]. split; [exact Hs|].
        split; [intros _; exact Hd|].
        split; [discriminate|]. split; [discriminate|]. split; [discriminate|].
        left. rewrite Hd. reflexivity. }
    rewrite (list_accounts_eq net env req Hb).
    pose proof (fun v => listing_waveQuery_unconfigured net env Accounts v []) as Hk.
    unfold ListAccounts.accounts_query in *.
    destruct (Listing.waveQuery net env Accounts _ []) as [[d|e] t] eqn:Hq.
    + eexists; eexists. split; [reflexivity|]. split; [reflexivity|].
      split; [discriminate|]. cbn [fst data].
      split; [intros _ e H; discriminate H|].
      split; [intros _ K; rewrite (Hk _ K) in Hq; discriminate Hq|].
      split.
      * intros _ d' Hd'. injection Hd' as <-.
        split; [|split; [|split]].
        -- intros e He. now rewrite He.
        -- intros b e Hbus He. now rewrite Hbus, He.
        -- intros b e Hbus Hn He.
           now rewrite Hbus, !(get_not_nullish _ _ Hn), He.
        -- intros b nodes Hbus Hn He.
           now rewrite Hbus, !(get_not_nullish _ _ Hn), He.
      * destruct (get d (lit "business")) as [b|e];
          [|left; apply error_response_truthy].
        destruct (get b (lit "id")) as [id|e]; [|left; apply error_response_truthy].
        destruct (get b (lit "name")) as [nm|e]; [|left; apply error_response_truthy].
        destruct (Listing.call_map _ _ _) as [nodes|e];
          [|left; apply error_response_truthy].
        right. eexists. reflexivity.
    + eexists; eexists. split; [reflexivity|]. split; [reflexivity|].
      split; [discriminate|]. cbn [fst data].
      split; [intros _ e' H; now injection H as <-|].
      split; [intros _ K; rewrite (Hk _ K) in Hq; now injection Hq as <- <-|].
      split; [intros _ d H; discriminate H|].
      left. apply error_response_truthy.
  - destruct (truthy (getenv (WAVE_BUSINESS_ID env))) eqn:Hb.
    2:{ destruct (list_products_cases net env req)
          as [resp [t [Hrun [Hs [[_ [_ Hd]] | [[Hb' _] | [Hb' _]]]]]]];
          try (rewrite Hb in Hb'; discriminate Hb').
        exists resp, t. split; [exact Hrun|]. split; [exact Hs|].
        split; [intros _; exact Hd|].
        split; [discriminate|]. split; [discriminate|]. split; [discriminate|].
        left. rewrite Hd. reflexivity. }
    rewrite (list_products_eq net env req Hb).
    assert (Hk : truthy (getenv (WAVE_API_KEY env)) = false ->
                 ListProducts.fetched net env []
                 = (Throw (Error (lit "Missing WAVE_API_KEY")), [])).
    { intros K. unfold ListProducts.fetched. unfold bind at 1.
      now rewrite (listing_waveQuery_unconfigured net env Products _ [] K). }
    destruct (ListProducts.fetched net env []) as [[[b all]|e] t] eqn:Hq.
    + eexists; eexists. split; [reflexivity|]. split; [reflexivity|].
      split; [discriminate|]. cbn [fst data].
      split; [intros _ e H; discriminate H|].
      split; [intros _ K; discriminate (Hk K)|].
      split.
      * intros _ b' all' H. injection H as <- <-.
        split; [|split; [|split]].
        -- intros e He. now rewrite He.
        -- intros q e Hq' Tq He. now rewrite Hq', Tq, He.
        -- intros q filtered e Hq' Hf He. now rewrite Hq', Hf, He.
        -- intros q filtered Hq' Hf Hn.
           now rewrite Hq', Hf, !(get_not_nullish _ _ Hn).
      * destruct (ListProducts.query_q req) as [q|e];
          [|left; apply error_response_truthy].
        destruct (if truthy (VStr q) then _ else _) as [filtered|e];
          [|left; apply error_response_truthy].
        destruct (get b (lit "id")) as [id|e]; [|left; apply error_response_truthy].
        destruct (get b (lit "name")) as [nm|e]; [|left; apply error_response_truthy].
        right. eexists. reflexivity.
    + eexists; eexists. split; [reflexivity|]. split; [reflexivity|].
      split; [discriminate|]. cbn [fst data].
      split; [intros _ e' H; now injection H as <-|].
      split; [intros _ K; pose proof (Hk K) as H; now injection H as -> ->|].
      split; [intros _ b all H; discriminate H|].
      left. apply error_response_truthy.
  - rewrite get_businesses_cases.
    destruct (GetBusinesses.getBusinesses net env []) as [[l|e] t];
      eexists; eexists; (split; [reflexivity|]); cbn [fst];
      split; intros x Hx; try discriminate; injection Hx as <-; now split.
  - reflexivity.
  - intros e. split; [apply error_response_truthy|]. split; reflexivity.
Qed.

(** C9.  A successful answer of either listing endpoint carries a
    [count] equal to the length of the list it returns.  When the
    products listing is given a non-empty string [q], the list returned is
    the list of the products the service returned, in their order, with
    exactly those kept whose name contains [q], letter case ignored. *)
Theorem listing_count_and_filter {B : Builtins} (net : Network) (env : Env)
    (req : Request) (ra rp : Response) (ta tp : list outbound) :
  ListAccounts.handler net env req [] = (Return ra, ta) ->
  ListProducts.handler net env req [] = (Return rp, tp) ->
  (prop (data ra) (lit "error") = VUndefined ->
     exists items,
       prop (data ra) (lit "accounts") = VArr items /\
       prop (data ra) (lit "count") = VNum (float_of_nat (List.length items))) /\
  (prop (data rp) (lit "error") = VUndefined ->
     exists business all items,
       fst (ListProducts.fetched net env []) = Return (business, all) /\
       prop (data rp) (lit "products") = VArr items /\
       prop (data rp) (lit "count") = VNum (float_of_nat (List.length items)) /\
       (forall q, prop (query req) (lit "q") = VStr q -> q <> [] ->
          String_toLowerCase q <> [] ->
          items = List.filter (ListProducts.contains_ci q) all /\
          (forall p, In p items <->
                     In p all /\ ListProducts.contains_ci q p = true))).
Proof.
  intros Ha Hp. split.
  - destruct (list_accounts_cases net env req)
      as [resp [t [Hrun [_ [[_ [_ Hd]] | [[_ [e [Hd _]]] | [_ [_ Hok]]]]]]]];
      rewrite Ha in Hrun; injection Hrun as <- <-; intros Herr.
    + rewrite Hd in Herr. discriminate Herr.
    + rewrite Hd in Herr. destruct (error_response_defined e Herr).
    + destruct Hok as [id [nm [edges [nodes [Hmap Hd]]]]].
      exists nodes. rewrite Hd. split; [reflexivity|].
      rewrite (map_outcome_length _ _ _ Hmap). reflexivity.
  - destruct (list_products_cases net env req)
      as [resp [t [Hrun [_ [[_ [_ Hd]] | [[_ [e [Hd _]]] | [_ Hok]]]]]]];
      rewrite Hp in Hrun; injection Hrun as <- <-; intros Herr.
    + rewrite Hd in Herr. discriminate Herr.
    + rewrite Hd in Herr. destruct (error_response_defined e Herr).
    + destruct Hok as [business [all [id [nm [q0 [Hf [Hq0 Hd]]]]]]].
      cbv zeta in Hd. exists business, all. eexists.
      split; [exact Hf|]. rewrite Hd.
      split; [reflexivity|]. split; [reflexivity|].
      intros q Hq Hne Hlow.
      rewrite (query_q_string req q Hq Hne) in Hq0. injection Hq0 as <-.
      assert (truthy (VStr (String_toLowerCase q)) = true) as ->
        by (destruct (String_toLowerCase q); [contradiction | reflexivity]).
      split; [reflexivity|].
      intros p. apply filter_In.
Qed.

Lemma listing_count_and_filter_sample :
  exists items,
    prop (data (match fst (ListProducts.handler (B := Run.builtins) Run.net_listing
                             Run.env_set
                             (Run.req_get (VObj [ (lit "q", VStr (lit "ECO")) ])) [])
                with
                | Return r => r
                | Throw _ => {| statusCode := 0; data := VNull |}
                end)) (lit "products") = VArr items /\
    items = [ VObj [ (lit "id", VStr (lit "p3"));
                     (lit "name", VStr (lit "Full Ecosystem PACKAGE")) ] ].
Proof.
  edestruct (listing_count_and_filter (B := Run.builtins) Run.net_listing Run.env_set
               (Run.req_get (VObj [ (lit "q", VStr (lit "ECO")) ])))
    as [_ Hp]; [cbv; reflexivity | cbv; reflexivity | ].
  destruct (Hp eq_refl) as [business [all [items [Hf [Hitems [_ Hq]]]]]].
  exists items. split; [exact Hitems|].
  destruct (Hq (lit "ECO") eq_refl) as [Heq _]; [discriminate | discriminate |].
  rewrite Heq. cbv in Hf. injection Hf as _ <-. reflexivity.
Defined.

(** ** The upload endpoint *)

Section UploadFacts.

Context {B : Builtins} (net : Network) (env : Env).

Lemma sanitize_length (f : jstring) :
  List.length (UploadContract.sanitize f) = List.length f.
Proof. apply length_map. Qed.

Lemma sanitize_nth (f : jstring) (i : nat) (c : N) :
  nth_error f i = Some c ->
  nth_error (UploadContract.sanitize f) i
    = Some (if UploadContract.allowed c then c else 95%N).
Proof.
  intros H. unfold UploadContract.sanitize. rewrite nth_error_map, H. reflexivity.
Qed.

Lemma allowed_underscore : UploadContract.allowed 95 = true.
Proof. reflexivity. Qed.

Lemma sanitize_allowed (f : jstring) :
  Forall (fun c => UploadContract.allowed c = true) (UploadContract.sanitize f).
Proof.
  induction f as [|c f IH]; simpl; constructor; [|exact IH].
  destruct (UploadContract.allowed c) eqn:E; [exact E | exact allowed_underscore].
Qed.

Lemma putFileToGitHub_trace (path : jstring) (content : value) (msg : jstring)
    (t : list outbound) :
  UploadContract.configured env = true ->
  exists body,
    snd (UploadContract.putFileToGitHub net env path content msg t)
      = t ++ [GitHubPut (env_text (GITHUB_REPO env)) path
                (lit "token " ++ env_text (GITHUB_TOKEN env)) body].
Proof.
  unfold UploadContract.configured, UploadContract.putFileToGitHub.
  intros C. apply andb_true_iff in C as [Ht Hr]. rewrite Ht, Hr. cbn [negb orb].
  rewrite (ToString_getenv _ Ht), (ToString_getenv _ Hr).
  assert (exists s, ToString (js_or (getenv (GITHUB_BRANCH env)) (VStr (lit "main")))
                    = Return s) as [branch ->]
    by (destruct (GITHUB_BRANCH env) as [[|c s]|]; eexists; reflexivity).
  eexists. unfold bind, fetch, lift, throw, ret.
  destruct (net t _) as [resp|e]; [|reflexivity].
  destruct (resp_json resp) as [d|e]; [|reflexivity].
  destruct (negb (ok resp)); [reflexivity|].
  destruct (get d (lit "content")); reflexivity.
Qed.

Lemma upload_trace (req : Request) (f contract : jstring) :
  str_eqb (method req) (lit "POST") = true ->
  UploadContract.filename_of req = VStr f ->
  truthy (VStr f) = true ->
  truthy (UploadContract.content_of req) = true ->
  ToString (UploadContract.contract_of req) = Return contract ->
  UploadContract.configured env = true ->
  exists body,
    snd (UploadContract.handler net env req [])
      = [GitHubPut (env_text (GITHUB_REPO env))
           (lit "contracts/" ++ UploadContract.sanitize f)
           (lit "token " ++ env_text (GITHUB_TOKEN env)) body].
Proof.
  unfold UploadContract.filename_of, UploadContract.content_of,
    UploadContract.contract_of.
  intros P Hf Tf Hc Hid C.
  unfold UploadContract.handler, try_catch. rewrite P. cbn [negb].
  rewrite Hf, Tf, Hc, Hid. cbn [negb orb UploadContract.replace_unsafe].
  unfold bind at 1. unfold lift at 1.
  unfold bind at 1. unfold lift at 1.
  unfold bind at 1.
  destruct (putFileToGitHub_trace (lit "contracts/" ++ UploadContract.sanitize f)
              (prop (js_or (body req) (VObj [])) (lit "content"))
              (trim (lit "chore(contracts): add signed contract " ++ contract))
              [] C) as [b Hb].
  exists b.
  destruct (UploadContract.putFileToGitHub net env _ _ _ []) as [[r|e] t];
    cbn [snd app] in Hb; subst t; reflexivity.
Qed.

End UploadFacts.

(** C8.  For every string given as filename to a POST that carries a
    content, with the repository and the token configured, the one request
    sent to the storage service has the path [contracts/] followed by the
    sanitized filename.  Sanitizing keeps the length, keeps each allowed
    code unit (ASCII letter, digit, dot, underscore, hyphen) and replaces
    each other one by an underscore; ["My Contract (1).pdf"] becomes
    ["My_Contract__1_.pdf"].  (The commit message is built before the
    request: the contract identifier, when given, must convert to a
    string.) *)
Theorem upload_path_is_sanitized {B : Builtins} (net : Network) (env : Env)
    (req : Request) (f : jstring) :
  str_eqb (method req) (lit "POST") = true ->
  UploadContract.filename_of req = VStr f ->
  truthy (VStr f) = true ->
  truthy (UploadContract.content_of req) = true ->
  (exists contract, ToString (UploadContract.contract_of req) = Return contract) ->
  UploadContract.configured env = true ->
  (exists repo authorization body,
     snd (UploadContract.handler net env req [])
       = [GitHubPut repo (lit "contracts/" ++ UploadContract.sanitize f)
            authorization body]) /\
  List.length (UploadContract.sanitize f) = List.length f /\
  (forall i c, nth_error f i = Some c ->
     nth_error (UploadContract.sanitize f) i
       = Some (if UploadContract.allowed c then c else 95%N)) /\
  Forall (fun c => UploadContract.allowed c = true) (UploadContract.sanitize f) /\
  UploadContract.sanitize (lit "My Contract (1).pdf") = lit "My_Contract__1_.pdf".
Proof.
  intros P Hf Tf Hc [contract Hid] C.
  split.
  { destruct (upload_trace net env req f contract P Hf Tf Hc Hid C) as [b Hb]. eauto. }
  split; [apply sanitize_length|].
  split; [intros i c; apply sanitize_nth|].
  split; [apply sanitize_allowed | reflexivity].
Qed.

Lemma upload_path_is_sanitized_sample :
  exists repo authorization body,
    snd (UploadContract.handler (B := Run.builtins) Run.net_github Run.env_set
           (Run.req_upload "My Contract (1).pdf") [])
      = [GitHubPut repo (lit "contracts/My_Contract__1_.pdf") authorization body].
Proof.
  destruct (upload_path_is_sanitized (B := Run.builtins) Run.net_github Run.env_set
              (Run.req_upload "My Contract (1).pdf") (lit "My Contract (1).pdf")
              eq_refl eq_refl eq_refl eq_refl (ex_intro _ [] eq_refl) eq_refl)
    as [H _].
  exact H.
Defined.

(** ** The request that carries the deposit, and sample runs *)

(** With a key the catalog answers and a product identifier configured,
    invoice creation issues one request, whose line item has the deposit
    as unit price. *)
Lemma createInvoice_trace {B : Builtins} (net : Network) (env : Env) (clock : Clock)
    (b c cur key cid : value) (k contract nm : jstring) (pkg : member package)
    (t : list outbound) :
  truthy (getenv (WAVE_API_KEY env)) = true ->
  ToString key = Return k ->
  lookup PACKAGE_CATALOG k = Some pkg ->
  member_truthy (member_or (lookup (productIdMap env) k)
                   (js_or (getenv (WAVE_PRODUCT_ID env)) (VStr []))) = true ->
  ToString cid = Return contract ->
  ToString (name_of pkg) = Return nm ->
  snd (createInvoice net env clock b c cur key cid t)
    = t ++ [WavePost (bearer env) InvoiceCreate
              (invoice_variables clock b c cur contract nm pkg
                 (member_or (lookup (productIdMap env) k)
                    (js_or (getenv (WAVE_PRODUCT_ID env)) (VStr []))))].
Proof.
  intros K Hk Hpkg Hprod Hcid Hnm.
  unfold createInvoice. unfold bind at 1. unfold lift at 1. rewrite Hk, Hpkg, Hprod.
  cbn [negb]. unfold bind at 1. unfold lift at 1. rewrite Hcid.
  unfold bind at 1. unfold lift at 1. rewrite Hnm.
  unfold bind, lift, throw, ret.
  pose proof (waveQuery_trace net env InvoiceCreate
                (invoice_variables clock b c cur contract nm pkg
                   (member_or (lookup (productIdMap env) k)
                      (js_or (getenv (WAVE_PRODUCT_ID env)) (VStr [])))) t K) as Ht.
  destruct (waveQuery net env _ _ t) as [[d|e] t']; [|exact Ht].
  destruct (get d _); [|exact Ht].
  destruct (did_fail _ _); exact Ht.
Qed.

Lemma unit_price_is_the_deposit {B : Builtins} (clock : Clock) (b c cur : value)
    (contract nm : jstring) (pkg : member package) (productId : member value) :
  prop (elem0 (prop (prop (invoice_variables clock b c cur contract nm pkg productId)
                          (lit "input")) (lit "items"))) (lit "unitPrice")
    = VStr (Number_toString (deposit_of pkg)).
Proof. reflexivity. Qed.

Example run_demo :
  handler (B := Run.builtins) Run.net_approval_fails Run.env_unset Run.clock
    (Run.req_invoice (lit "growth")) []
  = (Return {| statusCode := 200; data := demo_response |}, []).
Proof. reflexivity. Qed.

Example run_live :
  let '(r, t) := handler (B := Run.builtins) Run.net_approval_fails Run.env_set
                   Run.clock (Run.req_invoice (lit "growth")) [] in
  r = Return {| statusCode := 200;
                data := VObj [ (lit "mode", VStr (lit "live"));
                               (lit "invoiceId", VStr (lit "inv-1"));
                               (lit "paymentUrl",
                                VStr (lit "https://pay.example/inv-1")) ] |} /\
  List.map (fun r => match r with
                     | WavePost _ q _ => Some q
                     | GitHubPut _ _ _ _ => None
                     end) t
    = [Some CreateCustomer; Some InvoiceCreate; Some InvoiceApprove; Some InvoiceSend] /\
  option_map (fun r => match r with
                       | WavePost _ _ v =>
                           prop (elem0 (prop (prop v (lit "input")) (lit "items")))
                                (lit "unitPrice")
                       | GitHubPut _ _ _ _ => VUndefined
                       end) (nth_error t 1)
    = Some (VStr (lit "3750")).
Proof. vm_compute. repeat split. Qed.

(** A key that only [Object.prototype] answers passes the catalog check:
    the invoice is created with a NaN unit price. *)
Example run_inherited_key :
  let '(r, t) := handler (B := Run.builtins) Run.net_approval_fails Run.env_set
                   Run.clock (Run.req_invoice (lit "toString")) [] in
  option_map (fun r => match r with
                       | WavePost _ _ v =>
                           prop (elem0 (prop (prop v (lit "input")) (lit "items")))
                                (lit "unitPrice")
                       | GitHubPut _ _ _ _ => VUndefined
                       end) (nth_error t 1)
    = Some (VStr (lit "NaN")).
Proof. vm_compute. reflexivity. Qed.

Example run_products_search :
  fst (ListProducts.handler (B := Run.builtins) Run.net_listing Run.env_set
         (Run.req_get (VObj [ (lit "q", VStr (lit "GROWTH")) ])) [])
  = Return {| statusCode := 200;
              data := VObj [ (lit "business",
                              VObj [ (lit "id", VStr (lit "biz"));
                                     (lit "name", VStr (lit "Studio")) ]);
                             (lit "count", VNum 1);
                             (lit "products",
                              VArr [ VObj [ (lit "id", VStr (lit "p2"));
                                            (lit "name",
                                             VStr (lit "Growth Accelerator Package")) ] ]) ] |}.
Proof. reflexivity. Qed.

Example run_upload :
  fst (UploadContract.handler (B := Run.builtins) Run.net_github Run.env_set
         (Run.req_upload "My Contract (1).pdf") [])
  = Return {| statusCode := 200;
              data := VObj [ (lit "downloadUrl",
                              VStr (lit "https://raw.example/contract.pdf"));
                             (lit "sha", VStr (lit "abc123")) ] |}.
Proof. reflexivity. Qed.

(* ================================================================== *)
(** * Part III: further properties of the handlers                     *)
(* ================================================================== *)

Import Observe.

(** ** The invoice endpoint: requests issued *)

Section InvoiceRequests.

Context {B : Builtins} (net : Network) (env : Env) (clock : Clock).

(** Invoice creation issues its request or none, and none means it threw. *)
Lemma createInvoice_trace_cases (b c cur key cid : value) (t : list outbound) :
  truthy (getenv (WAVE_API_KEY env)) = true ->
  (snd (createInvoice net env clock b c cur key cid t) = t /\
   exists e, fst (createInvoice net env clock b c cur key cid t) = Throw e) \/
  (exists v, snd (createInvoice net env clock b c cur key cid t)
             = t ++ [WavePost (bearer env) InvoiceCreate v]).
Proof.
  intros K. unfold createInvoice, bind, lift, throw, ret.
  destruct (ToString key) as [k|e]; cbv beta iota;
    [|left; split; [reflexivity | eexists; reflexivity]].
  destruct (lookup PACKAGE_CATALOG k) as [pkg|]; cbv beta iota;
    [|left; split; [reflexivity | eexists; reflexivity]].
  destruct (member_truthy _); cbn [negb]; cbv beta iota;
    [|left; split; [reflexivity | eexists; reflexivity]].
  destruct (ToString cid) as [contract|e]; cbv beta iota;
    [|left; split; [reflexivity | eexists; reflexivity]].
  destruct (ToString (name_of pkg)) as [nm|e]; cbv beta iota;
    [|left; split; [reflexivity | eexists; reflexivity]].
  right. eexists.
  match goal with
  | |- context [waveQuery net env InvoiceCreate ?v t] =>
      pose proof (waveQuery_trace net env InvoiceCreate v t K) as Ht;
      destruct (waveQuery net env InvoiceCreate v t) as [[d|e] t']
  end; [|exact Ht].
  destruct (get d _); [|exact Ht].
  destruct (did_fail _ _); exact Ht.
Qed.

End InvoiceRequests.

(** X1.  However the service answers, one call of the GraphQL primitive
    issues one request when an API key is set, carrying the key as bearer
    token, and none when it is not; in that case it throws
    [Missing WAVE_API_KEY]. *)
Theorem waveQuery_issues_at_most_one_request {B : Builtins} (net : Network)
    (env : Env) (q : operation) (v : value) (t : list outbound) :
  snd (waveQuery net env q v t)
    = (if truthy (getenv (WAVE_API_KEY env))
       then t ++ [WavePost (lit "Bearer " ++ env_text (WAVE_API_KEY env)) q v]
       else t) /\
  (truthy (getenv (WAVE_API_KEY env)) = false ->
   fst (waveQuery net env q v t) = Throw (Error (lit "Missing WAVE_API_KEY"))).
Proof.
  destruct (truthy (getenv (WAVE_API_KEY env))) eqn:K.
  - split; [|discriminate]. exact (waveQuery_trace net env q v t K).
  - rewrite (waveQuery_unconfigured net env q v t K). split; [reflexivity|].
    intros _. reflexivity.
Qed.

(** X2.  The requests of one invoice request, by the mode of the answer:
    a live answer means exactly four requests, customer creation, invoice
    creation, approval and sending, in this order; a fallback answer means
    customer creation alone or followed by invoice creation, and never an
    approval or a sending; any other answer (demo, 400, 405) means no
    request at all. *)
Theorem invoice_request_sequence {B : Builtins} (net : Network) (env : Env)
    (clock : Clock) (req : Request) :
  exists (resp : Response) (t : list outbound),
    handler net env clock req [] = (Return resp, t) /\
    (prop (data resp) (lit "mode") = VStr (lit "live") ->
       operations t = [Some CreateCustomer; Some InvoiceCreate;
                       Some InvoiceApprove; Some InvoiceSend]) /\
    (prop (data resp) (lit "mode") = VStr (lit "fallback") ->
       operations t = [Some CreateCustomer] \/
       operations t = [Some CreateCustomer; Some InvoiceCreate]) /\
    (prop (data resp) (lit "mode") = VStr (lit "demo") \/
     prop (data resp) (lit "mode") = VUndefined -> t = []).
Proof.
  destruct (is_POST req) eqn:P.
  2:{ eexists; eexists. rewrite (handler_wrong_method net env clock req [] P).
      split; [reflexivity|]. cbn. repeat split; try discriminate. }
  destruct (has_required_fields req) eqn:F.
  2:{ eexists; eexists. rewrite (handler_missing_fields net env clock req [] P F).
      split; [reflexivity|]. cbn. repeat split; try discriminate. }
  destruct (configured env) eqn:C.
  2:{ eexists; eexists. rewrite (handler_demo net env clock req [] P F C).
      split; [reflexivity|]. cbn. repeat split; try discriminate. }
  pose proof (configured_key env C) as K.
  rewrite (handler_workflow net env clock req [] P F C).
  unfold fatal_steps, bind.
  pose proof (createCustomer_trace net env (businessId_of_env env)
                (prop (contractData_of req) (lit "clientName"))
                (prop (contractData_of req) (lit "clientEmail")) [] K) as Hc.
  fold (customer_step net env req) in Hc.
  destruct (customer_step net env req []) as [[cid|e] t1]; cbn [snd app] in Hc; subst t1.
  2:{ eexists; eexists. split; [reflexivity|]. cbn.
      split; [discriminate|]. split; [now left|]. intros [H|H]; discriminate H. }
  unfold invoice_step.
  destruct (createInvoice_trace_cases net env clock (businessId_of_env env) cid
              (currency_of_env env) (packageKey_of req)
              (prop (contractData_of req) (lit "contractId"))
              [WavePost (bearer env) CreateCustomer
                 (customer_variables (businessId_of_env env)
                    (prop (contractData_of req) (lit "clientName"))
                    (prop (contractData_of req) (lit "clientEmail")))] K)
    as [[Ht [e He]] | [v Ht]];
    destruct (createInvoice net env clock _ _ _ _ _ _) as [[inv|e'] t2];
    cbn [fst snd] in *; subst t2; try discriminate.
  - eexists; eexists. split; [reflexivity|]. cbn.
    split; [discriminate|]. split; [now left|]. intros [H|H]; discriminate H.
  - rewrite (approveInvoice_trace net env (invoiceId inv) _ K).
    rewrite (sendInvoice_trace net env (invoiceId inv) _ K).
    eexists; eexists. split; [reflexivity|]. cbn.
    split; [reflexivity|]. split; [discriminate|]. intros [H|H]; discriminate H.
  - eexists; eexists. split; [reflexivity|]. cbn.
    split; [discriminate|]. split; [now right|]. intros [H|H]; discriminate H.
Qed.

Lemma js_or_null_cases (u : value) :
  truthy (js_or u VNull) = true \/ js_or u VNull = VNull.
Proof.
  unfold js_or. destruct (truthy u) eqn:T; [left; exact T | right; reflexivity].
Qed.

(** X3.  In a live answer the payment URL is a truthy value or null,
    never an empty string or [undefined]. *)
Theorem live_payment_url_is_truthy_or_null {B : Builtins} (net : Network)
    (env : Env) (clock : Clock) (req : Request) :
  exists (resp : Response) (t : list outbound),
    handler net env clock req [] = (Return resp, t) /\
    (prop (data resp) (lit "mode") = VStr (lit "live") ->
       truthy (prop (data resp) (lit "paymentUrl")) = true \/
       prop (data resp) (lit "paymentUrl") = VNull).
Proof.
  destruct (is_POST req) eqn:P.
  2:{ eexists; eexists. rewrite (handler_wrong_method net env clock req [] P).
      split; [reflexivity|]. intros H. discriminate H. }
  destruct (has_required_fields req) eqn:F.
  2:{ eexists; eexists. rewrite (handler_missing_fields net env clock req [] P F).
      split; [reflexivity|]. intros H. discriminate H. }
  destruct (configured env) eqn:C.
  2:{ eexists; eexists. rewrite (handler_demo net env clock req [] P F C).
      split; [reflexivity|]. intros H. discriminate H. }
  rewrite (handler_workflow net env clock req [] P F C).
  destruct (fatal_steps net env clock req []) as [[inv|e] t'];
    eexists; eexists; (split; [reflexivity|]); intros H; [|discriminate H].
  apply js_or_null_cases.
Qed.

(** X4.  In a live answer, the last two requests are the approval and
    the sending, and both carry the invoice identifier the answer
    reports. *)
Theorem live_requests_carry_the_invoice_id {B : Builtins} (net : Network)
    (env : Env) (clock : Clock) (req : Request) :
  exists (resp : Response) (t : list outbound),
    handler net env clock req [] = (Return resp, t) /\
    (prop (data resp) (lit "mode") = VStr (lit "live") ->
       exists t0,
         t = t0 ++ [ WavePost (bearer env) InvoiceApprove
                       (id_variables (prop (data resp) (lit "invoiceId")));
                     WavePost (bearer env) InvoiceSend
                       (id_variables (prop (data resp) (lit "invoiceId"))) ]).
Proof.
  destruct (is_POST req) eqn:P.
  2:{ eexists; eexists. rewrite (handler_wrong_method net env clock req [] P).
      split; [reflexivity|]. intros H. discriminate H. }
  destruct (has_required_fields req) eqn:F.
  2:{ eexists; eexists. rewrite (handler_missing_fields net env clock req [] P F).
      split; [reflexivity|]. intros H. discriminate H. }
  destruct (configured env) eqn:C.
  2:{ eexists; eexists. rewrite (handler_demo net env clock req [] P F C).
      split; [reflexivity|]. intros H. discriminate H. }
  pose proof (configured_key env C) as K.
  rewrite (handler_workflow net env clock req [] P F C).
  destruct (fatal_steps net env clock req []) as [[inv|e] t'];
    eexists; eexists; (split; [reflexivity|]); intros H; [|discriminate H].
  exists t'.
  rewrite (sendInvoice_trace net env (invoiceId inv) _ K).
  rewrite (approveInvoice_trace net env (invoiceId inv) _ K).
  rewrite <- app_assoc. reflexivity.
Qed.

(** ** The invoice endpoint: the product identifier *)

Section ProductId.

Context {B : Builtins} (net : Network) (env : Env) (clock : Clock).

Lemma catalog_key_override (k : jstring) (pkg : package) :
  lookup PACKAGE_CATALOG k = Some (Own pkg) ->
  lookup (productIdMap env) k = Some (Own (override env k)).
Proof.
  intros H. apply catalog_own in H.
  destruct H as [[-> _] | [[-> _] | [-> _]]]; reflexivity.
Qed.

Lemma inherited_in_both (k : jstring) (m : proto_member) :
  lookup PACKAGE_CATALOG k = Some (Inherited m) ->
  lookup (productIdMap env) k = Some (Inherited m).
Proof.
  unfold lookup, PACKAGE_CATALOG, productIdMap. cbn [assoc].
  destruct (str_eqb (lit "core") k); [discriminate|].
  destruct (str_eqb (lit "growth") k); [discriminate|].
  destruct (str_eqb (lit "full") k); [discriminate|].
  destruct (from_prototype k) as [m'|]; [|discriminate].
  intros H. injection H as <-. reflexivity.
Qed.

Lemma name_of_converts (pkg : member package) :
  exists nm, ToString (name_of pkg) = Return nm /\
             (forall p, pkg = Own p -> nm = name p).
Proof.
  destruct pkg as [p | [f|]]; eexists; (split; [reflexivity|]);
    intros p' H; [now injection H as <- | discriminate | discriminate].
Qed.

End ProductId.

(** X5.  For a key of the catalog, the product identifier of the line
    item is the per-package variable when it is set, whatever the generic
    one holds, and the generic variable otherwise; with neither set,
    invoice creation throws [Missing WAVE_PRODUCT_ID] and issues no
    request. *)
Theorem product_id_precedence {B : Builtins} (net : Network) (env : Env)
    (clock : Clock) (b c cur key cid : value) (k contract : jstring)
    (pkg : package) (t : list outbound) :
  truthy (getenv (WAVE_API_KEY env)) = true ->
  ToString key = Return k ->
  lookup PACKAGE_CATALOG k = Some (Own pkg) ->
  ToString cid = Return contract ->
  (truthy (override env k) = false -> truthy (generic_product env) = false ->
     createInvoice net env clock b c cur key cid t
       = (Throw Missing_WAVE_PRODUCT_ID, t)) /\
  (truthy (override env k) = true \/ truthy (generic_product env) = true ->
     snd (createInvoice net env clock b c cur key cid t)
       = t ++ [WavePost (bearer env) InvoiceCreate
                 (invoice_variables clock b c cur contract (name pkg) (Own pkg)
                    (Own (if truthy (override env k)
                          then override env k
                          else generic_product env)))]).
Proof.
  intros K Hk Hpkg Hcid.
  pose proof (catalog_key_override env k pkg Hpkg) as Hmap.
  split.
  - intros Ho Hg. unfold createInvoice, bind, lift, throw.
    rewrite Hk, Hpkg, Hmap. cbv beta iota.
    unfold member_or, member_truthy. rewrite Ho.
    unfold generic_product in Hg. unfold js_or. rewrite Hg. reflexivity.
  - intros Hsome.
    assert (Hprod : member_or (lookup (productIdMap env) k)
                      (js_or (getenv (WAVE_PRODUCT_ID env)) (VStr []))
                    = Own (if truthy (override env k)
                           then override env k else generic_product env)).
    { rewrite Hmap. unfold member_or, member_truthy, generic_product, js_or.
      destruct (truthy (override env k)); [reflexivity|].
      destruct Hsome as [H|H]; [discriminate|].
      unfold generic_product in H. now rewrite H. }
    rewrite (createInvoice_trace net env clock b c cur key cid k contract (name pkg)
               (Own pkg) t K Hk Hpkg).
    + now rewrite Hprod.
    + rewrite Hprod. unfold member_truthy, generic_product.
      destruct (truthy (override env k)) eqn:Ho; [exact Ho|].
      destruct Hsome as [H|H]; [discriminate | exact H].
    + exact Hcid.
    + reflexivity.
Qed.

Lemma product_id_precedence_growth :
  prop (elem0 (prop (prop
    (variables_of
       (nth 0 (snd (createInvoice (B := Run.builtins) Run.net_approval_fails
                      Run.env_override Run.clock (VStr (lit "biz"))
                      (VStr (lit "cust-1")) (VStr (lit "USD")) (VStr (lit "growth"))
                      (VStr (lit "C-1")) []))
            (GitHubPut [] [] [] VNull)))
    (lit "input")) (lit "items"))) (lit "productId")
  = VStr (lit "prod-growth").
Proof.
  destruct (product_id_precedence (B := Run.builtins) Run.net_approval_fails
              Run.env_override Run.clock (VStr (lit "biz")) (VStr (lit "cust-1"))
              (VStr (lit "USD")) (VStr (lit "growth")) (VStr (lit "C-1"))
              (lit "growth") (lit "C-1")
              {| name := lit "Growth Accelerator Package"; price := 7500 |} []
              eq_refl eq_refl eq_refl eq_refl) as [_ H].
  rewrite (H (or_introl eq_refl)). reflexivity.
Defined.

(** X6.  With no product identifier of any kind, a request for a catalog
    key creates the customer and then answers in fallback mode with the
    error [Missing WAVE_PRODUCT_ID], whose guidance travels in
    [errorDetails]; no invoice request is issued. *)
Theorem missing_product_id_is_reported {B : Builtins} (net : Network) (env : Env)
    (clock : Clock) (req : Request) (k : jstring) (pkg : package) (cid : value) :
  is_POST req = true -> has_required_fields req = true -> configured env = true ->
  ToString (packageKey_of req) = Return k ->
  lookup PACKAGE_CATALOG k = Some (Own pkg) ->
  truthy (override env k) = false -> truthy (generic_product env) = false ->
  fst (customer_step net env req []) = Return cid ->
  exists (resp : Response) (t : list outbound),
    handler net env clock req [] = (Return resp, t) /\
    operations t = [Some CreateCustomer] /\
    statusCode resp = 200%Z /\
    data resp = fallback_response Missing_WAVE_PRODUCT_ID /\
    prop (data resp) (lit "error") = VStr (lit "Missing WAVE_PRODUCT_ID") /\
    prop (data resp) (lit "errorDetails") = waveErrors Missing_WAVE_PRODUCT_ID.
Proof.
  intros P F C Hk Hpkg Ho Hg Hcust.
  pose proof (configured_key env C) as K.
  rewrite (handler_workflow net env clock req [] P F C).
  unfold fatal_steps, bind.
  pose proof (createCustomer_trace net env (businessId_of_env env)
                (prop (contractData_of req) (lit "clientName"))
                (prop (contractData_of req) (lit "clientEmail")) [] K) as Ht.
  fold (customer_step net env req) in Ht.
  destruct (customer_step net env req []) as [[cid'|e] t1];
    cbn [fst snd app] in *; [|discriminate]. subst t1.
  unfold invoice_step.
  pose proof (catalog_key_override env k pkg Hpkg) as Hmap.
  assert (Hthrow : forall t,
             createInvoice net env clock (businessId_of_env env) cid'
               (currency_of_env env) (packageKey_of req)
               (prop (contractData_of req) (lit "contractId")) t
             = (Throw Missing_WAVE_PRODUCT_ID, t)).
  { intros t. unfold createInvoice, bind, lift, throw.
    rewrite Hk, Hpkg, Hmap. cbv beta iota.
    unfold member_or, member_truthy. rewrite Ho.
    unfold generic_product in Hg. unfold js_or. rewrite Hg. reflexivity. }
  rewrite Hthrow.
  eexists; eexists. split; [reflexivity|]. repeat split.
Qed.

Lemma missing_product_id_is_reported_growth :
  exists (resp : Response) (t : list outbound),
    handler (B := Run.builtins) Run.net_approval_fails Run.env_no_product Run.clock
      (Run.req_invoice (lit "growth")) [] = (Return resp, t) /\
    operations t = [Some CreateCustomer] /\
    prop (data resp) (lit "errorDetails") = waveErrors Missing_WAVE_PRODUCT_ID.
Proof.
  destruct (missing_product_id_is_reported (B := Run.builtins) Run.net_approval_fails
              Run.env_no_product Run.clock (Run.req_invoice (lit "growth"))
              (lit "growth")
              {| name := lit "Growth Accelerator Package"; price := 7500 |}
              (VStr (lit "cust-1"))
              eq_refl eq_refl eq_refl eq_refl eq_refl eq_refl eq_refl eq_refl)
    as [resp [t [Hrun [Hops [_ [_ [_ Hd]]]]]]].
  exists resp, t. repeat split; assumption.
Defined.

(** X7.  A package key that names a member of [Object.prototype]
    ([toString], [constructor], ...) is not rejected as unknown: whatever
    product identifiers are configured, even none, invoice creation issues
    its request, with the unit price [NaN] and no usable product
    identifier. *)
Theorem inherited_key_passes_the_catalog_check {B : Builtins} (net : Network)
    (env : Env) (clock : Clock) (b c cur key cid : value) (k contract : jstring)
    (m : proto_member) (t : list outbound) :
  truthy (getenv (WAVE_API_KEY env)) = true ->
  ToString key = Return k ->
  lookup PACKAGE_CATALOG k = Some (Inherited m) ->
  ToString cid = Return contract ->
  exists v,
    snd (createInvoice net env clock b c cur key cid t)
      = t ++ [WavePost (bearer env) InvoiceCreate v] /\
    prop (elem0 (prop (prop v (lit "input")) (lit "items"))) (lit "unitPrice")
      = VStr (Number_toString PrimFloat.nan) /\
    prop (elem0 (prop (prop v (lit "input")) (lit "items"))) (lit "productId")
      = as_sent (Inherited m).
Proof.
  intros K Hk Hpkg Hcid.
  pose proof (inherited_in_both env k m Hpkg) as Hmap.
  destruct (name_of_converts (Inherited m)) as [nm [Hnm _]].
  eexists. split.
  - apply (createInvoice_trace net env clock b c cur key cid k contract nm
             (Inherited m) t K Hk Hpkg); [|exact Hcid | exact Hnm].
    rewrite Hmap. reflexivity.
  - rewrite Hmap. split; reflexivity.
Qed.

Lemma inherited_key_passes_the_catalog_check_toString :
  exists v,
    snd (createInvoice (B := Run.builtins) Run.net_approval_fails Run.env_no_product
           Run.clock (VStr (lit "biz")) (VStr (lit "cust-1")) (VStr (lit "USD"))
           (VStr (lit "toString")) (VStr (lit "C-1")) [])
      = [WavePost (lit "Bearer key") InvoiceCreate v] /\
    prop (elem0 (prop (prop v (lit "input")) (lit "items"))) (lit "unitPrice")
      = VStr (lit "NaN").
Proof.
  destruct (inherited_key_passes_the_catalog_check (B := Run.builtins)
              Run.net_approval_fails Run.env_no_product Run.clock
              (VStr (lit "biz")) (VStr (lit "cust-1")) (VStr (lit "USD"))
              (VStr (lit "toString")) (VStr (lit "C-1")) (lit "toString") (lit "C-1")
              (ProtoFunction (lit "toString")) [] eq_refl eq_refl eq_refl eq_refl)
    as [v [Ht [Hu _]]].
  exists v. split; [exact Ht | exact Hu].
Defined.

(** ** The upload endpoint: validation, failures, download URL *)

Section UploadRuns.

Context {B : Builtins} (net : Network) (env : Env).

Lemma branch_value :
  js_or (getenv (GITHUB_BRANCH env)) (VStr (lit "main"))
    = VStr (UploadContract.branch_text env).
Proof.
  unfold UploadContract.branch_text.
  destruct (GITHUB_BRANCH env) as [[|c s]|]; reflexivity.
Qed.

Lemma prop_truthy_base (v : value) (k : jstring) :
  truthy (prop v k) = true -> truthy v = true.
Proof.
  destruct v; simpl; try discriminate; reflexivity.
Qed.

(** [d && d.k1 && d.k1.k2] is truthy exactly when [d.k1.k2] is. *)
Lemma guarded_chain (d : value) (k1 k2 : jstring) :
  truthy (js_and d (js_and (prop d k1) (prop (prop d k1) k2)))
    = truthy (prop (prop d k1) k2).
Proof.
  unfold js_and.
  destruct (truthy (prop (prop d k1) k2)) eqn:Hu.
  - pose proof (prop_truthy_base _ _ Hu) as Hc.
    pose proof (prop_truthy_base _ _ Hc) as Hd.
    now rewrite Hd, Hc.
  - destruct (truthy d) eqn:Hd; [|exact Hd].
    destruct (truthy (prop d k1)) eqn:Hc; [exact Hu | exact Hc].
Qed.

(** The answer of the upload handler to a request that passes its checks,
    in terms of the one call of [putFileToGitHub]. *)
Lemma upload_handler_eq (req : Request) (f contract : jstring) :
  UploadContract.well_formed req = true ->
  UploadContract.filename_of req = VStr f ->
  ToString (UploadContract.contract_of req) = Return contract ->
  UploadContract.handler net env req [] =
    match UploadContract.putFileToGitHub net env
            (lit "contracts/" ++ UploadContract.sanitize f)
            (UploadContract.content_of req)
            (UploadContract.commit_message contract) [] with
    | (Return u, t) =>
        (Return {| statusCode := 200;
                   data := VObj [ (lit "downloadUrl", UploadContract.downloadUrl u);
                                  (lit "sha", UploadContract.sha u) ] |}, t)
    | (Throw e, t) =>
        (Return {| statusCode := 500;
                   data := VObj [ (lit "error",
                                   js_or (VStr (message e))
                                         (VStr (lit "Upload failed"))) ] |}, t)
    end.
Proof.
  unfold UploadContract.well_formed, UploadContract.filename_of,
    UploadContract.content_of, UploadContract.contract_of,
    UploadContract.commit_message.
  intros W Hf Hid.
  apply andb_true_iff in W as [W Hc]. apply andb_true_iff in W as [P Tf].
  unfold UploadContract.handler, try_catch. rewrite P. cbn [negb].
  rewrite Tf, Hc, Hid. rewrite Hf. cbn [negb orb UploadContract.replace_unsafe].
  unfold bind at 1. unfold lift at 1.
  unfold bind at 1. unfold lift at 1.
  unfold bind at 1.
  destruct (UploadContract.putFileToGitHub net env _ _ _ []) as [[u|e] t]; reflexivity.
Qed.

(** The call of [putFileToGitHub] the handler makes, when configured. *)
Lemma putFileToGitHub_eq (f contract : jstring) (content : value)
    (t : list outbound) :
  UploadContract.configured env = true ->
  UploadContract.putFileToGitHub net env
    (lit "contracts/" ++ UploadContract.sanitize f) content
    (UploadContract.commit_message contract) t =
  let r := UploadContract.upload_request env f contract content in
  match net t r with
  | Throw e => (Throw e, t ++ [r])
  | Return resp =>
      match resp_json resp with
      | Throw e => (Throw e, t ++ [r])
      | Return d =>
          if negb (ok resp)
          then (Throw (new_Error
                         (if truthy (js_and d (prop d (lit "message")))
                          then prop d (lit "message")
                          else VStr (lit "GitHub upload failed"))), t ++ [r])
          else
            match get d (lit "content") with
            | Throw e => (Throw e, t ++ [r])
            | Return c =>
                (Return
                   {| UploadContract.sha := js_and c (prop c (lit "sha"));
                      UploadContract.downloadUrl :=
                        if truthy (js_and d
                                     (js_and (prop d (lit "content"))
                                        (prop (prop d (lit "content"))
                                              (lit "download_url"))))
                        then prop (prop d (lit "content")) (lit "download_url")
                        else VStr (UploadContract.raw_url env f) |},
                 t ++ [r])
            end
      end
  end.
Proof.
  unfold UploadContract.configured, UploadContract.putFileToGitHub,
    UploadContract.upload_request, UploadContract.raw_url.
  intros C. apply andb_true_iff in C as [Ht Hr]. rewrite Ht, Hr. cbn [negb orb].
  rewrite (ToString_getenv _ Ht), (ToString_getenv _ Hr), branch_value.
  cbn [ToString]. unfold bind, fetch, lift, throw, ret. cbv beta iota zeta.
  destruct (net t _) as [resp|e]; [|reflexivity].
  destruct (resp_json resp) as [d|e]; [|reflexivity].
  destruct (negb (ok resp)); [reflexivity|].
  destruct (get d (lit "content")); reflexivity.
Qed.

End UploadRuns.

(** X8.  The upload handler checks the request before anything else: a
    method other than POST is answered 405, a POST without a filename or
    without a content is answered 400, and no request is made to the
    storage service, whatever the configuration. *)
Theorem upload_validation {B : Builtins} (net : Network) (env : Env)
    (req : Request) :
  UploadContract.well_formed req = false ->
  exists resp : Response,
    UploadContract.handler net env req [] = (Return resp, []) /\
    ((str_eqb (method req) (lit "POST") = false /\ statusCode resp = 405%Z /\
      data resp = VObj [ (lit "error", VStr (lit "Method not allowed")) ]) \/
     (str_eqb (method req) (lit "POST") = true /\ statusCode resp = 400%Z /\
      data resp = VObj [ (lit "error", VStr (lit "Missing filename or content")) ])).
Proof.
  unfold UploadContract.well_formed, UploadContract.filename_of,
    UploadContract.content_of, UploadContract.handler, try_catch.
  intros W. destruct (str_eqb (method req) (lit "POST")); cbn [negb andb] in *.
  - destruct (truthy (prop (js_or (body req) (VObj [])) (lit "filename")));
      cbn [negb andb orb] in *.
    + rewrite W. eexists. split; [reflexivity|]. right. now repeat split.
    + eexists. split; [reflexivity|]. right. now repeat split.
  - eexists. split; [reflexivity|]. left. now repeat split.
Qed.

Lemma upload_validation_no_content :
  exists resp : Response,
    UploadContract.handler (B := Run.builtins) Run.net_github Run.env_set
      {| method := lit "POST";
         body := VObj [ (lit "filename", VStr (lit "a.pdf")) ];
         query := VNull |} [] = (Return resp, []) /\
    statusCode resp = 400%Z.
Proof.
  destruct (upload_validation (B := Run.builtins) Run.net_github Run.env_set
              {| method := lit "POST";
                 body := VObj [ (lit "filename", VStr (lit "a.pdf")) ];
                 query := VNull |} eq_refl) as [resp [Hrun [[Hp _] | [_ [Hs _]]]]].
  - discriminate Hp.
  - exists resp. split; [exact Hrun | exact Hs].
Defined.



(** X10.  When the storage service refuses the upload (a response that is
    not ok, with a JSON body), the answer is 500 and its error is the
    string the service gave as [message], or [GitHub upload failed] when
    the body has no message. *)
Theorem upload_refusal_is_relayed {B : Builtins} (net : Network) (env : Env)
    (req : Request) (f contract : jstring) (resp : http_response) (d : value) :
  UploadContract.well_formed req = true ->
  UploadContract.filename_of req = VStr f ->
  ToString (UploadContract.contract_of req) = Return contract ->
  UploadContract.configured env = true ->
  net [] (UploadContract.upload_request env f contract (UploadContract.content_of req))
    = Return resp ->
  ok resp = false ->
  resp_json resp = Return d ->
  exists r : Response,
    UploadContract.handler net env req [] =
      (Return r,
       [UploadContract.upload_request env f contract (UploadContract.content_of req)]) /\
    statusCode r = 500%Z /\
    (forall m, prop d (lit "message") = VStr m -> m <> [] ->
       data r = VObj [ (lit "error", VStr m) ]) /\
    (truthy (js_and d (prop d (lit "message"))) = false ->
       data r = VObj [ (lit "error", VStr (lit "GitHub upload failed")) ]).
Proof.
  intros W Hf Hid C Hnet Hok Hjson.
  rewrite (upload_handler_eq net env req f contract W Hf Hid).
  rewrite (putFileToGitHub_eq net env f contract _ [] C).
  cbv zeta. rewrite Hnet, Hjson, Hok. cbn [negb app].
  eexists. split; [reflexivity|]. split; [reflexivity|]. split.
  - intros m Hm Hne. cbn [data].
    assert (truthy (js_and d (prop d (lit "message"))) = true) as ->.
    { rewrite Hm. unfold js_and.
      destruct d; simpl in Hm; try discriminate.
      cbn [truthy]. destruct m; [contradiction | reflexivity]. }
    rewrite Hm. destruct m as [|c m]; [contradiction | reflexivity].
  - intros Hfalse. cbn [data]. rewrite Hfalse. reflexivity.
Qed.

Lemma upload_refusal_is_relayed_sample :
  exists r : Response,
    fst (UploadContract.handler (B := Run.builtins) Run.net_github_refuses Run.env_set
           (Run.req_upload "a.pdf") []) = Return r /\
    statusCode r = 500%Z /\
    data r = VObj [ (lit "error", VStr (lit "Invalid request")) ].
Proof.
  destruct (upload_refusal_is_relayed (B := Run.builtins) Run.net_github_refuses
              Run.env_set (Run.req_upload "a.pdf") (lit "a.pdf") []
              {| ok := false; statusText := lit "Unprocessable Entity";
                 resp_json := Return (VObj [ (lit "message",
                                              VStr (lit "Invalid request")) ]) |}
              (VObj [ (lit "message", VStr (lit "Invalid request")) ])
              eq_refl eq_refl eq_refl eq_refl eq_refl eq_refl eq_refl)
    as [r [Hrun [Hs [Hm _]]]].
  exists r. rewrite Hrun. split; [reflexivity|]. split; [exact Hs|].
  apply (Hm (lit "Invalid request")); [reflexivity | discriminate].
Defined.

(** X11.  When the storage service accepts the upload and answers with a
    JSON body other than null, the answer is 200; its [sha] is the one of
    the returned content, and its download URL is the one the service
    echoed, or, when it echoed none, the raw-content URL built from the
    repository, the branch ([main] unless configured) and the sanitized
    path.  A null body is answered 500 although the upload was accepted. *)
Theorem upload_download_url {B : Builtins} (net : Network) (env : Env)
    (req : Request) (f contract : jstring) (resp : http_response) (d : value) :
  UploadContract.well_formed req = true ->
  UploadContract.filename_of req = VStr f ->
  ToString (UploadContract.contract_of req) = Return contract ->
  UploadContract.configured env = true ->
  net [] (UploadContract.upload_request env f contract (UploadContract.content_of req))
    = Return resp ->
  ok resp = true ->
  resp_json resp = Return d ->
  exists r : Response,
    fst (UploadContract.handler net env req []) = Return r /\
    (nullish d = true -> statusCode r = 500%Z) /\
    (nullish d = false ->
       statusCode r = 200%Z /\
       prop (data r) (lit "sha")
         = js_and (prop d (lit "content")) (prop (prop d (lit "content")) (lit "sha")) /\
       (truthy (prop (prop d (lit "content")) (lit "download_url")) = true ->
          prop (data r) (lit "downloadUrl")
            = prop (prop d (lit "content")) (lit "download_url")) /\
       (truthy (prop (prop d (lit "content")) (lit "download_url")) = false ->
          prop (data r) (lit "downloadUrl") = VStr (UploadContract.raw_url env f))).
Proof.
  intros W Hf Hid C Hnet Hok Hjson.
  rewrite (upload_handler_eq net env req f contract W Hf Hid).
  rewrite (putFileToGitHub_eq net env f contract _ [] C).
  cbv zeta. rewrite Hnet, Hjson, Hok. cbn [negb app].
  destruct (nullish d) eqn:Hn.
  - destruct d; try discriminate Hn; (eexists; split; [reflexivity|]);
      (split; [reflexivity | discriminate]).
  - rewrite (get_not_nullish _ _ Hn), guarded_chain.
    eexists. split; [reflexivity|]. split; [discriminate|]. intros _.
    split; [reflexivity|]. split; [reflexivity|].
    split; intros Hu.
    + change (prop (data ?r) (lit "downloadUrl")) with
        (if truthy (prop (prop d (lit "content")) (lit "download_url"))
         then prop (prop d (lit "content")) (lit "download_url")
         else VStr (UploadContract.raw_url env f)).
      now rewrite Hu.
    + change (prop (data ?r) (lit "downloadUrl")) with
        (if truthy (prop (prop d (lit "content")) (lit "download_url"))
         then prop (prop d (lit "content")) (lit "download_url")
         else VStr (UploadContract.raw_url env f)).
      now rewrite Hu.
Qed.

Lemma upload_download_url_main_branch :
  exists r : Response,
    fst (UploadContract.handler (B := Run.builtins) Run.net_github_silent Run.env_set
           (Run.req_upload "My Contract (1).pdf") []) = Return r /\
    prop (data r) (lit "downloadUrl")
      = VStr (lit "https://raw.githubusercontent.com/owner/repo/main/contracts/My_Contract__1_.pdf") /\
    prop (data r) (lit "sha") = VStr (lit "abc123").
Proof.
  destruct (upload_download_url (B := Run.builtins) Run.net_github_silent Run.env_set
              (Run.req_upload "My Contract (1).pdf") (lit "My Contract (1).pdf") []
              {| ok := true; statusText := lit "OK";
                 resp_json := Return (VObj [ (lit "content",
                                              VObj [ (lit "sha", VStr (lit "abc123")) ]) ]) |}
              (VObj [ (lit "content", VObj [ (lit "sha", VStr (lit "abc123")) ]) ])
              eq_refl eq_refl eq_refl eq_refl eq_refl eq_refl eq_refl)
    as [r [Hrun [_ Hok]]].
  destruct (Hok eq_refl) as [_ [Hsha [_ Hraw]]].
  exists r. split; [exact Hrun|]. split; [|exact Hsha].
  rewrite (Hraw eq_refl). reflexivity.
Defined.

(** ** The upload endpoint: the filename and the commit message *)

Lemma allowed_sanitized (c : N) :
  UploadContract.allowed (if UploadContract.allowed c then c else 95%N) = true.
Proof.
  destruct (UploadContract.allowed c) eqn:E; [exact E | reflexivity].
Qed.

(** X12.  Sanitizing a filename twice is sanitizing it once, and the
    filenames sanitizing leaves unchanged are exactly those made of
    allowed code units only. *)
Theorem sanitize_idempotent (f : jstring) :
  UploadContract.sanitize (UploadContract.sanitize f) = UploadContract.sanitize f /\
  (UploadContract.sanitize f = f <->
   Forall (fun c => UploadContract.allowed c = true) f).
Proof.
  split.
  - induction f as [|c f IH]; [reflexivity|].
    cbn [UploadContract.sanitize List.map] in *. rewrite allowed_sanitized.
    f_equal. exact IH.
  - split.
    + intros H. rewrite <- H. apply sanitize_allowed.
    + induction 1 as [|c f Hc _ IH]; [reflexivity|].
      cbn [UploadContract.sanitize List.map] in *. rewrite Hc. f_equal. exact IH.
Qed.

Lemma trim_start_app (a b : jstring) (c : N) (b' : jstring) :
  b = c :: b' -> is_white c = false ->
  trim_start (a ++ b) = trim_start a ++ b.
Proof.
  intros -> Hc. induction a as [|x a IH]; cbn [app trim_start].
  - now rewrite Hc.
  - destruct (is_white x); [exact IH | reflexivity].
Qed.

(** Trimming keeps a prefix that neither starts nor ends with white space. *)
Lemma trim_keeps_prefix (p x : jstring) (a z : N) (p1 p2 : jstring) :
  p = a :: p1 -> rev p = z :: p2 -> is_white a = false -> is_white z = false ->
  trim (p ++ x) = p ++ rev (trim_start (rev x)).
Proof.
  intros Hp Hr Ha Hz. unfold trim.
  assert (trim_start (p ++ x) = p ++ x) as ->
    by (rewrite Hp; cbn [app trim_start]; now rewrite Ha).
  rewrite rev_app_distr.
  rewrite (trim_start_app (rev x) (rev p) z p2 Hr Hz).
  now rewrite rev_app_distr, rev_involutive.
Qed.

(** The text of the commit message: the fixed prefix, then a space and
    the identifier, with trailing white space removed; it is never
    empty. *)
Lemma commit_message_text (contract : jstring) :
  UploadContract.commit_message contract
    = lit "chore(contracts): add signed contract"
      ++ rev (trim_start (rev (32%N :: contract))) /\
  UploadContract.commit_message [] = lit "chore(contracts): add signed contract" /\
  (forall path : jstring,
     js_or (VStr (UploadContract.commit_message contract)) (VStr path)
       = VStr (UploadContract.commit_message contract)).
Proof.
  assert (H : forall c, UploadContract.commit_message c
                        = lit "chore(contracts): add signed contract"
                          ++ rev (trim_start (rev (32%N :: c)))).
  { intros c. unfold UploadContract.commit_message.
    change (lit "chore(contracts): add signed contract " ++ c)
      with (lit "chore(contracts): add signed contract" ++ (32%N :: c)).
    eapply trim_keeps_prefix; reflexivity. }
  split; [apply H|]. split; [reflexivity|].
  intros path. rewrite (H contract). reflexivity.
Qed.

(** The identifier the handler quotes is the [contractId] of the
    request's [contractData] when that is a non-empty string, and empty
    when it is missing or falsy. *)
Lemma contract_of_request {B : Builtins} (req : Request) (contract : jstring) :
  ToString (UploadContract.contract_of req) = Return contract ->
  (forall id,
     prop (prop (js_or (body req) (VObj [])) (lit "contractData")) (lit "contractId")
       = VStr id -> id <> [] -> contract = id) /\
  (truthy (prop (prop (js_or (body req) (VObj [])) (lit "contractData"))
             (lit "contractId")) = false -> contract = []).
Proof.
  unfold UploadContract.contract_of, UploadContract.contract_id.
  set (cd := prop (js_or (body req) (VObj [])) (lit "contractData")).
  intros H. split.
  - intros id Hid Hne. rewrite Hid in H.
    assert (truthy (js_and cd (VStr id)) = true) as T.
    { unfold js_and. destruct cd; cbn [prop] in Hid; try discriminate Hid.
      cbn [truthy]. destruct id; [contradiction | reflexivity]. }
    rewrite T in H. cbn [ToString] in H. now injection H as <-.
  - intros F.
    assert (truthy (js_and cd (prop cd (lit "contractId"))) = false) as T.
    { unfold js_and. destruct (truthy cd) eqn:Tc; [exact F | exact Tc]. }
    rewrite T in H. cbn [ToString] in H. now injection H as <-.
Qed.

(** X13.  An upload that passes validation, with the storage configured,
    sends one request, and the commit message of that request is
    [chore(contracts): add signed contract] followed by a space and the
    contract identifier of the request with trailing white space
    removed, and that text alone when the request has no identifier:
    the handler never falls back on the default [Add <path>] of
    [putFileToGitHub].  The identifier is the [contractId] of the
    request's [contractData]. *)
Theorem upload_commit_message {B : Builtins} (net : Network) (env : Env)
    (req : Request) (f contract : jstring) :
  UploadContract.well_formed req = true ->
  UploadContract.filename_of req = VStr f ->
  ToString (UploadContract.contract_of req) = Return contract ->
  UploadContract.configured env = true ->
  exists r : outbound,
    snd (UploadContract.handler net env req []) = [r] /\
    prop (body_of r) (lit "message")
      = VStr (lit "chore(contracts): add signed contract"
              ++ rev (trim_start (rev (32%N :: contract)))) /\
    (forall id,
       prop (prop (js_or (body req) (VObj [])) (lit "contractData"))
            (lit "contractId") = VStr id ->
       id <> [] ->
       prop (body_of r) (lit "message")
         = VStr (lit "chore(contracts): add signed contract"
                 ++ rev (trim_start (rev (32%N :: id))))) /\
    (truthy (prop (prop (js_or (body req) (VObj [])) (lit "contractData"))
               (lit "contractId")) = false ->
       prop (body_of r) (lit "message")
         = VStr (lit "chore(contracts): add signed contract")).
Proof.
  intros W Hf Hid C.
  destruct (contract_of_request req contract Hid) as [Hsome Hnone].
  destruct (commit_message_text contract) as [Htext [_ Hor]].
  exists (UploadContract.upload_request env f contract (UploadContract.content_of req)).
  assert (Hmsg : prop (body_of (UploadContract.upload_request env f contract
                                  (UploadContract.content_of req))) (lit "message")
                 = VStr (lit "chore(contracts): add signed contract"
                         ++ rev (trim_start (rev (32%N :: contract))))).
  { unfold UploadContract.upload_request. cbn [body_of prop own].
    rewrite str_eqb_refl, Hor, Htext. reflexivity. }
  split; [|split; [exact Hmsg|split]].
  - rewrite (upload_handler_eq net env req f contract W Hf Hid).
    rewrite (putFileToGitHub_eq net env f contract _ [] C). cbv zeta.
    destruct (net [] _) as [resp|e]; [|reflexivity].
    destruct (resp_json resp) as [d|e]; [|reflexivity].
    destruct (negb (ok resp)); [reflexivity|].
    destruct (get d (lit "content")); reflexivity.
  - intros id Hc Hne. rewrite <- (Hsome id Hc Hne). exact Hmsg.
  - intros F. rewrite Hmsg, (Hnone F). reflexivity.
Qed.

Lemma upload_commit_message_sample :
  exists r : outbound,
    snd (UploadContract.handler (B := Run.builtins) Run.net_github Run.env_set
           (Run.req_upload_signed "a.pdf" "C-1 ") []) = [r] /\
    prop (body_of r) (lit "message")
      = VStr (lit "chore(contracts): add signed contract C-1").
Proof.
  destruct (upload_commit_message (B := Run.builtins) Run.net_github Run.env_set
              (Run.req_upload_signed "a.pdf" "C-1 ") (lit "a.pdf") (lit "C-1 ")
              eq_refl eq_refl eq_refl eq_refl) as [r [Hrun [Hmsg _]]].
  exists r. split; [exact Hrun|]. rewrite Hmsg. reflexivity.
Defined.

(** ** The listing endpoints: edge cases *)

Section ListingEdges.

Context {B : Builtins} (net : Network) (env : Env).

Lemma query_q_absent (req : Request) :
  truthy (js_and (query req) (prop (query req) (lit "q"))) = false ->
  ListProducts.query_q req = Return [].
Proof.
  intros H. unfold ListProducts.query_q. now rewrite H.
Qed.

End ListingEdges.

(** X14.  Without a [q] parameter, or with an empty one, a successful
    products listing returns every product the service returned, in the
    same order, and counts them all. *)
Theorem products_unfiltered_without_q {B : Builtins} (net : Network) (env : Env)
    (req : Request) (resp : Response) (t : list outbound) :
  truthy (js_and (query req) (prop (query req) (lit "q"))) = false ->
  ListProducts.handler net env req [] = (Return resp, t) ->
  prop (data resp) (lit "error") = VUndefined ->
  exists business all,
    fst (ListProducts.fetched net env []) = Return (business, all) /\
    prop (data resp) (lit "products") = VArr all /\
    prop (data resp) (lit "count") = VNum (float_of_nat (List.length all)).
Proof.
  intros Hq Hrun Herr.
  destruct (list_products_cases net env req)
    as [resp' [t' [Hrun' [_ [[_ [_ Hd]] | [[_ [e [Hd _]]] | [_ Hok]]]]]]];
    rewrite Hrun in Hrun'; injection Hrun' as <- <-.
  - rewrite Hd in Herr. discriminate Herr.
  - rewrite Hd in Herr. destruct (error_response_defined e Herr).
  - destruct Hok as [business [all [id [nm [q0 [Hf [Hq0 Hd]]]]]]].
    rewrite (query_q_absent req Hq) in Hq0. injection Hq0 as <-.
    cbv zeta in Hd. cbn [truthy] in Hd.
    exists business, all. split; [exact Hf|]. rewrite Hd. split; reflexivity.
Qed.

Lemma products_unfiltered_without_q_sample :
  exists business all,
    fst (ListProducts.fetched (B := Run.builtins) Run.net_listing Run.env_set [])
      = Return (business, all) /\
    List.length all = 3%nat /\
    fst (ListProducts.handler (B := Run.builtins) Run.net_listing Run.env_set
           (Run.req_get VUndefined) [])
      = Return {| statusCode := 200;
                  data := VObj [ (lit "business",
                                  VObj [ (lit "id", VStr (lit "biz"));
                                         (lit "name", VStr (lit "Studio")) ]);
                                 (lit "count", VNum 3);
                                 (lit "products", VArr all) ] |}.
Proof.
  edestruct (products_unfiltered_without_q (B := Run.builtins) Run.net_listing
               Run.env_set (Run.req_get VUndefined))
    as [business [all [Hf _]]]; [reflexivity | cbv; reflexivity | reflexivity | ].
  exists business, all. split; [exact Hf|].
  cbv in Hf. injection Hf as _ <-. split; reflexivity.
Defined.

(** X15.  When the business the service returns has no accounts
    collection (or one without edges), the accounts listing is answered
    200 with an empty list and count 0, not with an error. *)
Theorem accounts_without_collection_is_empty {B : Builtins} (net : Network)
    (env : Env) (req : Request) (d b : value) :
  truthy (getenv (WAVE_BUSINESS_ID env)) = true ->
  fst (ListAccounts.accounts_query net env []) = Return d ->
  get d (lit "business") = Return b ->
  nullish b = false ->
  truthy (js_and (prop b (lit "accounts"))
            (prop (prop b (lit "accounts")) (lit "edges"))) = false ->
  fst (ListAccounts.handler net env req []) =
    Return {| statusCode := 200;
              data := VObj [ (lit "business",
                              VObj [ (lit "id", prop b (lit "id"));
                                     (lit "name", prop b (lit "name")) ]);
                             (lit "count", VNum 0);
                             (lit "accounts", VArr []) ] |}.
Proof.
  intros Hb Hq Hbus Hn Hedges.
  unfold ListAccounts.handler, ListAccounts.accounts_query, try_catch in *.
  rewrite truthy_or_empty, Hb. cbn [negb].
  unfold bind, lift, json, ret.
  destruct (Listing.waveQuery net env Accounts _ []) as [[d'|e] t];
    cbn [fst] in Hq; [|discriminate]. injection Hq as ->.
  rewrite Hbus, !(get_not_nullish _ _ Hn).
  assert (Listing.edges_of b (lit "accounts") = VArr []) as ->.
  { unfold Listing.edges_of, js_or.
    assert (truthy (js_and b (js_and (prop b (lit "accounts"))
                                (prop (prop b (lit "accounts")) (lit "edges"))))
            = false) as ->; [|reflexivity].
    unfold js_and at 1. destruct (truthy b) eqn:Tb; [exact Hedges | exact Tb]. }
  reflexivity.
Qed.

Lemma accounts_without_collection_is_empty_sample :
  fst (ListAccounts.handler (B := Run.builtins) Run.net_bare_business Run.env_set
         (Run.req_get VUndefined) []) =
    Return {| statusCode := 200;
              data := VObj [ (lit "business",
                              VObj [ (lit "id", VStr (lit "biz"));
                                     (lit "name", VStr (lit "Studio")) ]);
                             (lit "count", VNum 0);
                             (lit "accounts", VArr []) ] |}.
Proof.
  apply (accounts_without_collection_is_empty (B := Run.builtins)
           Run.net_bare_business Run.env_set (Run.req_get VUndefined)
           (VObj [ (lit "business",
                    VObj [ (lit "id", VStr (lit "biz"));
                           (lit "name", VStr (lit "Studio")) ]) ])
           (VObj [ (lit "id", VStr (lit "biz")); (lit "name", VStr (lit "Studio")) ]));
    reflexivity.
Defined.

(** X16.  When the service returns no business ([null], or none at all),
    the accounts listing does not answer with an empty list: reading the
    identifier of the business throws, and the answer is 200 with a
    non-empty [error] field. *)
Theorem accounts_null_business_is_an_error {B : Builtins} (net : Network)
    (env : Env) (req : Request) (d : value) :
  truthy (getenv (WAVE_BUSINESS_ID env)) = true ->
  fst (ListAccounts.accounts_query net env []) = Return d ->
  nullish d = false ->
  nullish (prop d (lit "business")) = true ->
  exists e : js_error,
    fst (ListAccounts.handler net env req []) =
      Return {| statusCode := 200; data := Listing.error_response e |} /\
    get (prop d (lit "business")) (lit "id") = Throw e /\
    truthy (prop (Listing.error_response e) (lit "error")) = true.
Proof.
  intros Hb Hq Hn Hnull.
  unfold ListAccounts.handler, ListAccounts.accounts_query, try_catch in *.
  rewrite truthy_or_empty, Hb. cbn [negb].
  unfold bind, lift, json, ret.
  destruct (Listing.waveQuery net env Accounts _ []) as [[d'|e] t];
    cbn [fst] in Hq; [|discriminate]. injection Hq as ->.
  rewrite (get_not_nullish _ _ Hn).
  destruct (prop d (lit "business")); try discriminate Hnull;
    eexists; (split; [reflexivity|]); (split; [reflexivity|]);
    apply error_response_truthy.
Qed.

Lemma accounts_null_business_is_an_error_sample :
  exists e : js_error,
    fst (ListAccounts.handler (B := Run.builtins) Run.net_null_business Run.env_set
           (Run.req_get VUndefined) []) =
      Return {| statusCode := 200; data := Listing.error_response e |} /\
    message e = lit "Cannot read properties of null (reading 'id')".
Proof.
  destruct (accounts_null_business_is_an_error (B := Run.builtins)
              Run.net_null_business Run.env_set (Run.req_get VUndefined)
              (VObj [ (lit "business", VNull) ]) eq_refl eq_refl eq_refl eq_refl)
    as [e [Hrun [He _]]].
  exists e. split; [exact Hrun|]. cbv in He. injection He as <-. reflexivity.
Defined.

(** ** The listing endpoints: requests issued *)

Section ListingRequests.

Context {B : Builtins} (net : Network) (env : Env).

Lemma listing_waveQuery_requests (q : operation) (v : value) (t : list outbound) :
  snd (Listing.waveQuery net env q v t)
    = if truthy (getenv (WAVE_API_KEY env))
      then t ++ [WavePost (bearer env) q v]
      else t.
Proof.
  unfold Listing.waveQuery, bearer.
  destruct (truthy (getenv (WAVE_API_KEY env))) eqn:H; cbn [negb]; [|reflexivity].
  rewrite (ToString_getenv _ H).
  unfold bind, fetch, lift, throw.
  destruct (net t _) as [resp|e]; [|reflexivity].
  destruct (resp_json resp) as [b|e]; [|reflexivity].
  destruct (get b (lit "errors")) as [errs|e]; [|reflexivity].
  destruct (negb (ok resp) || truthy errs); [reflexivity|].
  destruct (get b (lit "data")); reflexivity.
Qed.

Lemma or_empty_truthy (v : value) :
  truthy v = true -> js_or v (VStr []) = v.
Proof.
  intros H. unfold js_or. now rewrite H.
Qed.

End ListingRequests.

(** Steps that read the answer issue no request. *)
Ltac pure_steps :=
  unfold bind, lift, json, ret;
  repeat (cbv beta iota;
          match goal with
          | |- context [match ?x with Return _ => _ | Throw _ => _ end] => destruct x
          end);
  try reflexivity.

(** X17.  Each listing endpoint sends at most one request, whatever the
    service answers: the accounts and the products listing send their one
    query, with the business identifier as its only variable, when the
    business identifier and the API key are both set, and nothing
    otherwise; the business discovery sends its one query, without
    variables, when the API key is set.  The search text [q] of the
    products listing is never sent to the service. *)
Theorem listing_sends_at_most_one_query {B : Builtins} (net : Network) (env : Env)
    (req : Request) :
  snd (ListAccounts.handler net env req [])
    = (if truthy (getenv (WAVE_BUSINESS_ID env)) && truthy (getenv (WAVE_API_KEY env))
       then [WavePost (bearer env) Accounts
               (VObj [ (lit "id", getenv (WAVE_BUSINESS_ID env)) ])]
       else []) /\
  snd (ListProducts.handler net env req [])
    = (if truthy (getenv (WAVE_BUSINESS_ID env)) && truthy (getenv (WAVE_API_KEY env))
       then [WavePost (bearer env) Products
               (VObj [ (lit "id", getenv (WAVE_BUSINESS_ID env)) ])]
       else []) /\
  snd (GetBusinesses.handler net env req [])
    = (if truthy (getenv (WAVE_API_KEY env))
       then [WavePost (bearer env) Businesses (VObj [])]
       else []).
Proof.
  split; [|split].
  - unfold ListAccounts.handler, try_catch. rewrite truthy_or_empty.
    destruct (truthy (getenv (WAVE_BUSINESS_ID env))) eqn:Hb; cbn [negb andb];
      [|reflexivity].
    rewrite (or_empty_truthy _ Hb). unfold bind at 1.
    pose proof (listing_waveQuery_requests net env Accounts
                  (VObj [ (lit "id", getenv (WAVE_BUSINESS_ID env)) ]) []) as Ht.
    destruct (Listing.waveQuery net env Accounts _ []) as [[d|e] t];
      cbn [snd app] in Ht; subst t; [|reflexivity].
    pure_steps.
  - unfold ListProducts.handler, try_catch. rewrite truthy_or_empty.
    destruct (truthy (getenv (WAVE_BUSINESS_ID env))) eqn:Hb; cbn [negb andb];
      [|reflexivity].
    rewrite (or_empty_truthy _ Hb). unfold bind at 1.
    pose proof (listing_waveQuery_requests net env Products
                  (VObj [ (lit "id", getenv (WAVE_BUSINESS_ID env)) ]) []) as Ht.
    destruct (Listing.waveQuery net env Products _ []) as [[d|e] t];
      cbn [snd app] in Ht; subst t; [|reflexivity].
    pure_steps.
  - unfold GetBusinesses.handler, GetBusinesses.getBusinesses, try_catch.
    unfold bind at 1. unfold bind at 1.
    pose proof (listing_waveQuery_requests net env Businesses (VObj []) []) as Ht.
    destruct (Listing.waveQuery net env Businesses _ []) as [[d|e] t];
      cbn [snd app] in Ht; subst t; [|reflexivity].
    pure_steps.
Qed.

(** X18.  The business discovery answers 200 with the nodes of the
    edges the service returned, one per edge and in their order, when the
    query succeeds and every edge is an object. *)
Theorem discovery_lists_the_nodes {B : Builtins} (net : Network) (env : Env)
    (req : Request) (d : value) (edges : list value) :
  fst (Listing.waveQuery net env Businesses (VObj []) []) = Return d ->
  nullish d = false ->
  prop (prop d (lit "businesses")) (lit "edges") = VArr edges ->
  Forall (fun e => nullish e = false) edges ->
  fst (GetBusinesses.handler net env req [])
    = Return {| statusCode := 200;
                data := VObj [ (lit "businesses",
                                VArr (List.map (fun e => prop e (lit "node")) edges)) ] |}.
Proof.
  intros Hq Hd He Hall.
  unfold GetBusinesses.handler, GetBusinesses.getBusinesses, try_catch.
  unfold bind at 1. unfold bind at 1.
  destruct (Listing.waveQuery net env Businesses _ []) as [[d'|e] t];
    cbn [fst] in Hq; [|discriminate]. injection Hq as ->.
  unfold bind, lift, json, ret. rewrite (get_not_nullish _ _ Hd).
  assert (Hb : nullish (prop d (lit "businesses")) = false).
  { destruct (prop d (lit "businesses")); try reflexivity; discriminate He. }
  rewrite (get_not_nullish _ _ Hb), He. cbn [Listing.call_map].
  assert (Hmap : Listing.map_outcome Listing.node_of edges
                 = Return (List.map (fun e => prop e (lit "node")) edges)).
  { clear He. induction Hall as [|e edges Hn _ IH]; [reflexivity|].
    cbn [Listing.map_outcome List.map]. unfold Listing.node_of at 1.
    rewrite (get_not_nullish _ _ Hn), IH. reflexivity. }
  rewrite Hmap. reflexivity.
Qed.

Lemma discovery_lists_the_nodes_sample :
  fst (GetBusinesses.handler (B := Run.builtins) Run.net_businesses Run.env_set
         (Run.req_get VUndefined) [])
    = Return {| statusCode := 200;
                data := VObj [ (lit "businesses",
                  VArr [ VObj [ (lit "id", VStr (lit "b1"));
                                (lit "name", VStr (lit "Studio")) ];
                         VObj [ (lit "id", VStr (lit "b2"));
                                (lit "name", VStr (lit "Lab")) ] ]) ] |}.
Proof.
  apply (discovery_lists_the_nodes (B := Run.builtins) Run.net_businesses Run.env_set
           (Run.req_get VUndefined)
           (VObj [ (lit "businesses",
                    VObj [ (lit "edges",
                            VArr [ Run.edge "b1" "Studio"; Run.edge "b2" "Lab" ]) ]) ])
           [ Run.edge "b1" "Studio"; Run.edge "b2" "Lab" ]);
    [reflexivity | reflexivity | reflexivity | repeat constructor].
Defined.

(** ** The provisioning endpoint *)

Import Provisioning.

Section ProvisioningFacts.

Context {B : Builtins} (net : Network) (env : Env).

Lemma products_waveQuery_trace (q : operation) (v : value) (t : list outbound) :
  truthy (getenv (WAVE_API_KEY env)) = true ->
  snd (CreateProducts.waveQuery net env q v t)
    = t ++ [WavePost (lit "Bearer " ++ env_text (WAVE_API_KEY env)) q v].
Proof.
  intros H. unfold CreateProducts.waveQuery. rewrite H, (ToString_getenv _ H).
  cbn [negb]. unfold bind, fetch, lift, throw.
  destruct (net t _) as [resp|e]; [|reflexivity].
  destruct (resp_json resp) as [b|e]; [|reflexivity].
  destruct (get b (lit "errors")) as [errs|e]; [|reflexivity].
  destruct (negb (ok resp) || truthy errs); [reflexivity|].
  destruct (get b (lit "data")); reflexivity.
Qed.

Lemma products_waveQuery_unconfigured (q : operation) (v : value)
    (t : list outbound) :
  truthy (getenv (WAVE_API_KEY env)) = false ->
  CreateProducts.waveQuery net env q v t = (Throw Missing_WAVE_API_KEY, t).
Proof.
  intros H. unfold CreateProducts.waveQuery. now rewrite H.
Qed.

(** What both variants of [createProduct] do with the payload. *)
Ltac payload_cases :=
  unfold lift, throw, ret, bind;
  repeat match goal with
         | |- context [match get ?d ?k with _ => _ end] => destruct (get d k)
         | |- context [if did_fail ?r ?k then _ else _] =>
             destruct (did_fail r k) eqn:?
         | |- context [match ToString ?m with _ => _ end] => destruct (ToString m)
         | |- context [match (if truthy (firstErr ?r) then ?a else ?b) with _ => _ end] =>
             destruct (if truthy (firstErr r) then a else b)
         end.

Lemma createProduct_trace (b n d : value) (price : float) (acct : value)
    (t : list outbound) :
  truthy (getenv (WAVE_API_KEY env)) = true ->
  snd (CreateProducts.createProduct net env b n d price acct t)
    = t ++ [WavePost (lit "Bearer " ++ env_text (WAVE_API_KEY env)) ProductCreate
              (priced_variables b n d price acct)].
Proof.
  intros K. unfold CreateProducts.createProduct, priced_variables.
  unfold bind at 1.
  match goal with
  | |- context [CreateProducts.waveQuery net env ProductCreate ?v t] =>
      pose proof (products_waveQuery_trace ProductCreate v t K) as Ht;
      destruct (CreateProducts.waveQuery net env ProductCreate v t) as [[x|e] t']
  end; cbn [snd] in Ht; subst t'; [|reflexivity].
  payload_cases; reflexivity.
Qed.

Lemma createProduct_minimal_trace (b n d : value) (t : list outbound) :
  truthy (getenv (WAVE_API_KEY env)) = true ->
  snd (createProduct_minimal net env b n d t)
    = t ++ [WavePost (lit "Bearer " ++ env_text (WAVE_API_KEY env)) ProductCreate
              (minimal_variables b n d)].
Proof.
  intros K. unfold createProduct_minimal.
  unfold bind at 1.
  pose proof (products_waveQuery_trace ProductCreate (minimal_variables b n d) t K)
    as Ht.
  destruct (CreateProducts.waveQuery net env ProductCreate _ t) as [[x|e] t'];
    cbn [snd] in Ht; subst t'; [|reflexivity].
  payload_cases; reflexivity.
Qed.

Lemma did_fail_payload (res : value) (k : jstring) :
  did_fail res k = false -> truthy (prop res k) = true.
Proof.
  unfold did_fail. intros H.
  apply orb_false_iff in H. destruct H as [_ H].
  now apply negb_false_iff in H.
Qed.


Lemma createProduct_minimal_truthy (b n d : value) (t : list outbound) (p : value) :
  fst (createProduct_minimal net env b n d t) = Return p -> truthy p = true.
Proof.
  unfold createProduct_minimal. unfold bind at 1.
  destruct (CreateProducts.waveQuery net env ProductCreate _ t) as [[x|e] t'];
    [|discriminate].
  unfold bind at 1. unfold lift at 1.
  destruct (get x (lit "productCreate")) as [res|e]; [|discriminate].
  destruct (did_fail res (lit "product")) eqn:F.
  - payload_cases; discriminate.
  - unfold ret. cbn [fst]. intros H. injection H as <-.
    exact (did_fail_payload _ _ F).
Qed.

Lemma createProduct_unconfigured (b n d : value) (price : float) (acct : value)
    (t : list outbound) :
  truthy (getenv (WAVE_API_KEY env)) = false ->
  CreateProducts.createProduct net env b n d price acct t
    = (Throw Missing_WAVE_API_KEY, t).
Proof.
  intros K. unfold CreateProducts.createProduct. unfold bind at 1.
  now rewrite (products_waveQuery_unconfigured _ _ _ K).
Qed.

Lemma createProduct_minimal_unconfigured (b n d : value) (t : list outbound) :
  truthy (getenv (WAVE_API_KEY env)) = false ->
  createProduct_minimal net env b n d t = (Throw Missing_WAVE_API_KEY, t).
Proof.
  intros K. unfold createProduct_minimal. unfold bind at 1.
  now rewrite (products_waveQuery_unconfigured _ _ _ K).
Qed.

End ProvisioningFacts.

(** *** The loop over the packages *)

Section Loop.

Variable create : package -> M value.

(** The loop never throws. *)
Lemma for_each_returns (entries : list (jstring * package)) (acc : tally)
    (t : list outbound) :
  exists acc' t', for_each create entries acc t = (Return acc', t').
Proof.
  revert acc t. induction entries as [|entry rest IH]; intros acc t.
  - eexists; eexists; reflexivity.
  - cbn [for_each]. unfold bind at 1. unfold attempt, try_catch, bind, ret.
    destruct (create (snd entry) t) as [[v|e] t1]; apply IH.
Qed.

(** When every call issues its one request, the loop issues one request
    per package, in the order of the packages. *)
Lemma for_each_trace (request_of : package -> outbound)
    (entries : list (jstring * package)) (acc : tally) (t : list outbound) :
  (forall p t0, snd (create p t0) = t0 ++ [request_of p]) ->
  snd (for_each create entries acc t)
    = t ++ List.map (fun entry => request_of (snd entry)) entries.
Proof.
  intros H. revert acc t. induction entries as [|entry rest IH]; intros acc t.
  - cbn. now rewrite app_nil_r.
  - cbn [for_each List.map]. unfold bind at 1. unfold attempt, try_catch, bind, ret.
    specialize (H (snd entry) t).
    destruct (create (snd entry) t) as [[v|e] t1]; cbn [snd] in H; subst t1;
      rewrite IH, <- app_assoc; reflexivity.
Qed.

(** When every call throws the same error without a request, every
    package is recorded with that error. *)
Lemma for_each_all_fail (e0 : js_error) (t : list outbound) :
  (forall p t0, create p t0 = (Throw e0, t0)) ->
  for_each create PACKAGES empty_tally t = (Return (all_failed e0), t).
Proof.
  intros H. cbn [for_each PACKAGES].
  unfold attempt, try_catch, bind, ret. cbv beta. cbn [fst snd].
  rewrite H. cbv beta iota. rewrite H. cbv beta iota. rewrite H. reflexivity.
Qed.


(** The tally after the loop over the three packages: the created products
    are recorded under their keys in the order of the catalog, every other
    key of the catalog is recorded with an error, and every recorded
    product is truthy. *)
Lemma for_each_packages (t : list outbound) :
  (forall p t0 v, fst (create p t0) = Return v -> truthy v = true) ->
  exists r e t',
    for_each create PACKAGES empty_tally t
      = (Return {| results := r; errors := e |}, t') /\
    List.map fst r = List.filter (has_own r) (List.map fst PACKAGES) /\
    List.map fst e
      = List.filter (fun k => negb (has_own r k)) (List.map fst PACKAGES) /\
    Forall (fun kv => truthy (snd kv) = true) r.
Proof.
  intros H. cbn [for_each PACKAGES].
  unfold attempt, try_catch, bind, ret. cbv beta. cbn [fst snd].
  do 3 (match goal with
        | |- context [create ?p ?t0] =>
            pose proof (H p t0) as ?; destruct (create p t0) as [[?|?] ?]
        end; cbv beta iota);
  cbn [fst] in *;
  eexists; eexists; eexists; (split; [reflexivity|]);
  (split; [reflexivity|]); (split; [reflexivity|]);
  repeat constructor; cbn [snd]; auto.
Qed.

End Loop.

Section ProvisioningHandlers.

Context {B : Builtins} (net : Network) (env : Env).

Lemma is_string_eq (x : value) (s : jstring) :
  is_string x s = true <-> x = VStr s.
Proof.
  destruct x; cbn [is_string]; try (split; discriminate).
  rewrite str_eqb_eq. split; [now intros -> | now intros [= ->]].
Qed.

Lemma may_create_gate (req : Request) :
  negb (str_eqb (method req) (lit "POST")) && negb (truthy (isGetConfirmed req))
    = negb (may_create req).
Proof.
  unfold may_create. now rewrite negb_orb.
Qed.

End ProvisioningHandlers.

(** X19.  The variant with prices provisions on POST, or on GET when the
    query carries [create] equal to the string [1] or [true], and on
    nothing else: any other request is answered 405 with no request to the
    service.  The variant without prices provisions on POST only. *)
Theorem provisioning_method_gate {B : Builtins} (net : Network) (env : Env)
    (req : Request) :
  (may_create req = true <->
     method req = lit "POST" \/
     (method req = lit "GET" /\
      (prop (query req) (lit "create") = VStr (lit "1") \/
       prop (query req) (lit "create") = VStr (lit "true")))) /\
  (may_create req = false ->
     Provisioning.handler net env req []
       = (Return {| statusCode := 405;
                    data := VObj [ (lit "error",
                      VStr (lit "Method not allowed. Use POST or GET with ?create=1")) ] |},
          [])) /\
  (str_eqb (method req) (lit "POST") = false ->
     handler_minimal net env req []
       = (Return {| statusCode := 405;
                    data := VObj [ (lit "error", VStr (lit "Method not allowed")) ] |},
          [])).
Proof.
  split; [|split].
  - unfold may_create, isGetConfirmed. rewrite orb_true_iff, str_eqb_eq. split.
    + intros [H|H]; [now left | right].
      destruct (str_eqb (method req) (lit "GET")) eqn:G; [|discriminate H].
      apply str_eqb_eq in G. split; [exact G|].
      unfold js_and in H. destruct (truthy (query req)) eqn:Q;
        [|rewrite Q in H; discriminate H].
      cbn [truthy] in H. apply orb_true_iff in H.
      destruct H as [H|H]; apply is_string_eq in H; [now left | now right].
    + intros [H|[G H]]; [now left | right].
      rewrite G. change (str_eqb (lit "GET") (lit "GET")) with true. cbv iota.
      destruct (query req) as [| | | | | | props]; cbn [prop] in H;
        try (destruct H as [H|H]; discriminate H).
      unfold js_and. cbn [truthy prop].
      apply orb_true_iff.
      destruct H as [H|H]; [left | right]; now apply is_string_eq.
  - intros H. unfold Provisioning.handler, try_catch.
    rewrite may_create_gate, H. reflexivity.
  - intros H. unfold handler_minimal, try_catch. rewrite H. reflexivity.
Qed.

(** X20.  A provisioning request that passes the method gate with the
    business identifier or the income account unset or empty is answered
    200 with an [error] and a [note] naming the first missing variable,
    the business identifier first, and no request is sent to the
    service. *)
Theorem provisioning_needs_configuration {B : Builtins} (net : Network) (env : Env)
    (req : Request) :
  may_create req = true ->
  truthy (getenv (WAVE_BUSINESS_ID env))
    && truthy (getenv (WAVE_INCOME_ACCOUNT_ID env)) = false ->
  Provisioning.handler net env req []
    = (Return {| statusCode := 200;
                 data := if truthy (getenv (WAVE_BUSINESS_ID env))
                         then Missing_WAVE_INCOME_ACCOUNT_ID
                         else Missing_WAVE_BUSINESS_ID |}, []).
Proof.
  intros G H. unfold Provisioning.handler, try_catch.
  rewrite may_create_gate, G. cbn [negb]. rewrite !truthy_or_empty.
  destruct (truthy (getenv (WAVE_BUSINESS_ID env))); [|reflexivity].
  cbn [andb] in H. rewrite H. reflexivity.
Qed.

Lemma provisioning_needs_configuration_no_income_account :
  Provisioning.handler (B := Run.builtins) Run.net_second_rejected Run.env_no_product
    {| method := lit "GET"; body := VUndefined;
       query := VObj [ (lit "create", VStr (lit "1")) ] |} []
  = (Return {| statusCode := 200; data := Missing_WAVE_INCOME_ACCOUNT_ID |}, []).
Proof.
  apply (provisioning_needs_configuration (B := Run.builtins)
           Run.net_second_rejected Run.env_no_product); reflexivity.
Defined.

(** X21.  Once the gates are passed and an API key is set, the variant
    with prices sends exactly three product-creation requests, for core,
    growth and full in this order, however the service answers: a failed
    creation does not stop the loop.  Each request carries the name, the
    description and the price of its package, the price as a string. *)
Theorem provisioning_sends_three_requests {B : Builtins} (net : Network) (env : Env)
    (req : Request) :
  may_create req = true ->
  truthy (getenv (WAVE_BUSINESS_ID env)) = true ->
  truthy (getenv (WAVE_INCOME_ACCOUNT_ID env)) = true ->
  truthy (getenv (WAVE_API_KEY env)) = true ->
  snd (Provisioning.handler net env req [])
    = List.map (fun entry => priced_request env (snd entry)) PACKAGES /\
  operations (snd (Provisioning.handler net env req []))
    = [Some ProductCreate; Some ProductCreate; Some ProductCreate].
Proof.
  intros G Hb Hi K.
  assert (Ht : snd (Provisioning.handler net env req [])
               = List.map (fun entry => priced_request env (snd entry)) PACKAGES).
  { unfold Provisioning.handler, try_catch.
    rewrite may_create_gate, G. cbn [negb]. rewrite !truthy_or_empty, Hb, Hi.
    cbn [negb]. unfold bind, json, ret.
    match goal with
    | |- context [for_each ?c PACKAGES empty_tally []] =>
        pose proof (for_each_trace c (priced_request env) PACKAGES empty_tally []
                      (fun p t0 => createProduct_trace net env _ _ _ _ _ t0 K)) as Ht;
        destruct (for_each_returns c PACKAGES empty_tally []) as [acc [t' Hrun]];
        rewrite Hrun in *
    end.
    exact Ht. }
  split; [exact Ht|]. rewrite Ht. reflexivity.
Qed.

Lemma provisioning_sends_three_requests_despite_a_failure :
  operations
    (snd (Provisioning.handler (B := Run.builtins) Run.net_second_rejected
            Run.env_override
            Run.req_post []))
    = [Some ProductCreate; Some ProductCreate; Some ProductCreate] /\
  prop (prop (variables_of
    (nth 1 (snd (Provisioning.handler (B := Run.builtins) Run.net_second_rejected
                   Run.env_override
                   Run.req_post
                   []))
       (GitHubPut [] [] [] VNull))) (lit "input")) (lit "unitPrice")
    = VStr (lit "7500").
Proof.
  destruct (provisioning_sends_three_requests (B := Run.builtins)
              Run.net_second_rejected Run.env_override
              Run.req_post
              eq_refl eq_refl eq_refl eq_refl) as [Ht Hops].
  split; [exact Hops|]. rewrite Ht. reflexivity.
Defined.



(** X23.  Without an API key, a provisioning request that passes the
    gates still answers 200: all three keys are recorded under [errors]
    with the message [Missing WAVE_API_KEY] and its guidance as details,
    [didSucceed] is false, no product is recorded, every hint is
    [undefined], and no request is sent.  This holds for both variants. *)
Theorem provisioning_without_api_key {B : Builtins} (net : Network) (env : Env)
    (req : Request) :
  truthy (getenv (WAVE_API_KEY env)) = false ->
  truthy (getenv (WAVE_BUSINESS_ID env)) = true ->
  (may_create req = true ->
   truthy (getenv (WAVE_INCOME_ACCOUNT_ID env)) = true ->
   Provisioning.handler net env req []
     = (Return {| statusCode := 200;
                  data := summary (all_failed Missing_WAVE_API_KEY) |}, [])) /\
  (str_eqb (method req) (lit "POST") = true ->
   handler_minimal net env req []
     = (Return {| statusCode := 200;
                  data := summary (all_failed Missing_WAVE_API_KEY) |}, [])) /\
  summary (all_failed Missing_WAVE_API_KEY)
    = VObj [ (lit "didSucceed", VBool false);
             (lit "products", VObj []);
             (lit "errors",
              VObj [ (lit "core", error_entry Missing_WAVE_API_KEY);
                     (lit "growth", error_entry Missing_WAVE_API_KEY);
                     (lit "full", error_entry Missing_WAVE_API_KEY) ]);
             (lit "envHints",
              VObj [ (lit "WAVE_PRODUCT_ID_CORE", VUndefined);
                     (lit "WAVE_PRODUCT_ID_GROWTH", VUndefined);
                     (lit "WAVE_PRODUCT_ID_FULL", VUndefined) ]) ] /\
  error_entry Missing_WAVE_API_KEY
    = VObj [ (lit "message", VStr (lit "Missing WAVE_API_KEY"));
             (lit "details",
              VArr [ VObj [ (lit "message",
                VStr (lit "Set WAVE_API_KEY in your deployment environment.")) ] ]) ].
Proof.
  intros K Hb. split; [|split; [|split; reflexivity]].
  - intros G Hi. unfold Provisioning.handler, try_catch.
    rewrite may_create_gate, G. cbn [negb]. rewrite !truthy_or_empty, Hb, Hi.
    cbn [negb]. unfold bind, json, ret.
    rewrite (for_each_all_fail _ Missing_WAVE_API_KEY []
               (fun p t0 => createProduct_unconfigured net env _ _ _ _ _ t0 K)).
    reflexivity.
  - intros P. unfold handler_minimal, try_catch.
    rewrite P. cbn [negb]. rewrite !truthy_or_empty, Hb.
    cbn [negb]. unfold bind, json, ret.
    rewrite (for_each_all_fail _ Missing_WAVE_API_KEY []
               (fun p t0 => createProduct_minimal_unconfigured net env _ _ _ t0 K)).
    reflexivity.
Qed.

Lemma provisioning_without_api_key_post :
  Provisioning.handler (B := Run.builtins) Run.net_second_rejected Run.env_no_key
    Run.req_post []
  = (Return {| statusCode := 200;
               data := summary (all_failed Missing_WAVE_API_KEY) |}, []).
Proof.
  apply (provisioning_without_api_key (B := Run.builtins) Run.net_second_rejected
           Run.env_no_key Run.req_post eq_refl eq_refl); reflexivity.
Defined.

(** X24.  The variant without prices, on a POST with the business
    identifier set: the answer is 200 with the summary of the loop, every
    key of the catalog recorded exactly once, under [products] or under
    [errors]; with an API key set it sends exactly three requests, in
    catalog order, none of which carries a price or an income account. *)
Theorem provisioning_minimal_answer {B : Builtins} (net : Network) (env : Env)
    (req : Request) :
  str_eqb (method req) (lit "POST") = true ->
  truthy (getenv (WAVE_BUSINESS_ID env)) = true ->
  exists r e t,
    handler_minimal net env req []
      = (Return {| statusCode := 200;
                   data := summary {| results := r; errors := e |} |}, t) /\
    List.map fst r = List.filter (has_own r) (List.map fst PACKAGES) /\
    List.map fst e
      = List.filter (fun k => negb (has_own r k)) (List.map fst PACKAGES) /\
    (truthy (getenv (WAVE_API_KEY env)) = true ->
       t = List.map (fun entry => minimal_request env (snd entry)) PACKAGES /\
       Forall (fun r0 => prop (prop (variables_of r0) (lit "input")) (lit "unitPrice")
                           = VUndefined /\
                         prop (prop (variables_of r0) (lit "input"))
                           (lit "incomeAccountId") = VUndefined) t).
Proof.
  intros P Hb.
  unfold handler_minimal, try_catch.
  rewrite P. cbn [negb]. rewrite !truthy_or_empty, Hb.
  cbn [negb]. unfold bind, json, ret.
  match goal with
  | |- context [for_each ?c PACKAGES empty_tally []] =>
      pose proof (fun K => for_each_trace c (minimal_request env) PACKAGES
                             empty_tally []
                      (fun p t0 => createProduct_minimal_trace net env _ _ _ t0 K))
        as Ht;
      destruct (for_each_packages c []
                  (fun p t0 v => createProduct_minimal_truthy net env _ _ _ t0 v))
        as [r [e [t' [Hrun [Hr [He Hv]]]]]];
      rewrite Hrun in *
  end.
  exists r, e, t'. split; [reflexivity|]. split; [exact Hr|]. split; [exact He|].
  intros K. specialize (Ht K). cbn [snd app] in Ht. split; [exact Ht|].
  rewrite Ht. repeat constructor.
Qed.

Lemma provisioning_minimal_answer_with_a_failure :
  exists r e t,
    handler_minimal (B := Run.builtins) Run.net_second_rejected Run.env_no_product
      Run.req_post []
      = (Return {| statusCode := 200;
                   data := summary {| results := r; errors := e |} |}, t) /\
    List.map fst r = [lit "core"; lit "full"] /\
    List.map fst e = [lit "growth"] /\
    List.length t = 3%nat.
Proof.
  destruct (provisioning_minimal_answer (B := Run.builtins) Run.net_second_rejected
              Run.env_no_product
              Run.req_post
              eq_refl eq_refl) as [r [e [t [Hrun _]]]].
  exists r, e, t. split; [exact Hrun|].
  apply (f_equal (fun o => match fst o with
                           | Return x => (prop (data x) (lit "products"),
                                          prop (data x) (lit "errors"), snd o)
                           | Throw _ => (VNull, VNull, [])
                           end)) in Hrun.
  cbv in Hrun. injection Hrun as <- <- <-. repeat split.
Defined.
